(** * LedgerMind core: analytics, anomaly detection, forecasting, insights

    A shallow embedding of the numeric core of the repository
    ([src/core/analytics.ts], [src/core/anomaly.ts],
    [src/core/forecasting.ts], [src/core/insight-engine.ts] and the numeric
    helpers of [src/lib/utils.ts]) together with the properties stated
    about it.

    Numbers.  A JavaScript [number] is embedded twice.

    The main embedding takes numbers as exact rationals ([Q]): [+], [-],
    [*], [/] are the field operations, comparisons are the rational ones,
    and equality is [Qeq] (written [==]); every guard the source puts in
    front of a division is kept as written.  Quantities the source
    obtains from [Math.round] or from [Array.length] are integers and are
    typed [Z].  Rationals do not round and do not overflow, so a property
    proved on them is a property of the code where the doubles of the code
    stay finite and the property does not turn on the last bit of a sum:
    orders and bounds that every correctly rounded operation preserves,
    counts, keys, and values rounded by [toFixed] away from a tie.  Such
    properties carry a cap on the magnitude of the amounts where an
    overflow would break them.

    [Module Binary64] embeds the functions for which that is not enough
    over IEEE-754 doubles, with [NaN], the infinities, signed zeros and
    correctly rounded operations.  What depends on a sum being exact (the
    guard [stdDev === 0] on a flat series) is proved there, and so are the
    inputs on which the code leaves the rationals behind (a total that
    overflows, a share that rounds the other way). *)

From Stdlib Require Import QArith Qround Qabs ZArith List String Ascii Bool.
From Stdlib Require Import Lia Lqa Permutation DecimalString Morphisms Setoid.
From Stdlib Require Import Sorted OrderedTypeEx SpecFloat.
Import ListNotations.
Open Scope string_scope.
Open Scope list_scope.
Open Scope Q_scope.

(** ** The JavaScript built-ins the sources rely on *)

Module JS.

(** Comparison operators on numbers. *)
Definition num_lt (a b : Q) : bool := negb (Qle_bool b a).
Definition num_le (a b : Q) : bool := Qle_bool a b.
Definition num_gt (a b : Q) : bool := num_lt b a.
Definition num_ge (a b : Q) : bool := num_le b a.
Definition num_eq (a b : Q) : bool := Qeq_bool a b.

Definition Math_min (a b : Q) : Q := if Qle_bool a b then a else b.
Definition Math_max (a b : Q) : Q := if Qle_bool a b then b else a.
Definition Math_abs (a : Q) : Q := Qabs a.

(** [Math.round]: the nearest integer, halves towards +infinity. *)
Definition Math_round (x : Q) : Z := Qfloor (x + (1#2)).

(** [Math.pow(x, 2)], the only exponent the sources use. *)
Definition Math_pow2 (x : Q) : Q := x ^ 2.

(** [x || 0] on numbers: the only falsy rational is [0]. *)
Definition orZero (x : Q) : Q := if Qeq_bool x 0 then 0 else x.

Definition pow10 (f : nat) : Z := Z.pow 10 (Z.of_nat f).

(** [Number.prototype.toFixed(f)] works on the magnitude of [x]: it takes
    the integer [n] for which [n / 10^f] is nearest to [|x|], the larger
    one of two candidates, and prefixes a minus sign when [x < 0].  (The
    exponent notation it switches to from 1e21 on denotes the same
    number.) *)
Definition toFixed_digits (x : Q) (f : nat) : Z :=
  Qfloor (Qabs x * inject_Z (pow10 f) + (1#2)).

(** [parseFloat(x.toFixed(f))]: the number the decimal string denotes. *)
Definition parseFloat_toFixed (x : Q) (f : nat) : Q :=
  let n := toFixed_digits x f in
  inject_Z (if num_lt x 0 then - n else n) / inject_Z (pow10 f).

(** Decimal rendering of an integer, as [String(n)] does. *)
Definition Z_toString (z : Z) : string :=
  match z with
  | Z0 => "0"
  | Zpos p => NilZero.string_of_uint (Pos.to_uint p)
  | Zneg p => ("-" ++ NilZero.string_of_uint (Pos.to_uint p))%string
  end.

Fixpoint repeat_char (c : ascii) (n : nat) : string :=
  match n with
  | O => EmptyString
  | S n' => String c (repeat_char c n')
  end.

(** [s.padStart(n, c)] for a one-character filler. *)
Definition padStart (n : nat) (c : ascii) (s : string) : string :=
  (repeat_char c (n - String.length s) ++ s)%string.

(** The string [x.toFixed(f)]. *)
Definition toFixed (x : Q) (f : nat) : string :=
  let digits := padStart (S f) "0" (Z_toString (toFixed_digits x f)) in
  let k := (String.length digits - f)%nat in
  let body :=
    match f with
    | O => digits
    | _ => (substring 0 k digits ++ "." ++ substring k f digits)%string
    end in
  if num_lt x 0 then ("-" ++ body)%string else body.

(** [s.split(c)[0]]: the part of [s] before the first [c]. *)
Fixpoint split_head (c : ascii) (s : string) : string :=
  match s with
  | EmptyString => EmptyString
  | String a s' => if Ascii.eqb a c then EmptyString else String a (split_head c s')
  end.

Definition lower_char (a : ascii) : ascii :=
  let n := nat_of_ascii a in
  if andb (Nat.leb 65 n) (Nat.leb n 90) then ascii_of_nat (n + 32) else a.

(** [s.toLowerCase()] on the ASCII letters the titles are made of. *)
Fixpoint toLowerCase (s : string) : string :=
  match s with
  | EmptyString => EmptyString
  | String a s' => String (lower_char a) (toLowerCase s')
  end.

(** [a.join(sep)]. *)
Definition join (sep : string) (l : list string) : string := String.concat sep l.

(** [a.localeCompare(b)] on the keys the sources compare (digits and
    dashes), where it is the code-unit order. *)
Definition localeCompare (a b : string) : Q :=
  match String.compare a b with
  | Lt => -1
  | Eq => 0
  | Gt => 1
  end.

(** [Array.prototype.sort(cmp)]: a stable sort; [cmp a b <= 0] keeps [a]
    in front of [b]. *)
Fixpoint sort_insert {A : Type} (cmp : A -> A -> Q) (x : A) (l : list A) : list A :=
  match l with
  | [] => [x]
  | y :: l' => if Qle_bool (cmp x y) 0 then x :: y :: l' else y :: sort_insert cmp x l'
  end.

Fixpoint sort {A : Type} (cmp : A -> A -> Q) (l : list A) : list A :=
  match l with
  | [] => []
  | x :: l' => sort_insert cmp x (sort cmp l')
  end.

(** [a.slice(0, n)] and [a.slice(-n)]. *)
Definition slice_to {A : Type} (n : nat) (l : list A) : list A := firstn n l.
Definition slice_last {A : Type} (n : nat) (l : list A) : list A :=
  skipn (List.length l - n) l.

(** [a.length], as a number. *)
Definition num_length {A : Type} (l : list A) : Q := inject_Z (Z.of_nat (List.length l)).

(** [a.reduce((sum, p) => sum + f(p), 0)]. *)
Definition reduce_sum {A : Type} (f : A -> Q) (l : list A) : Q :=
  fold_left (fun sum p => sum + f p) l 0.

(** [Map<string, V>]: keys in insertion order; [set] on a present key
    replaces the value in place. *)
Section StringMap.
Context {V : Type}.

Fixpoint Map_get (m : list (string * V)) (k : string) : option V :=
  match m with
  | [] => None
  | (k', v) :: m' => if String.eqb k' k then Some v else Map_get m' k
  end.

Fixpoint Map_set (m : list (string * V)) (k : string) (v : V) : list (string * V) :=
  match m with
  | [] => [(k, v)]
  | (k', v') :: m' =>
      if String.eqb k' k then (k', v) :: m' else (k', v') :: Map_set m' k v
  end.

(** [m.get(k) || d] for object values, which are always truthy. *)
Definition Map_get_or (m : list (string * V)) (k : string) (d : V) : V :=
  match Map_get m k with
  | Some v => v
  | None => d
  end.
End StringMap.

(** The [Date] built-in, as far as the sources observe it.  Dates are
    assumed valid (the ingestion layer rejects unparseable ones). *)
Class DateAPI (Date : Type) := {
  Date_parse : string -> Date;            (* new Date(s) *)
  Date_getTime : Date -> Q;               (* d.getTime() *)
  Date_getFullYear : Date -> Z;
  Date_getMonth : Date -> Z;              (* 0 .. 11 *)
  Date_getDate : Date -> Z;
  Date_setDate : Date -> Z -> Date;       (* copy of d after d.setDate(n) *)
  Date_toISOString : Date -> string;
  Date_weekdayLong : Date -> string;      (* toLocaleDateString('en-US', {weekday: 'long'}) *)
  Date_monthDayShort : Date -> string     (* toLocaleDateString('en-US', {month: 'short', day: 'numeric'}) *)
}.

(** [Math.sqrt], of which only the value at zero is relied on. *)
Class SqrtAPI := {
  Math_sqrt : Q -> Q;
  Math_sqrt_zero : forall x, x == 0 -> Math_sqrt x == 0
}.

(** [a.slice(start, stop)] for non-negative bounds. *)
Definition slice {A : Type} (start stop : nat) (l : list A) : list A :=
  firstn (stop - start) (skipn start l).

(** [a.map((x, index) => f(x, index))], counting from [index]. *)
Fixpoint map_index {A B : Type} (f : A -> nat -> B) (index : nat) (l : list A) : list B :=
  match l with
  | [] => []
  | x :: l' => f x index :: map_index f (S index) l'
  end.

End JS.

(** ** The data model ([src/types/index.ts])

    Only the fields the core reads or writes are kept; identifiers and
    bookkeeping timestamps of a transaction play no part in it. *)

Module Transaction.
Record t (Date : Type) := mk {
  date : Date;
  productName : string;
  quantity : Q;
  revenue : Q;
  cost : Q
}.
Arguments mk {Date}.
Arguments date {Date}.
Arguments productName {Date}.
Arguments quantity {Date}.
Arguments revenue {Date}.
Arguments cost {Date}.
End Transaction.

Module DailyRevenue.
Record t := mk { date : string; revenue : Q; cost : Q; profit : Q }.
End DailyRevenue.

Module MonthlyRevenue.
Record t := mk { month : string; revenue : Q; cost : Q; profit : Q; profitMargin : Q }.
End MonthlyRevenue.

Module ProductPerformance.
Record t := mk {
  productName : string;
  totalRevenue : Q;
  totalCost : Q;
  totalProfit : Q;
  profitMargin : Q;
  quantity : Q;
  transactionCount : Z
}.
End ProductPerformance.

Module BusinessHealthMetrics.
Record t := mk {
  score : Z;
  profitabilityScore : Z;
  growthScore : Z;
  stabilityScore : Z;
  diversificationScore : Z
}.
End BusinessHealthMetrics.

Module AnalyticsSummary.
Record t := mk {
  totalRevenue : Q;
  totalCost : Q;
  totalProfit : Q;
  profitMargin : Q;
  healthScore : Z;
  dailyRevenue : list DailyRevenue.t;
  monthlyRevenue : list MonthlyRevenue.t;
  topProducts : list ProductPerformance.t;
  bottomProducts : list ProductPerformance.t
}.
End AnalyticsSummary.

Module Confidence.
Record t := mk { lower : Q; upper : Q }.
End Confidence.

Module ForecastPoint.
Record t := mk { date : string; predicted : Q; confidence : Confidence.t }.
End ForecastPoint.

Module ForecastResult.
Record t := mk {
  forecast : list ForecastPoint.t;
  slope : Q;
  intercept : Q;
  r2 : Q;
  trend : string
}.
End ForecastResult.

(** The literal union ['high' | 'medium' | 'low'], used for the severity of
    an anomaly and for the priority of an insight. *)
Inductive Level := high | medium | low.
Inductive AnomalyType := spike | drop.

Module Anomaly.
Record t := mk {
  date : string;
  revenue : Q;
  expectedRevenue : Q;
  deviation : Q;
  zScore : Q;
  severity : Level;
  type : AnomalyType;
  explanation : string
}.
End Anomaly.

Module AnomalyDetectionResult.
Record t := mk { anomalies : list Anomaly.t; mean : Q; stdDev : Q; threshold : Q }.
End AnomalyDetectionResult.

(** ** [src/core/analytics.ts] *)

Module Analytics.
Import JS.

(** The [{ revenue, cost }] objects kept in the daily and monthly maps and
    the accumulator of [calculateTotals]. *)
Module RevCost.
Record t := mk { revenue : Q; cost : Q }.
End RevCost.

(** The per-product accumulator of [calculateProductPerformance]. *)
Module ProductAcc.
Record t := mk { revenue : Q; cost : Q; quantity : Q; count : Z }.
End ProductAcc.

(** The result of [calculateTotals]. *)
Module Totals.
Record t := mk { totalRevenue : Q; totalCost : Q; totalProfit : Q; profitMargin : Q }.
End Totals.

(** The result of [calculateRevenueConcentration]. *)
Module Concentration.
Record t := mk { topProductShare : Q; top3ProductShare : Q; diversificationScore : Q }.
End Concentration.

Section WithDate.
Context {Date : Type} {dateAPI : DateAPI Date}.

Definition dateKey (tx : Transaction.t Date) : string :=
  split_head "T" (Date_toISOString (Transaction.date tx)).

Definition dailyStep (dailyMap : list (string * RevCost.t)) (tx : Transaction.t Date)
  : list (string * RevCost.t) :=
  let existing := Map_get_or dailyMap (dateKey tx) (RevCost.mk 0 0) in
  Map_set dailyMap (dateKey tx)
    (RevCost.mk (RevCost.revenue existing + Transaction.revenue tx)
                (RevCost.cost existing + Transaction.cost tx)).

Definition dailyEntry (e : string * RevCost.t) : DailyRevenue.t :=
  let (date, data) := e in
  DailyRevenue.mk date
    (parseFloat_toFixed (RevCost.revenue data) 2)
    (parseFloat_toFixed (RevCost.cost data) 2)
    (parseFloat_toFixed (RevCost.revenue data - RevCost.cost data) 2).

Definition calculateDailyRevenue (transactions : list (Transaction.t Date))
  : list DailyRevenue.t :=
  let dailyMap := fold_left dailyStep transactions [] in
  sort (fun a b => localeCompare (DailyRevenue.date a) (DailyRevenue.date b))
       (map dailyEntry dailyMap).

Definition monthKey (tx : Transaction.t Date) : string :=
  let date := Transaction.date tx in
  (Z_toString (Date_getFullYear date) ++ "-"
     ++ padStart 2 "0" (Z_toString (Date_getMonth date + 1)))%string.

Definition monthlyStep (monthlyMap : list (string * RevCost.t)) (tx : Transaction.t Date)
  : list (string * RevCost.t) :=
  let existing := Map_get_or monthlyMap (monthKey tx) (RevCost.mk 0 0) in
  Map_set monthlyMap (monthKey tx)
    (RevCost.mk (RevCost.revenue existing + Transaction.revenue tx)
                (RevCost.cost existing + Transaction.cost tx)).

Definition monthlyEntry (e : string * RevCost.t) : MonthlyRevenue.t :=
  let (month, data) := e in
  let profit := RevCost.revenue data - RevCost.cost data in
  let profitMargin :=
    if num_gt (RevCost.revenue data) 0 then profit / RevCost.revenue data else 0 in
  MonthlyRevenue.mk month
    (parseFloat_toFixed (RevCost.revenue data) 2)
    (parseFloat_toFixed (RevCost.cost data) 2)
    (parseFloat_toFixed profit 2)
    (parseFloat_toFixed profitMargin 4).

Definition calculateMonthlyRevenue (transactions : list (Transaction.t Date))
  : list MonthlyRevenue.t :=
  let monthlyMap := fold_left monthlyStep transactions [] in
  sort (fun a b => localeCompare (MonthlyRevenue.month a) (MonthlyRevenue.month b))
       (map monthlyEntry monthlyMap).

Definition productStep (productMap : list (string * ProductAcc.t)) (tx : Transaction.t Date)
  : list (string * ProductAcc.t) :=
  let existing :=
    Map_get_or productMap (Transaction.productName tx) (ProductAcc.mk 0 0 0 0) in
  Map_set productMap (Transaction.productName tx)
    (ProductAcc.mk (ProductAcc.revenue existing + Transaction.revenue tx)
                   (ProductAcc.cost existing + Transaction.cost tx)
                   (ProductAcc.quantity existing + Transaction.quantity tx)
                   (ProductAcc.count existing + 1)).

Definition productEntry (e : string * ProductAcc.t) : ProductPerformance.t :=
  let (productName, data) := e in
  let profit := ProductAcc.revenue data - ProductAcc.cost data in
  let profitMargin :=
    if num_gt (ProductAcc.revenue data) 0 then profit / ProductAcc.revenue data else 0 in
  ProductPerformance.mk productName
    (parseFloat_toFixed (ProductAcc.revenue data) 2)
    (parseFloat_toFixed (ProductAcc.cost data) 2)
    (parseFloat_toFixed profit 2)
    (parseFloat_toFixed profitMargin 4)
    (parseFloat_toFixed (ProductAcc.quantity data) 2)
    (ProductAcc.count data).

Definition calculateProductPerformance (transactions : list (Transaction.t Date))
  : list ProductPerformance.t :=
  let productMap := fold_left productStep transactions [] in
  sort (fun a b => ProductPerformance.totalRevenue b - ProductPerformance.totalRevenue a)
       (map productEntry productMap).

Definition calculateTotals (transactions : list (Transaction.t Date)) : Totals.t :=
  let totals :=
    fold_left (fun acc tx =>
                 RevCost.mk (RevCost.revenue acc + Transaction.revenue tx)
                            (RevCost.cost acc + Transaction.cost tx))
              transactions (RevCost.mk 0 0) in
  let profit := RevCost.revenue totals - RevCost.cost totals in
  let profitMargin :=
    if num_gt (RevCost.revenue totals) 0 then profit / RevCost.revenue totals else 0 in
  Totals.mk (parseFloat_toFixed (RevCost.revenue totals) 2)
            (parseFloat_toFixed (RevCost.cost totals) 2)
            (parseFloat_toFixed profit 2)
            (parseFloat_toFixed profitMargin 4).
End WithDate.

Definition getTopProducts (products : list ProductPerformance.t) (count : nat)
  : list ProductPerformance.t :=
  slice_to count products.

Definition getBottomProducts (products : list ProductPerformance.t) (count : nat)
  : list ProductPerformance.t :=
  slice_to count
    (sort (fun a b => ProductPerformance.totalProfit a - ProductPerformance.totalProfit b)
          products).

Definition calculateRevenueConcentration (products : list ProductPerformance.t)
  : Concentration.t :=
  let totalRevenue := reduce_sum ProductPerformance.totalRevenue products in
  if num_eq totalRevenue 0 then Concentration.mk 0 0 1
  else
    let topProductShare :=
      orZero (match products with
              | [] => 0
              | p :: _ => ProductPerformance.totalRevenue p / totalRevenue
              end) in
    let top3ProductShare :=
      reduce_sum ProductPerformance.totalRevenue (slice_to 3 products) / totalRevenue in
    let diversificationScore := 1 - top3ProductShare in
    Concentration.mk (parseFloat_toFixed topProductShare 4)
                     (parseFloat_toFixed top3ProductShare 4)
                     (parseFloat_toFixed diversificationScore 4).

Definition calculateGrowthRate (monthlyRevenue : list MonthlyRevenue.t) : Q :=
  if (List.length monthlyRevenue <? 2)%nat then 0
  else
    let sorted :=
      sort (fun a b => localeCompare (MonthlyRevenue.month a) (MonthlyRevenue.month b))
           monthlyRevenue in
    match sorted with
    | [] => 0
    | firstMonth :: _ =>
        let lastMonth := last sorted firstMonth in
        if num_eq (MonthlyRevenue.revenue firstMonth) 0 then 0
        else
          let growthRate :=
            (MonthlyRevenue.revenue lastMonth - MonthlyRevenue.revenue firstMonth)
              / MonthlyRevenue.revenue firstMonth in
          parseFloat_toFixed growthRate 4
    end.

Definition calculateBusinessHealth (totals : Totals.t)
  (products : list ProductPerformance.t) (monthlyRevenue : list MonthlyRevenue.t)
  (anomalyCount : Z) : BusinessHealthMetrics.t :=
  let profitMargin := Totals.profitMargin totals in
  let growthRate := calculateGrowthRate monthlyRevenue in
  let diversificationScore :=
    Concentration.diversificationScore (calculateRevenueConcentration products) in
  let profitabilityScore := Math_min (profitMargin * 100 * 3) 100 in
  let growthScore := Math_min (Math_max ((growthRate + (1#2)) * 100) 0) 100 in
  let stabilityScore := Math_max (100 - inject_Z anomalyCount * 10) 0 in
  let diversificationScoreNormalized := diversificationScore * 100 in
  let score :=
    profitabilityScore * (3#10) + growthScore * (1#4) + stabilityScore * (1#4)
      + diversificationScoreNormalized * (2#10) in
  BusinessHealthMetrics.mk
    (Math_round (Math_min (Math_max score 0) 100))
    (Math_round profitabilityScore)
    (Math_round growthScore)
    (Math_round stabilityScore)
    (Math_round diversificationScoreNormalized).

Definition computeAnalytics {Date : Type} {dateAPI : DateAPI Date}
  (transactions : list (Transaction.t Date)) (anomalyCount : Z) : AnalyticsSummary.t :=
  let totals := calculateTotals transactions in
  let dailyRevenue := calculateDailyRevenue transactions in
  let monthlyRevenue := calculateMonthlyRevenue transactions in
  let products := calculateProductPerformance transactions in
  let topProducts := getTopProducts products 5 in
  let bottomProducts := getBottomProducts products 5 in
  let healthMetrics := calculateBusinessHealth totals products monthlyRevenue anomalyCount in
  AnalyticsSummary.mk (Totals.totalRevenue totals) (Totals.totalCost totals)
    (Totals.totalProfit totals) (Totals.profitMargin totals)
    (BusinessHealthMetrics.score healthMetrics)
    dailyRevenue monthlyRevenue topProducts bottomProducts.

End Analytics.

(** ** [src/core/anomaly.ts] *)

Module AnomalyDetection.
Import JS.

Definition calculateMean (values : list Q) : Q :=
  match values with
  | [] => 0
  | _ => reduce_sum (fun val => val) values / num_length values
  end.

Definition calculateZScore (value mean stdDev : Q) : Q :=
  if num_eq stdDev 0 then 0 else (value - mean) / stdDev.

Definition determineSeverity (zScore : Q) : Level :=
  let absZ := Math_abs zScore in
  if num_ge absZ 3 then high
  else if num_ge absZ (5#2) then medium
  else low.

Definition severityOrder (s : Level) : Q :=
  match s with
  | high => 3
  | medium => 2
  | low => 1
  end.

Section WithBuiltins.
Context {Date : Type} {dateAPI : DateAPI Date} {sqrtAPI : SqrtAPI}.

Definition calculateStandardDeviation (values : list Q) (mean : Q) : Q :=
  match values with
  | [] => 0
  | _ =>
      let squaredDiffs := map (fun val => Math_pow2 (val - mean)) values in
      let variance := reduce_sum (fun val => val) squaredDiffs / num_length values in
      Math_sqrt variance
  end.

Definition generateExplanation (date : string) (revenue mean : Q)
  (type : AnomalyType) (severity : Level) : string :=
  let percentDiff := toFixed (Math_abs (((revenue - mean) / mean) * 100)) 1 in
  let direction := match type with spike => "higher" | drop => "lower" end in
  let severityText :=
    match severity with
    | high => "significantly"
    | medium => "notably"
    | low => "moderately"
    end in
  let dateObj := Date_parse date in
  let dayOfWeek := Date_weekdayLong dateObj in
  ("Revenue on " ++ dayOfWeek ++ ", " ++ Date_monthDayShort dateObj ++ " was "
     ++ severityText ++ " " ++ direction ++ " than average (" ++ percentDiff
     ++ "% deviation). This may indicate "
     ++ match type with
        | spike => "exceptional sales performance, promotion impact, or seasonal demand"
        | drop => "operational issues, reduced traffic, or external factors"
        end
     ++ ".")%string.

(** The body of the detection loop: the anomaly pushed for [day], if any. *)
Definition detectDay (mean stdDev threshold : Q) (day : DailyRevenue.t)
  : list Anomaly.t :=
  let zScore := calculateZScore (DailyRevenue.revenue day) mean stdDev in
  let absZScore := Math_abs zScore in
  if num_ge absZScore threshold then
    let type := if num_gt zScore 0 then spike else drop in
    let severity := determineSeverity zScore in
    let deviation := DailyRevenue.revenue day - mean in
    [Anomaly.mk (DailyRevenue.date day) (DailyRevenue.revenue day)
       (parseFloat_toFixed mean 2) (parseFloat_toFixed deviation 2)
       (parseFloat_toFixed zScore 2) severity type
       (generateExplanation (DailyRevenue.date day) (DailyRevenue.revenue day)
          mean type severity)]
  else [].

Definition compareAnomalies (a b : Anomaly.t) : Q :=
  let severityDiff :=
    severityOrder (Anomaly.severity b) - severityOrder (Anomaly.severity a) in
  if negb (num_eq severityDiff 0) then severityDiff
  else Math_abs (Anomaly.zScore b) - Math_abs (Anomaly.zScore a).

Definition detectAnomalies (dailyRevenue : list DailyRevenue.t) (threshold : Q)
  : AnomalyDetectionResult.t :=
  match dailyRevenue with
  | [] => AnomalyDetectionResult.mk [] 0 0 threshold
  | _ =>
      let revenues := map DailyRevenue.revenue dailyRevenue in
      let mean := calculateMean revenues in
      let stdDev := calculateStandardDeviation revenues mean in
      let anomalies := flat_map (detectDay mean stdDev threshold) dailyRevenue in
      AnomalyDetectionResult.mk (sort compareAnomalies anomalies)
        (parseFloat_toFixed mean 2) (parseFloat_toFixed stdDev 2) threshold
  end.
End WithBuiltins.

Definition filterAnomaliesBySeverity (anomalies : list Anomaly.t) (severity : Level)
  : list Anomaly.t :=
  let minSeverity := severityOrder severity in
  filter (fun a => num_ge (severityOrder (Anomaly.severity a)) minSeverity) anomalies.

Definition AnomalyType_eqb (a b : AnomalyType) : bool :=
  match a, b with
  | spike, spike | drop, drop => true
  | _, _ => false
  end.

Module AnomalyGroups.
Record t := mk { spikes : list Anomaly.t; drops : list Anomaly.t }.
End AnomalyGroups.

Definition groupAnomaliesByType (anomalies : list Anomaly.t) : AnomalyGroups.t :=
  AnomalyGroups.mk
    (filter (fun a => AnomalyType_eqb (Anomaly.type a) spike) anomalies)
    (filter (fun a => AnomalyType_eqb (Anomaly.type a) drop) anomalies).

Module AnomalyFrequency.
Record t := mk { frequency : Q; percentage : Q }.
End AnomalyFrequency.

Definition calculateAnomalyFrequency (anomalies : list Anomaly.t) (totalDays : Q)
  : AnomalyFrequency.t :=
  if num_eq totalDays 0 then AnomalyFrequency.mk 0 0
  else
    let frequency := num_length anomalies / totalDays in
    let percentage := (num_length anomalies / totalDays) * 100 in
    AnomalyFrequency.mk (parseFloat_toFixed frequency 4) (parseFloat_toFixed percentage 2).

Module Streak.
Record t := mk { startDate : string; endDate : string; length : Z; type : AnomalyType }.
End Streak.

(** [if (currentStreak.length >= 2) streaks.push({...})]. *)
Definition pushStreak (streaks : list Streak.t) (currentStreak : list Anomaly.t)
  : list Streak.t :=
  if (2 <=? List.length currentStreak)%nat then
    match currentStreak with
    | [] => streaks
    | first :: _ =>
        streaks ++ [Streak.mk (Anomaly.date first)
                      (Anomaly.date (last currentStreak first))
                      (Z.of_nat (List.length currentStreak))
                      (Anomaly.type first)]
    end
  else streaks.

Section Patterns.
Context {Date : Type} {dateAPI : DateAPI Date}.

(** One turn of the loop over [sorted]: the state is the streaks saved so
    far, the current streak and the previous anomaly [sorted[i - 1]]. *)
Definition patternStep (state : list Streak.t * list Anomaly.t * Anomaly.t)
  (curr : Anomaly.t) : list Streak.t * list Anomaly.t * Anomaly.t :=
  let '(streaks, currentStreak, prev) := state in
  let prevDate := Date_parse (Anomaly.date prev) in
  let currDate := Date_parse (Anomaly.date curr) in
  let dayDiff :=
    (Date_getTime currDate - Date_getTime prevDate) / (1000 * 60 * 60 * 24) in
  if num_le dayDiff 2 && AnomalyType_eqb (Anomaly.type prev) (Anomaly.type curr) then
    (streaks, currentStreak ++ [curr], curr)
  else
    (pushStreak streaks currentStreak, [curr], curr).

Definition detectAnomalyPatterns (anomalies : list Anomaly.t) : list Streak.t :=
  match anomalies with
  | [] => []
  | _ =>
      let sorted :=
        sort (fun a b => Date_getTime (Date_parse (Anomaly.date a))
                         - Date_getTime (Date_parse (Anomaly.date b)))
             anomalies in
      match sorted with
      | [] => []
      | first :: rest =>
          let '(streaks, currentStreak, _) :=
            fold_left patternStep rest ([], [first], first) in
          pushStreak streaks currentStreak
      end
  end.
End Patterns.

End AnomalyDetection.

(** ** [src/core/forecasting.ts] *)

Module Forecasting.
Import JS.

Module Point.
Record t := mk { x : Q; y : Q }.
End Point.

Module Regression.
Record t := mk { slope : Q; intercept : Q; r2 : Q }.
End Regression.

Definition calculateLinearRegression (data : list Point.t) : Regression.t :=
  let n := num_length data in
  if num_eq n 0 then Regression.mk 0 0 0
  else
    let meanX := reduce_sum Point.x data / n in
    let meanY := reduce_sum Point.y data / n in
    let '(numerator, denominator) :=
      fold_left (fun '(numerator, denominator) point =>
                   let xDiff := Point.x point - meanX in
                   let yDiff := Point.y point - meanY in
                   (numerator + xDiff * yDiff, denominator + xDiff * xDiff))
                data (0, 0) in
    let slope := if negb (num_eq denominator 0) then numerator / denominator else 0 in
    let intercept := meanY - slope * meanX in
    let '(ssRes, ssTot) :=
      fold_left (fun '(ssRes, ssTot) point =>
                   let predicted := slope * Point.x point + intercept in
                   (ssRes + Math_pow2 (Point.y point - predicted),
                    ssTot + Math_pow2 (Point.y point - meanY)))
                data (0, 0) in
    let r2 := if negb (num_eq ssTot 0) then 1 - ssRes / ssTot else 0 in
    Regression.mk (parseFloat_toFixed slope 4)
                  (parseFloat_toFixed intercept 4)
                  (parseFloat_toFixed (Math_max 0 r2) 4).

Definition determineTrend (slope r2 : Q) : string :=
  if num_lt r2 (3#10) then "stable"
  else
    let threshold := 1#2 in
    if num_gt slope threshold then "increasing"
    else if num_lt slope (- threshold) then "decreasing"
    else "stable".

Section WithBuiltins.
Context {Date : Type} {dateAPI : DateAPI Date} {sqrtAPI : SqrtAPI}.

Definition calculateStandardError (data : list Point.t) (slope intercept : Q) : Q :=
  let n := num_length data in
  if num_le n 2 then 0
  else
    let sumSquaredErrors :=
      fold_left (fun sumSquaredErrors point =>
                   let predicted := slope * Point.x point + intercept in
                   sumSquaredErrors + Math_pow2 (Point.y point - predicted))
                data 0 in
    let variance := sumSquaredErrors / (n - 2) in
    Math_sqrt variance.

(** [a.map((day, index) => ({ x: index, y: day.revenue }))]. *)
Fixpoint indexed (index : nat) (days : list DailyRevenue.t) : list Point.t :=
  match days with
  | [] => []
  | day :: days' =>
      Point.mk (inject_Z (Z.of_nat index)) (DailyRevenue.revenue day)
        :: indexed (S index) days'
  end.

Definition forecastPoint (lastDate : Date) (len : nat) (slope intercept standardError : Q)
  (i : nat) : ForecastPoint.t :=
  let forecastDate := Date_setDate lastDate (Date_getDate lastDate + Z.of_nat i) in
  let x := inject_Z (Z.of_nat len) + inject_Z (Z.of_nat i) - 1 in
  let predicted := slope * x + intercept in
  let marginOfError := (196#100) * standardError in
  ForecastPoint.mk
    (split_head "T" (Date_toISOString forecastDate))
    (Math_max 0 (parseFloat_toFixed predicted 2))
    (Confidence.mk (Math_max 0 (parseFloat_toFixed (predicted - marginOfError) 2))
                   (parseFloat_toFixed (predicted + marginOfError) 2)).

(** [daysToForecast] is a loop bound: [i] runs over the integers from 1
    up to it. *)
Definition forecastRevenue (dailyRevenue : list DailyRevenue.t) (daysToForecast : Q)
  : ForecastResult.t :=
  match dailyRevenue with
  | [] => ForecastResult.mk [] 0 0 0 "stable"
  | first :: _ =>
      let sortedData :=
        sort (fun a b => Date_getTime (Date_parse (DailyRevenue.date a))
                         - Date_getTime (Date_parse (DailyRevenue.date b)))
             dailyRevenue in
      let regressionData := indexed 0 sortedData in
      let reg := calculateLinearRegression regressionData in
      let slope := Regression.slope reg in
      let intercept := Regression.intercept reg in
      let r2 := Regression.r2 reg in
      let standardError := calculateStandardError regressionData slope intercept in
      let lastDate := Date_parse (DailyRevenue.date (last sortedData first)) in
      let forecast :=
        map (forecastPoint lastDate (List.length sortedData) slope intercept standardError)
            (seq 1 (Z.to_nat (Qfloor daysToForecast))) in
      let trend := determineTrend slope r2 in
      ForecastResult.mk forecast slope intercept r2 trend
  end.
End WithBuiltins.

(** The trailing window of [calculateMovingAverage] at position [index]. *)
Definition trailingWindow {A : Type} (sorted : list A) (windowSize : Z) (index : nat)
  : list A :=
  let start := Z.max 0 (Z.of_nat index - windowSize + 1) in
  slice (Z.to_nat start) (index + 1) sorted.

Section Smoothing.
Context {Date : Type} {dateAPI : DateAPI Date}.

Definition calculateMovingAverage (dailyRevenue : list DailyRevenue.t) (windowSize : Z)
  : list DailyRevenue.t :=
  let sorted :=
    sort (fun a b => Date_getTime (Date_parse (DailyRevenue.date a))
                     - Date_getTime (Date_parse (DailyRevenue.date b)))
         dailyRevenue in
  map_index
    (fun day index =>
       let window := trailingWindow sorted windowSize index in
       let avgRevenue := reduce_sum DailyRevenue.revenue window / num_length window in
       let avgCost := reduce_sum DailyRevenue.cost window / num_length window in
       let avgProfit := avgRevenue - avgCost in
       DailyRevenue.mk (DailyRevenue.date day)
         (parseFloat_toFixed avgRevenue 2)
         (parseFloat_toFixed avgCost 2)
         (parseFloat_toFixed avgProfit 2))
    0 sorted.
End Smoothing.

Module Accuracy.
Record t := mk { mape : Q; rmse : Q }.
End Accuracy.

(** [new Map(actual.map(d => [d.date, d.revenue]))]. *)
Definition actualMapOf (actual : list DailyRevenue.t) : list (string * Q) :=
  fold_left (fun m d => Map_set m (DailyRevenue.date d) (DailyRevenue.revenue d)) actual [].

(** One turn of the loop over the predictions: the state is
    [(totalPercentError, totalSquaredError, count)]. *)
Definition accuracyStep (actualMap : list (string * Q)) (state : Q * Q * Q)
  (pred : ForecastPoint.t) : Q * Q * Q :=
  let '(totalPercentError, totalSquaredError, count) := state in
  match Map_get actualMap (ForecastPoint.date pred) with
  | Some actualValue =>
      if negb (num_eq actualValue 0) then
        let percentError :=
          Math_abs ((actualValue - ForecastPoint.predicted pred) / actualValue) in
        let squaredError := Math_pow2 (actualValue - ForecastPoint.predicted pred) in
        (totalPercentError + percentError, totalSquaredError + squaredError, count + 1)
      else state
  | None => state
  end.

Definition calculateForecastAccuracy {sqrtAPI : SqrtAPI}
  (actual : list DailyRevenue.t) (predictions : list ForecastPoint.t) : Accuracy.t :=
  if num_eq (num_length actual) 0 || num_eq (num_length predictions) 0 then
    Accuracy.mk 0 0
  else
    let actualMap := actualMapOf actual in
    let '(totalPercentError, totalSquaredError, count) :=
      fold_left (accuracyStep actualMap) predictions (0, 0, 0) in
    let mape := if num_gt count 0 then totalPercentError / count else 0 in
    let rmse := if num_gt count 0 then Math_sqrt (totalSquaredError / count) else 0 in
    Accuracy.mk (parseFloat_toFixed mape 4) (parseFloat_toFixed rmse 2).

End Forecasting.

(** ** [src/core/insight-engine.ts] *)

Inductive Category := revenue | profitability | risk | opportunity | warning.

Module RevenueConcentration.
Record t := mk { topProductShare : Q; top3ProductShare : Q }.
End RevenueConcentration.

(** [recentTrend] is declared ['up' | 'down' | 'stable'], but it is filled
    from an untyped value; at run time it is whatever string was copied. *)
Module TrendAnalysis.
Record t := mk { recentTrend : string; growthRate : Q }.
End TrendAnalysis.

Module MetricsForInsight.
Record t := mk {
  totalRevenue : Q;
  totalProfit : Q;
  profitMargin : Q;
  healthScore : Z;
  revenueConcentration : RevenueConcentration.t;
  trendAnalysis : TrendAnalysis.t;
  anomalyCount : Z;
  forecastTrend : string
}.
End MetricsForInsight.

Module BusinessInsight.
Record t := mk {
  category : Category;
  priority : Level;
  title : string;
  description : string;
  impact : string;
  recommendation : string
}.
End BusinessInsight.

Module KeyMetrics.
Record t := mk {
  totalRevenue : Q;
  totalProfit : Q;
  profitMargin : Q;
  healthScore : Z;
  growthRate : Q
}.
End KeyMetrics.

Module InsightEngineResult.
Record t (Date : Type) := mk {
  insights : list BusinessInsight.t;
  executiveSummary : string;
  keyMetrics : KeyMetrics.t;
  generatedAt : Date
}.
Arguments mk {Date}.
Arguments insights {Date}.
Arguments executiveSummary {Date}.
Arguments keyMetrics {Date}.
Arguments generatedAt {Date}.
End InsightEngineResult.

Module InsightEngine.
Import JS.

Definition Level_eqb (a b : Level) : bool :=
  match a, b with
  | high, high | medium, medium | low, low => true
  | _, _ => false
  end.

(** Each rule of the fallback pushes at most one insight. *)

Definition concentrationRule (metrics : MetricsForInsight.t) : list BusinessInsight.t :=
  let top3 :=
    RevenueConcentration.top3ProductShare (MetricsForInsight.revenueConcentration metrics) in
  if num_gt top3 (7#10) then
    [BusinessInsight.mk risk high
       "High Revenue Concentration Risk"
       ("Your top 3 products account for " ++ toFixed (top3 * 100) 1
          ++ "% of total revenue, creating dependency risk.")%string
       "Loss of any top product could severely impact overall business revenue."
       "Diversify product portfolio and develop new revenue streams to reduce concentration risk."]
  else [].

Definition marginRule (metrics : MetricsForInsight.t) : list BusinessInsight.t :=
  let profitMargin := MetricsForInsight.profitMargin metrics in
  if num_lt profitMargin (15#100) then
    [BusinessInsight.mk warning high
       "Low Profit Margin Alert"
       ("Current profit margin of " ++ toFixed (profitMargin * 100) 1
          ++ "% is below healthy threshold of 15%.")%string
       "Thin margins leave little buffer for unexpected costs or market changes."
       "Review pricing strategy, negotiate better supplier terms, or reduce operational costs."]
  else if num_gt profitMargin (3#10) then
    [BusinessInsight.mk profitability medium
       "Strong Profit Margins"
       ("Excellent profit margin of " ++ toFixed (profitMargin * 100) 1
          ++ "% indicates efficient operations.")%string
       "Strong margins provide financial cushion and growth capital."
       "Maintain current efficiency while exploring reinvestment opportunities for growth."]
  else [].

Definition trendRule (metrics : MetricsForInsight.t) : list BusinessInsight.t :=
  let trendAnalysis := MetricsForInsight.trendAnalysis metrics in
  if String.eqb (TrendAnalysis.recentTrend trendAnalysis) "up" then
    [BusinessInsight.mk opportunity medium
       "Positive Growth Trajectory"
       ("Revenue growing at " ++ toFixed (TrendAnalysis.growthRate trendAnalysis * 100) 1
          ++ "% with upward trend.")%string
       "Growth momentum creates opportunities for expansion and market share."
       "Capitalize on growth by increasing inventory, hiring capacity, or expanding marketing."]
  else if String.eqb (TrendAnalysis.recentTrend trendAnalysis) "down" then
    [BusinessInsight.mk warning high
       "Declining Revenue Trend"
       ("Revenue declining at "
          ++ toFixed (Math_abs (TrendAnalysis.growthRate trendAnalysis * 100)) 1
          ++ "% with downward trend.")%string
       "Continued decline could threaten business sustainability."
       "Investigate root causes: market conditions, competition, product quality, or customer satisfaction."]
  else [].

Definition anomalyRule (metrics : MetricsForInsight.t) : list BusinessInsight.t :=
  let anomalyCount := MetricsForInsight.anomalyCount metrics in
  if (anomalyCount >? 5)%Z then
    [BusinessInsight.mk risk medium
       "Revenue Volatility Detected"
       (Z_toString anomalyCount
          ++ " revenue anomalies detected, indicating unstable patterns.")%string
       "High volatility makes forecasting and planning difficult."
       "Stabilize revenue streams through consistent marketing, pricing, and customer retention efforts."]
  else if (anomalyCount =? 0)%Z then
    [BusinessInsight.mk profitability low
       "Stable Revenue Patterns"
       "No significant anomalies detected, indicating stable operations."
       "Predictable revenue enables confident business planning."
       "Maintain operational consistency while exploring controlled growth initiatives."]
  else [].

Definition healthRule (metrics : MetricsForInsight.t) : list BusinessInsight.t :=
  let healthScore := MetricsForInsight.healthScore metrics in
  if (healthScore >=? 80)%Z then
    [BusinessInsight.mk opportunity low
       "Excellent Business Health"
       ("Health score of " ++ Z_toString healthScore
          ++ "/100 indicates strong overall performance.")%string
       "Strong position enables strategic investments and expansion."
       "Focus on sustainable growth and market leadership opportunities."]
  else if (healthScore <? 50)%Z then
    [BusinessInsight.mk warning high
       "Business Health Concerns"
       ("Health score of " ++ Z_toString healthScore
          ++ "/100 requires immediate attention.")%string
       "Low health score indicates multiple risk factors need addressing."
       "Prioritize profitability improvement, cost reduction, and revenue stabilization."]
  else [].

Definition summaryOpening (metrics : MetricsForInsight.t) : string :=
  let healthScore := MetricsForInsight.healthScore metrics in
  if (healthScore >=? 70)%Z then
    ("Business is performing well with "
       ++ toFixed (MetricsForInsight.profitMargin metrics * 100) 1
       ++ "% profit margin and "
       ++ TrendAnalysis.recentTrend (MetricsForInsight.trendAnalysis metrics)
       ++ " revenue trend. ")%string
  else if (healthScore >=? 50)%Z then
    "Business shows moderate health with room for improvement. "
  else
    "Business requires urgent attention across multiple areas. ".

(** [now] is the value [new Date()] reads from the clock. *)
Definition generateFallbackInsights {Date : Type} (now : Date)
  (metrics : MetricsForInsight.t) : InsightEngineResult.t Date :=
  let insights :=
    concentrationRule metrics ++ marginRule metrics ++ trendRule metrics
      ++ anomalyRule metrics ++ healthRule metrics in
  let executiveSummary :=
    (summaryOpening metrics ++ "Key priorities: "
       ++ join ", "
            (map (fun i => toLowerCase (BusinessInsight.title i))
                 (filter (fun i => Level_eqb (BusinessInsight.priority i) high) insights))
       ++ ".")%string in
  InsightEngineResult.mk
    (slice_to 6 insights)
    executiveSummary
    (KeyMetrics.mk (MetricsForInsight.totalRevenue metrics)
       (MetricsForInsight.totalProfit metrics)
       (MetricsForInsight.profitMargin metrics)
       (MetricsForInsight.healthScore metrics)
       (TrendAnalysis.growthRate (MetricsForInsight.trendAnalysis metrics)))
    now.

Definition prepareMetricsForInsight (analytics : AnalyticsSummary.t)
  (forecast : ForecastResult.t) (anomalies : AnomalyDetectionResult.t)
  : MetricsForInsight.t :=
  let recentMonths := slice_last 3 (AnalyticsSummary.monthlyRevenue analytics) in
  let growthRate :=
    match recentMonths with
    | first :: _ :: _ =>
        (MonthlyRevenue.revenue (last recentMonths first) - MonthlyRevenue.revenue first)
          / MonthlyRevenue.revenue first
    | _ => 0
    end in
  MetricsForInsight.mk
    (AnalyticsSummary.totalRevenue analytics)
    (AnalyticsSummary.totalProfit analytics)
    (AnalyticsSummary.profitMargin analytics)
    (AnalyticsSummary.healthScore analytics)
    (RevenueConcentration.mk
       (orZero (match AnalyticsSummary.topProducts analytics with
                | [] => 0
                | p :: _ =>
                    ProductPerformance.totalRevenue p / AnalyticsSummary.totalRevenue analytics
                end))
       (reduce_sum ProductPerformance.totalRevenue
          (slice_to 3 (AnalyticsSummary.topProducts analytics))
          / AnalyticsSummary.totalRevenue analytics))
    (TrendAnalysis.mk (ForecastResult.trend forecast) growthRate)
    (Z.of_nat (List.length (AnomalyDetectionResult.anomalies anomalies)))
    (ForecastResult.trend forecast).

End InsightEngine.

(** ** [src/lib/utils.ts]: the numeric helpers *)

Module Utils.
Import JS.

Module HealthInputs.
Record t := mk {
  profitMargin : Q;
  revenueGrowth : Q;
  anomalyCount : Q;
  diversificationScore : Q
}.
End HealthInputs.

Definition calculateHealthScore (metrics : HealthInputs.t) : Z :=
  let profitScore := Math_min (HealthInputs.profitMargin metrics * 100) 100 in
  let growthScore :=
    Math_min (Math_max (HealthInputs.revenueGrowth metrics * 50 + 50) 0) 100 in
  let stabilityScore := Math_max (100 - HealthInputs.anomalyCount metrics * 10) 0 in
  let diversificationScore := HealthInputs.diversificationScore metrics * 100 in
  let healthScore :=
    profitScore * (3#10) + growthScore * (1#4) + stabilityScore * (1#4)
      + diversificationScore * (2#10) in
  Math_round (Math_min (Math_max healthScore 0) 100).

(** The items of [groupByDate] carry a [date] that is a string or a
    [Date]. *)
Section Grouping.
Context {Date : Type} {dateAPI : DateAPI Date} {T : Type}.
Variable date : T -> string + Date.

Definition groupKey (item : T) : string :=
  match date item with
  | inl s => s
  | inr d => split_head "T" (Date_toISOString d)
  end.

Definition groupByDate (items : list T) : list (string * list T) :=
  fold_left
    (fun grouped item =>
       let existing := Map_get_or grouped (groupKey item) [] in
       Map_set grouped (groupKey item) (existing ++ [item]))
    items [].
End Grouping.

(** The loop of [calculateMovingAverage]: [i] runs over the indices of
    [data]. *)
Definition calculateMovingAverage (data : list Q) (windowSize : Z) : list Q :=
  map (fun i =>
         let start := Z.max 0 (Z.of_nat i - windowSize + 1) in
         let window := slice (Z.to_nat start) (i + 1) data in
         reduce_sum (fun val => val) window / num_length window)
      (seq 0 (List.length data)).

End Utils.

(** ** A concrete run-time: UTC calendar dates and a truncated square root

    The embedding is parametric in the [Date] and [Math.sqrt] built-ins.
    The instances below make it executable: dates are milliseconds since
    the epoch read in UTC, and [Math.sqrt] is computed to eight decimals. *)

Module Runtime.
Import JS.

Definition msPerDay : Z := 86400000.

Definition days_from_civil (y m d : Z) : Z :=
  let y' := (if m <=? 2 then y - 1 else y)%Z in
  let era := (y' / 400)%Z in
  let yoe := (y' - era * 400)%Z in
  let mp := (if m >? 2 then m - 3 else m + 9)%Z in
  let doy := ((153 * mp + 2) / 5 + d - 1)%Z in
  let doe := (yoe * 365 + yoe / 4 - yoe / 100 + doy)%Z in
  (era * 146097 + doe - 719468)%Z.

Definition civil_from_days (z : Z) : Z * Z * Z :=
  let z' := (z + 719468)%Z in
  let era := (z' / 146097)%Z in
  let doe := (z' - era * 146097)%Z in
  let yoe := ((doe - doe / 1460 + doe / 36524 - doe / 146096) / 365)%Z in
  let doy := (doe - (365 * yoe + yoe / 4 - yoe / 100))%Z in
  let mp := ((5 * doy + 2) / 153)%Z in
  let d := (doy - (153 * mp + 2) / 5 + 1)%Z in
  let m := (if mp <? 10 then mp + 3 else mp - 9)%Z in
  let y := (yoe + era * 400)%Z in
  ((if m <=? 2 then y + 1 else y)%Z, m, d).

Fixpoint digits_value (acc : Z) (s : string) : Z :=
  match s with
  | EmptyString => acc
  | String a s' => digits_value (acc * 10 + (Z.of_nat (nat_of_ascii a) - 48))%Z s'
  end.

(** ["YYYY-MM-DD"], read as midnight UTC. *)
Definition parseISO (s : string) : Z :=
  (days_from_civil (digits_value 0 (substring 0 4 s))
                   (digits_value 0 (substring 5 2 s))
                   (digits_value 0 (substring 8 2 s)) * msPerDay)%Z.

Definition civil (t : Z) : Z * Z * Z := civil_from_days (t / msPerDay).

Definition pad (n : nat) (z : Z) : string := padStart n "0" (Z_toString z).

Definition toISOString (t : Z) : string :=
  let '(y, m, d) := civil t in
  let ms := (t mod msPerDay)%Z in
  (pad 4 y ++ "-" ++ pad 2 m ++ "-" ++ pad 2 d ++ "T"
     ++ pad 2 (ms / 3600000) ++ ":" ++ pad 2 (ms / 60000 mod 60) ++ ":"
     ++ pad 2 (ms / 1000 mod 60) ++ "." ++ pad 3 (ms mod 1000) ++ "Z")%string.

Definition setDate (t : Z) (n : Z) : Z :=
  let '(y, m, _) := civil t in
  ((days_from_civil y m 1 + n - 1) * msPerDay + t mod msPerDay)%Z.

Definition weekdayLong (t : Z) : string :=
  nth (Z.to_nat ((t / msPerDay + 4) mod 7))
      ["Sunday"; "Monday"; "Tuesday"; "Wednesday"; "Thursday"; "Friday"; "Saturday"]
      EmptyString.

Definition monthDayShort (t : Z) : string :=
  let '(_, m, d) := civil t in
  (nth (Z.to_nat (m - 1))
       ["Jan"; "Feb"; "Mar"; "Apr"; "May"; "Jun"; "Jul"; "Aug"; "Sep"; "Oct"; "Nov"; "Dec"]
       EmptyString ++ " " ++ Z_toString d)%string.

#[export] Instance UTCDate : DateAPI Z := {
  Date_parse := parseISO;
  Date_getTime := inject_Z;
  Date_getFullYear := fun t => fst (fst (civil t));
  Date_getMonth := fun t => (snd (fst (civil t)) - 1)%Z;
  Date_getDate := fun t => snd (civil t);
  Date_setDate := setDate;
  Date_toISOString := toISOString;
  Date_weekdayLong := weekdayLong;
  Date_monthDayShort := monthDayShort
}.

Definition sqrt8 (x : Q) : Q :=
  if Qle_bool x 0 then 0
  else inject_Z (Z.sqrt (Qfloor (x * inject_Z (10 ^ 16)))) / inject_Z (10 ^ 8).

Lemma sqrt8_zero : forall x, x == 0 -> sqrt8 x == 0.
Proof.
  intros x Hx. unfold sqrt8.
  assert (Hle : Qle_bool x 0 = true) by (apply Qle_bool_iff; rewrite Hx; apply Qle_refl).
  rewrite Hle. reflexivity.
Qed.

#[export] Instance Sqrt8 : SqrtAPI := {
  Math_sqrt := sqrt8;
  Math_sqrt_zero := sqrt8_zero
}.

(** A transaction on the given UTC calendar day. *)
Definition tx (day product : string) (quantity revenue cost : Q) : Transaction.t Z :=
  Transaction.mk (parseISO day) product quantity revenue cost.

End Runtime.

(** ** The numeric core over IEEE-754 doubles

    The modules above compute with exact rationals.  Where a property
    hinges on what a double does (a sum that rounds, a total that
    overflows, [NaN]), the functions concerned are embedded a second time,
    statement by statement as before, over binary64 numbers: [number] is
    the specification type of the Standard Library ([spec_float] with 53
    bits of precision and exponents up to 1024), and [+], [-], [*], [/]
    and [Math.sqrt] are its correctly rounded operations. *)

Module Binary64.
Import JS.

Definition number : Type := spec_float.
Definition prec : Z := 53.
Definition emax : Z := 1024.

Definition NaN : number := S754_nan.
Definition zero : number := S754_zero false.

Definition add : number -> number -> number := SFadd prec emax.
Definition sub : number -> number -> number := SFsub prec emax.
Definition mul : number -> number -> number := SFmul prec emax.
Definition div : number -> number -> number := SFdiv prec emax.

Definition isNaN (x : number) : bool :=
  match x with
  | S754_nan => true
  | _ => false
  end.

(** Comparison operators: every comparison with [NaN] is false, and
    [+0 === -0]. *)
Definition num_lt (a b : number) : bool := SFltb a b.
Definition num_le (a b : number) : bool := SFleb a b.
Definition num_gt (a b : number) : bool := SFltb b a.
Definition num_ge (a b : number) : bool := SFleb b a.
Definition num_eq (a b : number) : bool := SFeqb a b.

(** The value of a finite double, exactly. *)
Definition value (x : number) : Q :=
  match x with
  | S754_finite s m e =>
      (if s then - inject_Z (Zpos m) else inject_Z (Zpos m)) * Qpower 2 e
  | _ => 0
  end.

(** The double nearest to an integer and to a fraction (ties to even):
    number literals, [a.length], and the reading of a decimal string. *)
Definition ofZ (n : Z) : number := binary_normalize prec emax n 0 false.

Definition ofQ (q : Q) : number :=
  match Qnum q with
  | Z0 => zero
  | Zpos n => div (S754_finite false n 0) (S754_finite false (Qden q) 0)
  | Zneg n => div (S754_finite true n 0) (S754_finite false (Qden q) 0)
  end.

Definition Math_abs : number -> number := SFabs.
Definition Math_sqrt : number -> number := SFsqrt prec emax.

(** [Math.pow(x, 2)], computed as the correctly rounded square. *)
Definition Math_pow2 (x : number) : number := mul x x.

Definition signbit (x : number) : bool :=
  match x with
  | S754_zero s | S754_infinity s | S754_finite s _ _ => s
  | S754_nan => false
  end.

(** [Math.min] and [Math.max]: [NaN] if either argument is, and [-0]
    counts as smaller than [+0]. *)
Definition Math_min (a b : number) : number :=
  match SFcompare a b with
  | Some Lt => a
  | Some Gt => b
  | Some Eq => if signbit a then a else b
  | None => NaN
  end.

Definition Math_max (a b : number) : number :=
  match SFcompare a b with
  | Some Lt => b
  | Some Gt => a
  | Some Eq => if signbit a then b else a
  | None => NaN
  end.

(** [Math.round]: the nearest integer, halves towards +infinity; a result
    of zero keeps the sign of the argument.  A double with a non-negative
    exponent is an integer already. *)
Definition Math_round (x : number) : number :=
  match x with
  | S754_finite s _ e =>
      if (0 <=? e)%Z then x
      else
        match Qfloor (value x + (1#2)) with
        | Z0 => S754_zero s
        | n => ofZ n
        end
  | _ => x
  end.

(** [x || 0]: [0], [-0] and [NaN] are the falsy numbers. *)
Definition orZero (x : number) : number :=
  match x with
  | S754_zero _ | S754_nan => zero
  | _ => x
  end.

(** [parseFloat(x.toFixed(f))].  [toFixed] renders the exact value of [x]
    rounded to [f] decimals (halves of the magnitude upwards) and
    [parseFloat] reads the nearest double; ["-0.00"] reads as [-0], while
    [-0] itself prints without a sign.  From 1e21 on, and for [NaN] and
    the infinities, [toFixed] prints the number itself. *)
Definition parseFloat_toFixed (x : number) (f : nat) : number :=
  match x with
  | S754_finite s _ _ =>
      if Qle_bool (inject_Z (10 ^ 21)) (Qabs (value x)) then x
      else
        match toFixed_digits (value x) f with
        | Z0 => S754_zero s
        | n => ofQ (inject_Z (if s then - n else n) / inject_Z (pow10 f))
        end
  | S754_zero _ => zero
  | _ => x
  end.

(** [String(x)] for an integer-valued double [x >= 1e21]: the shortest
    decimal significand that reads back as [x] (the nearest one among
    those), in exponent notation. *)
Definition significand (x : number) (N : Z) (len k : nat) : option (Z * nat) :=
  let unit := (10 ^ Z.of_nat (len - k))%Z in
  let q := (N / unit)%Z in
  let reads s := SFeqb (ofZ (s * unit)) x in
  let pick s :=
    if (s =? 10 ^ Z.of_nat k)%Z then (1%Z, len) else (s, (len - 1)%nat) in
  match reads q, reads (q + 1)%Z with
  | true, true =>
      if (N - q * unit <=? (q + 1) * unit - N)%Z then Some (pick q) else Some (pick (q + 1)%Z)
  | true, false => Some (pick q)
  | false, true => Some (pick (q + 1)%Z)
  | false, false => None
  end.

Fixpoint shortest (x : number) (N : Z) (len k fuel : nat) : Z * nat :=
  match fuel with
  | O => (N, (len - 1)%nat)
  | S fuel' =>
      match significand x N len k with
      | Some r => r
      | None => shortest x N len (S k) fuel'
      end
  end.

Fixpoint strip_zeros (s : Z) (fuel : nat) : Z :=
  match fuel with
  | O => s
  | S fuel' => if (s mod 10 =? 0)%Z then strip_zeros (s / 10)%Z fuel' else s
  end.

Definition exponential (N : Z) (x : number) : string :=
  let len := String.length (Z_toString N) in
  let '(s, e) := shortest x N len 1 17 in
  let digits := Z_toString (strip_zeros s 17) in
  let mantissa :=
    match digits with
    | String d EmptyString => digits
    | String d rest => (String d "." ++ rest)%string
    | EmptyString => digits
    end in
  (mantissa ++ "e+" ++ Z_toString (Z.of_nat e))%string.

(** The string [x.toFixed(f)]. *)
Definition toFixed (x : number) (f : nat) : string :=
  match x with
  | S754_nan => "NaN"
  | S754_infinity s => if s then "-Infinity" else "Infinity"
  | S754_zero _ => JS.toFixed 0 f
  | S754_finite s _ _ =>
      if Qle_bool (inject_Z (10 ^ 21)) (Qabs (value x)) then
        let body := exponential (Qfloor (Qabs (value x))) (Math_abs x) in
        if s then ("-" ++ body)%string else body
      else JS.toFixed (value x) f
  end.

(** [a.length], as a number. *)
Definition num_length {A : Type} (l : list A) : number := ofZ (Z.of_nat (List.length l)).

(** [a.reduce((sum, p) => sum + f(p), 0)]. *)
Definition reduce_sum {A : Type} (f : A -> number) (l : list A) : number :=
  fold_left (fun sum p => add sum (f p)) l zero.

(** [Array.prototype.sort(cmp)]: a comparator result of [NaN] counts as
    [0]. *)
Fixpoint sort_insert {A : Type} (cmp : A -> A -> number) (x : A) (l : list A) : list A :=
  match l with
  | [] => [x]
  | y :: l' =>
      if isNaN (cmp x y) || num_le (cmp x y) zero then x :: y :: l'
      else y :: sort_insert cmp x l'
  end.

Fixpoint sort {A : Type} (cmp : A -> A -> number) (l : list A) : list A :=
  match l with
  | [] => []
  | x :: l' => sort_insert cmp x (sort cmp l')
  end.

(** The records of [src/types/index.ts], with doubles for numbers. *)
Module DailyRevenue.
Record t := mk { date : string; revenue : number; cost : number; profit : number }.
End DailyRevenue.

Module MonthlyRevenue.
Record t := mk {
  month : string;
  revenue : number;
  cost : number;
  profit : number;
  profitMargin : number
}.
End MonthlyRevenue.

Module ProductPerformance.
Record t := mk {
  productName : string;
  totalRevenue : number;
  totalCost : number;
  totalProfit : number;
  profitMargin : number;
  quantity : number;
  transactionCount : number
}.
End ProductPerformance.

Module Totals.
Record t := mk {
  totalRevenue : number;
  totalCost : number;
  totalProfit : number;
  profitMargin : number
}.
End Totals.

Module Concentration.
Record t := mk {
  topProductShare : number;
  top3ProductShare : number;
  diversificationScore : number
}.
End Concentration.

Module BusinessHealthMetrics.
Record t := mk {
  score : number;
  profitabilityScore : number;
  growthScore : number;
  stabilityScore : number;
  diversificationScore : number
}.
End BusinessHealthMetrics.

Module Anomaly.
Record t := mk {
  date : string;
  revenue : number;
  expectedRevenue : number;
  deviation : number;
  zScore : number;
  severity : Level;
  type : AnomalyType;
  explanation : string
}.
End Anomaly.

Module AnomalyDetectionResult.
Record t := mk {
  anomalies : list Anomaly.t;
  mean : number;
  stdDev : number;
  threshold : number
}.
End AnomalyDetectionResult.

(** *** [src/core/analytics.ts] *)

Definition calculateRevenueConcentration (products : list ProductPerformance.t)
  : Concentration.t :=
  let totalRevenue := reduce_sum ProductPerformance.totalRevenue products in
  if num_eq totalRevenue zero then Concentration.mk zero zero (ofZ 1)
  else
    let topProductShare :=
      orZero (match products with
              | [] => NaN
              | p :: _ => div (ProductPerformance.totalRevenue p) totalRevenue
              end) in
    let top3ProductShare :=
      div (reduce_sum ProductPerformance.totalRevenue (slice_to 3 products)) totalRevenue in
    let diversificationScore := sub (ofZ 1) top3ProductShare in
    Concentration.mk (parseFloat_toFixed topProductShare 4)
                     (parseFloat_toFixed top3ProductShare 4)
                     (parseFloat_toFixed diversificationScore 4).

Definition calculateGrowthRate (monthlyRevenue : list MonthlyRevenue.t) : number :=
  if (List.length monthlyRevenue <? 2)%nat then zero
  else
    let sorted :=
      JS.sort (fun a b => localeCompare (MonthlyRevenue.month a) (MonthlyRevenue.month b))
              monthlyRevenue in
    match sorted with
    | [] => zero
    | firstMonth :: _ =>
        let lastMonth := last sorted firstMonth in
        if num_eq (MonthlyRevenue.revenue firstMonth) zero then zero
        else
          let growthRate :=
            div (sub (MonthlyRevenue.revenue lastMonth) (MonthlyRevenue.revenue firstMonth))
                (MonthlyRevenue.revenue firstMonth) in
          parseFloat_toFixed growthRate 4
    end.

Definition calculateBusinessHealth (totals : Totals.t)
  (products : list ProductPerformance.t) (monthlyRevenue : list MonthlyRevenue.t)
  (anomalyCount : number) : BusinessHealthMetrics.t :=
  let profitMargin := Totals.profitMargin totals in
  let growthRate := calculateGrowthRate monthlyRevenue in
  let diversificationScore :=
    Concentration.diversificationScore (calculateRevenueConcentration products) in
  let profitabilityScore := Math_min (mul (mul profitMargin (ofZ 100)) (ofZ 3)) (ofZ 100) in
  let growthScore :=
    Math_min (Math_max (mul (add growthRate (ofQ (1#2))) (ofZ 100)) zero) (ofZ 100) in
  let stabilityScore := Math_max (sub (ofZ 100) (mul anomalyCount (ofZ 10))) zero in
  let diversificationScoreNormalized := mul diversificationScore (ofZ 100) in
  let score :=
    add (add (add (mul profitabilityScore (ofQ (3#10))) (mul growthScore (ofQ (1#4))))
             (mul stabilityScore (ofQ (1#4))))
        (mul diversificationScoreNormalized (ofQ (2#10))) in
  BusinessHealthMetrics.mk
    (Math_round (Math_min (Math_max score zero) (ofZ 100)))
    (Math_round profitabilityScore)
    (Math_round growthScore)
    (Math_round stabilityScore)
    (Math_round diversificationScoreNormalized).

(** *** [src/core/anomaly.ts] *)

Definition calculateMean (values : list number) : number :=
  match values with
  | [] => zero
  | _ => div (reduce_sum (fun val => val) values) (num_length values)
  end.

Definition calculateStandardDeviation (values : list number) (mean : number) : number :=
  match values with
  | [] => zero
  | _ =>
      let squaredDiffs := map (fun val => Math_pow2 (sub val mean)) values in
      let variance := div (reduce_sum (fun val => val) squaredDiffs) (num_length values) in
      Math_sqrt variance
  end.

Definition calculateZScore (value mean stdDev : number) : number :=
  if num_eq stdDev zero then zero else div (sub value mean) stdDev.

Definition determineSeverity (zScore : number) : Level :=
  let absZ := Math_abs zScore in
  if num_ge absZ (ofZ 3) then high
  else if num_ge absZ (ofQ (5#2)) then medium
  else low.

Definition severityOrder (s : Level) : number :=
  match s with
  | high => ofZ 3
  | medium => ofZ 2
  | low => ofZ 1
  end.

Section WithDate.
Context {Date : Type} {dateAPI : DateAPI Date}.

Definition generateExplanation (date : string) (revenue mean : number)
  (type : AnomalyType) (severity : Level) : string :=
  let percentDiff :=
    toFixed (Math_abs (mul (div (sub revenue mean) mean) (ofZ 100))) 1 in
  let direction := match type with spike => "higher" | drop => "lower" end in
  let severityText :=
    match severity with
    | high => "significantly"
    | medium => "notably"
    | low => "moderately"
    end in
  let dateObj := Date_parse date in
  let dayOfWeek := Date_weekdayLong dateObj in
  ("Revenue on " ++ dayOfWeek ++ ", " ++ Date_monthDayShort dateObj ++ " was "
     ++ severityText ++ " " ++ direction ++ " than average (" ++ percentDiff
     ++ "% deviation). This may indicate "
     ++ match type with
        | spike => "exceptional sales performance, promotion impact, or seasonal demand"
        | drop => "operational issues, reduced traffic, or external factors"
        end
     ++ ".")%string.

(** The body of the detection loop: the anomaly pushed for [day], if any. *)
Definition detectDay (mean stdDev threshold : number) (day : DailyRevenue.t)
  : list Anomaly.t :=
  let zScore := calculateZScore (DailyRevenue.revenue day) mean stdDev in
  let absZScore := Math_abs zScore in
  if num_ge absZScore threshold then
    let type := if num_gt zScore zero then spike else drop in
    let severity := determineSeverity zScore in
    let deviation := sub (DailyRevenue.revenue day) mean in
    [Anomaly.mk (DailyRevenue.date day) (DailyRevenue.revenue day)
       (parseFloat_toFixed mean 2) (parseFloat_toFixed deviation 2)
       (parseFloat_toFixed zScore 2) severity type
       (generateExplanation (DailyRevenue.date day) (DailyRevenue.revenue day)
          mean type severity)]
  else [].

Definition compareAnomalies (a b : Anomaly.t) : number :=
  let severityDiff :=
    sub (severityOrder (Anomaly.severity b)) (severityOrder (Anomaly.severity a)) in
  if negb (num_eq severityDiff zero) then severityDiff
  else sub (Math_abs (Anomaly.zScore b)) (Math_abs (Anomaly.zScore a)).

Definition detectAnomalies (dailyRevenue : list DailyRevenue.t) (threshold : number)
  : AnomalyDetectionResult.t :=
  match dailyRevenue with
  | [] => AnomalyDetectionResult.mk [] zero zero threshold
  | _ =>
      let revenues := map DailyRevenue.revenue dailyRevenue in
      let mean := calculateMean revenues in
      let stdDev := calculateStandardDeviation revenues mean in
      let anomalies := flat_map (detectDay mean stdDev threshold) dailyRevenue in
      AnomalyDetectionResult.mk (sort compareAnomalies anomalies)
        (parseFloat_toFixed mean 2) (parseFloat_toFixed stdDev 2) threshold
  end.
End WithDate.

End Binary64.

(** * Vocabulary of the properties and sample data *)

Import JS Analytics AnomalyDetection Forecasting InsightEngine.

Definition nonneg_revenue (products : list ProductPerformance.t) : Prop :=
  forall p, In p products -> 0 <= ProductPerformance.totalRevenue p.

(** Amounts of magnitude at most 1e100.  On such amounts the sums, the
    products and the squares that the code forms stay finite as doubles;
    what an overflow to [Infinity] or [NaN] would break on the code is
    stated for amounts in this range. *)
Definition in_range (x : Q) : Prop := Qabs x <= inject_Z (10 ^ 100).

Definition health_inputs_in_range (metrics : Utils.HealthInputs.t) : Prop :=
  in_range (Utils.HealthInputs.profitMargin metrics)
  /\ in_range (Utils.HealthInputs.revenueGrowth metrics)
  /\ in_range (Utils.HealthInputs.anomalyCount metrics)
  /\ in_range (Utils.HealthInputs.diversificationScore metrics).

Definition revenue_in_range (products : list ProductPerformance.t) : Prop :=
  forall p, In p products -> in_range (ProductPerformance.totalRevenue p).

(** The unrounded shares [calculateRevenueConcentration] computes when the
    total revenue is not 0. *)
Definition rawTopShare (products : list ProductPerformance.t) : Q :=
  match products with
  | [] => 0
  | p :: _ =>
      ProductPerformance.totalRevenue p / reduce_sum ProductPerformance.totalRevenue products
  end.

Definition rawTop3Share (products : list ProductPerformance.t) : Q :=
  reduce_sum ProductPerformance.totalRevenue (slice_to 3 products)
    / reduce_sum ProductPerformance.totalRevenue products.

(** Amounts that are a whole number of cents. *)
Definition whole_cents (x : Q) : Prop :=
  exists z : Z, x == inject_Z z / inject_Z (pow10 2).

(** The sum of a numeric field over the values of a map. *)
Definition sumMap {V : Type} (proj : V -> Q) (m : list (string * V)) : Q :=
  reduce_sum (fun e => proj (snd e)) m.

Definition centsMap {V : Type} (proj : V -> Q) (m : list (string * V)) : Prop :=
  forall e, In e m -> whole_cents (proj (snd e)).

(** A grouping loop: each step stores, under some key, a value whose field
    is the stored one (0 for a new key) plus the transaction's amount. *)
Definition accumulates {V Tx : Type} (proj : V -> Q) (g : Tx -> Q)
  (step : list (string * V) -> Tx -> list (string * V)) : Prop :=
  forall m tx, exists k v d,
    step m tx = Map_set m k v
    /\ proj d == 0
    /\ proj v == proj (Map_get_or m k d) + g tx.

(** The total of [g] over the transactions whose key is [k]. *)
Definition groupTotal {Tx : Type} (key : Tx -> string) (g : Tx -> Q) (k : string)
  (txs : list Tx) : Q :=
  reduce_sum g (filter (fun tx => String.eqb (key tx) k) txs).

(** The field stored under [k], 0 while [k] is not in the map. *)
Definition stored {V : Type} (proj : V -> Q) (m : list (string * V)) (k : string) : Q :=
  match Map_get m k with
  | Some v => proj v
  | None => 0
  end.

(** A grouping loop that files each transaction under its own key: the
    field stored there grows by the transaction's amount. *)
Definition files {V Tx : Type} (key : Tx -> string) (proj : V -> Q) (g : Tx -> Q)
  (step : list (string * V) -> Tx -> list (string * V)) : Prop :=
  forall m tx, exists v,
    step m tx = Map_set m (key tx) v
    /\ proj v == stored proj m (key tx) + g tx.

Definition hasTitle (t : string) (i : BusinessInsight.t) : bool :=
  String.eqb (BusinessInsight.title i) t.

(** The two insights of the profit-margin rule. *)
Definition isMarginInsight (i : BusinessInsight.t) : bool :=
  hasTitle "Low Profit Margin Alert" i || hasTitle "Strong Profit Margins" i.

(** The two insights of the trend rule. *)
Definition isTrendInsight (i : BusinessInsight.t) : bool :=
  hasTitle "Positive Growth Trajectory" i || hasTitle "Declining Revenue Trend" i.

(** The forecaster and the detector on the concrete run-time. *)
Definition forecastUTC (dailyRevenue : list DailyRevenue.t) (daysToForecast : Q)
  : ForecastResult.t :=
  forecastRevenue (dateAPI := Runtime.UTCDate) (sqrtAPI := Runtime.Sqrt8)
    dailyRevenue daysToForecast.

Definition detectUTC (dailyRevenue : list DailyRevenue.t) (threshold : Q)
  : AnomalyDetectionResult.t :=
  detectAnomalies (dateAPI := Runtime.UTCDate) (sqrtAPI := Runtime.Sqrt8)
    dailyRevenue threshold.

(** Products that only carry a name and a revenue figure. *)
Definition product (name : string) (totalRevenue : Q) : ProductPerformance.t :=
  ProductPerformance.mk name totalRevenue 0 totalRevenue 1 1 1.

(** A day of the daily series with revenue only. *)
Definition day (date : string) (revenue : Q) : DailyRevenue.t :=
  DailyRevenue.mk date revenue 0 revenue.

(** The four transactions of the repository's own test and the products
    they roll up to. *)
Definition coffee_shop : list (Transaction.t Z) :=
  [Runtime.tx "2024-01-01" "Espresso" 10 35 8;
   Runtime.tx "2024-01-01" "Latte" 5 25 (75#10);
   Runtime.tx "2024-01-02" "Espresso" 12 42 (96#10);
   Runtime.tx "2024-02-01" "Cappuccino" 8 36 (96#10)].

Definition espresso_menu : list ProductPerformance.t :=
  [product "Espresso" 77; product "Cappuccino" 36; product "Latte" 25].

(** Four products whose top-3 share is 31/32 = 0.96875, halfway between
    0.9687 and 0.9688. *)
Definition tie_menu : list ProductPerformance.t :=
  [product "A" 29; product "B" 1; product "C" 1; product "D" 1].

(** A product list with a negative entry (refunds booked as revenue). *)
Definition refund_menu : list ProductPerformance.t :=
  [product "Espresso" 10; product "Refunds" (-5)].

(** A single sale of 1.125 (half a unit at 2.25). *)
Definition half_cent_sale : list (Transaction.t Z) :=
  [Runtime.tx "2024-03-01" "Tea" (1#2) (9#8) 0].

(** Five noisy days: the fitted slope is 8 a day, R-squared 0.0074. *)
Definition noisy_week : list DailyRevenue.t :=
  [day "2024-03-01" 100; day "2024-03-02" 400; day "2024-03-03" 90;
   day "2024-03-04" 80; day "2024-03-05" 300].

Definition flat_days : list DailyRevenue.t :=
  [day "2024-03-01" 100; day "2024-03-02" 100; day "2024-03-03" 100].

(** Products that only carry a revenue figure, as doubles. *)
Definition product64 (totalRevenue : Q) : Binary64.ProductPerformance.t :=
  Binary64.ProductPerformance.mk "P" (Binary64.ofQ totalRevenue) Binary64.zero
    (Binary64.ofQ totalRevenue) (Binary64.ofZ 1) (Binary64.ofZ 1) (Binary64.ofZ 1).

(** A double that is neither [NaN] nor infinite. *)
Definition isFinite (x : Binary64.number) : bool :=
  match x with
  | S754_zero _ | S754_finite _ _ _ => true
  | _ => false
  end.

(** Ten days in a row with the same revenue, as doubles. *)
Definition flat_series (revenue : Q) : list Binary64.DailyRevenue.t :=
  map (fun i =>
         Binary64.DailyRevenue.mk
           ("2024-01-" ++ padStart 2 "0" (Z_toString (Z.of_nat i)))%string
           (Binary64.ofQ revenue) Binary64.zero (Binary64.ofQ revenue))
      (seq 1 10).

(** The quantities [calculateLinearRegression] computes on its way. *)
Definition meanX (data : list Point.t) : Q := reduce_sum Point.x data / num_length data.
Definition meanY (data : list Point.t) : Q := reduce_sum Point.y data / num_length data.
Definition covXY (data : list Point.t) : Q :=
  reduce_sum (fun p => (Point.x p - meanX data) * (Point.y p - meanY data)) data.
Definition varX (data : list Point.t) : Q :=
  reduce_sum (fun p => (Point.x p - meanX data) * (Point.x p - meanX data)) data.
Definition rawSlope (data : list Point.t) : Q :=
  if negb (num_eq (varX data) 0) then covXY data / varX data else 0.
Definition rawIntercept (data : list Point.t) : Q :=
  meanY data - rawSlope data * meanX data.
Definition ssRes (data : list Point.t) : Q :=
  reduce_sum (fun p => Math_pow2 (Point.y p - (rawSlope data * Point.x p + rawIntercept data)))
             data.
Definition ssTot (data : list Point.t) : Q :=
  reduce_sum (fun p => Math_pow2 (Point.y p - meanY data)) data.
Definition rawR2 (data : list Point.t) : Q :=
  if negb (num_eq (ssTot data) 0) then 1 - ssRes data / ssTot data else 0.

(** The points [forecastRevenue] fits its line to: the days in time order,
    numbered from 0. *)
Definition regressionData {Date : Type} {dateAPI : DateAPI Date}
  (dailyRevenue : list DailyRevenue.t) : list Point.t :=
  indexed 0
    (sort (fun a b => Date_getTime (Date_parse (DailyRevenue.date a))
                      - Date_getTime (Date_parse (DailyRevenue.date b)))
          dailyRevenue).

(** The R-squared of that line, before it is rounded to 4 decimals. *)
Definition fittedR2 {Date : Type} {dateAPI : DateAPI Date}
  (dailyRevenue : list DailyRevenue.t) : Q :=
  rawR2 (regressionData dailyRevenue).

(** Five days on the line [100 + 5 i], given out of order. *)
Definition line_days : list DailyRevenue.t :=
  [day "2024-03-03" 110; day "2024-03-01" 100; day "2024-03-05" 120;
   day "2024-03-02" 105; day "2024-03-04" 115].

(** Three days whose fitted R-squared is 6912/23041, just below 0.3. *)
Definition near_threshold_days : list DailyRevenue.t :=
  [day "2024-03-01" 100; day "2024-03-02" 275; day "2024-03-03" 196].

(** Metrics of a thin-margin business. *)
Definition thin_margin_metrics : MetricsForInsight.t :=
  MetricsForInsight.mk 1000 100 (1#10) 45
    (RevenueConcentration.mk (1#2) (8#10))
    (TrendAnalysis.mk "stable" 0) 2 "stable".

(** * Properties *)

(** ** The repository's own tests, replayed on the embedding

    [src/core/__tests__/analytics.test.ts] and the worked examples of the
    specification. *)

Example test_daily_revenue :
  let result := calculateDailyRevenue (dateAPI := Runtime.UTCDate) coffee_shop in
  List.length result = 3%nat
  /\ map DailyRevenue.date result = ["2024-01-01"; "2024-01-02"; "2024-02-01"]
  /\ (forall d, nth_error result 0 = Some d ->
      DailyRevenue.revenue d == 60 /\ DailyRevenue.profit d == (445#10)).
Proof.
  cbv zeta. split; [reflexivity|]. split; [reflexivity|].
  intros d Hd. vm_compute in Hd. injection Hd as <-. split; reflexivity.
Qed.

Example test_monthly_revenue :
  let result := calculateMonthlyRevenue (dateAPI := Runtime.UTCDate) coffee_shop in
  map MonthlyRevenue.month result = ["2024-01"; "2024-02"]
  /\ (forall m, nth_error result 0 = Some m -> MonthlyRevenue.revenue m == 102).
Proof.
  cbv zeta. split; [reflexivity|].
  intros m Hm. vm_compute in Hm. injection Hm as <-. reflexivity.
Qed.

Example test_product_performance :
  let result := calculateProductPerformance coffee_shop in
  map ProductPerformance.productName result = ["Espresso"; "Cappuccino"; "Latte"]
  /\ (forall p, nth_error result 0 = Some p ->
      ProductPerformance.totalRevenue p == 77
      /\ ProductPerformance.transactionCount p = 2%Z).
Proof.
  cbv zeta. split; [reflexivity|].
  intros q Hq. vm_compute in Hq. injection Hq as <-. split; reflexivity.
Qed.

Example test_totals :
  let result := calculateTotals coffee_shop in
  Totals.totalRevenue result == 138
  /\ Totals.totalCost result == (347#10)
  /\ Totals.totalProfit result == (1033#10)
  /\ Totals.profitMargin result == (7486#10000).
Proof. cbv zeta. repeat split; vm_compute; reflexivity. Qed.

Example test_revenue_concentration :
  let result :=
    calculateRevenueConcentration (calculateProductPerformance coffee_shop) in
  Concentration.topProductShare result == (558#1000)
  /\ Concentration.diversificationScore result == 0.
Proof. cbv zeta. split; vm_compute; reflexivity. Qed.

Example test_health_score :
  AnalyticsSummary.healthScore
    (computeAnalytics (dateAPI := Runtime.UTCDate) coffee_shop 0) = 55%Z.
Proof. vm_compute. reflexivity. Qed.

(** Seven days at 100 and one at 1000, threshold 2: exactly the last day
    is flagged, as a spike. *)
Example test_single_spike :
  map (fun a => (Anomaly.date a, Anomaly.type a, Anomaly.severity a))
      (AnomalyDetectionResult.anomalies
         (detectUTC [day "2024-01-01" 100; day "2024-01-02" 100; day "2024-01-03" 100;
                     day "2024-01-04" 100; day "2024-01-05" 100; day "2024-01-06" 100;
                     day "2024-01-07" 100; day "2024-01-08" 1000] 2))
  = [("2024-01-08", spike, medium)].
Proof. vm_compute. reflexivity. Qed.

(** The line [y = 5 x + 100]: slope 5, intercept 100, R-squared 1. *)
Example test_linear_series :
  let result :=
    forecastUTC [day "2024-01-01" 100; day "2024-01-02" 105; day "2024-01-03" 110;
                 day "2024-01-04" 115; day "2024-01-05" 120] 2 in
  ForecastResult.slope result == 5
  /\ ForecastResult.intercept result == 100
  /\ ForecastResult.r2 result == 1
  /\ ForecastResult.trend result = "increasing"
  /\ map ForecastPoint.date (ForecastResult.forecast result)
     = ["2024-01-06"; "2024-01-07"].
Proof. cbv zeta. repeat split; vm_compute; reflexivity. Qed.

Example test_fallback_summary :
  InsightEngineResult.executiveSummary (generateFallbackInsights tt thin_margin_metrics)
  = "Business requires urgent attention across multiple areas. Key priorities: high revenue concentration risk, low profit margin alert, business health concerns."
  /\ map BusinessInsight.title
       (InsightEngineResult.insights (generateFallbackInsights tt thin_margin_metrics))
     = ["High Revenue Concentration Risk"; "Low Profit Margin Alert";
        "Business Health Concerns"].
Proof. split; vm_compute; reflexivity. Qed.

(** ** Comparisons, [Math.min], [Math.max], [Math.round] *)

Lemma Qle_bool_false : forall a b, Qle_bool a b = false -> b < a.
Proof.
  intros a b Hf. apply Qnot_le_lt. intro Hle.
  apply Qle_bool_iff in Hle. congruence.
Qed.

Lemma Qeq_bool_false : forall a b, Qeq_bool a b = false -> ~ a == b.
Proof. intros a b Hf. apply Qeq_bool_neq. exact Hf. Qed.

Lemma num_lt_true : forall a b, num_lt a b = true <-> a < b.
Proof.
  intros a b. unfold num_lt. split.
  - intro Hn. apply Qle_bool_false. destruct (Qle_bool b a); [discriminate|reflexivity].
  - intro Hlt. destruct (Qle_bool b a) eqn:E; [|reflexivity].
    apply Qle_bool_iff in E. exfalso. apply (Qlt_not_le _ _ Hlt E).
Qed.

Lemma num_lt_false : forall a b, num_lt a b = false <-> b <= a.
Proof.
  intros a b. unfold num_lt. split.
  - intro Hn. apply Qle_bool_iff. destruct (Qle_bool b a); [reflexivity|discriminate].
  - intro Hle. apply Qle_bool_iff in Hle. rewrite Hle. reflexivity.
Qed.

(** Turns the boolean tests of the embedding found in the context into
    order facts. *)
Ltac num_facts :=
  repeat match goal with
  | Hb : Qle_bool _ _ = true |- _ => apply Qle_bool_iff in Hb
  | Hb : Qle_bool _ _ = false |- _ => apply Qle_bool_false in Hb
  | Hb : Qeq_bool _ _ = true |- _ => apply Qeq_bool_iff in Hb
  | Hb : Qeq_bool _ _ = false |- _ => apply Qeq_bool_false in Hb
  | Hb : num_lt _ _ = true |- _ => apply num_lt_true in Hb
  | Hb : num_lt _ _ = false |- _ => apply num_lt_false in Hb
  end.

Ltac num_split :=
  repeat match goal with
  | |- context [Qle_bool ?a ?b] => destruct (Qle_bool a b) eqn:?
  | |- context [Qeq_bool ?a ?b] => destruct (Qeq_bool a b) eqn:?
  end;
  num_facts.

Lemma Math_min_spec : forall a b,
  (a <= b /\ Math_min a b == a) \/ (b <= a /\ Math_min a b == b).
Proof.
  intros a b. unfold Math_min. num_split.
  - left. split; [assumption|reflexivity].
  - right. split; [lra|reflexivity].
Qed.

Lemma Math_max_spec : forall a b,
  (a <= b /\ Math_max a b == b) \/ (b <= a /\ Math_max a b == a).
Proof.
  intros a b. unfold Math_max. num_split.
  - left. split; [assumption|reflexivity].
  - right. split; [lra|reflexivity].
Qed.

(** Names every [Math.min] and [Math.max] in sight and splits on which
    argument it returns, leaving linear facts. *)
Ltac minmax_cases :=
  repeat match goal with
  | |- context [Math_min ?a ?b] =>
      let m := fresh "m" in let Hm := fresh "Hm" in
      pose proof (Math_min_spec a b) as Hm;
      set (m := Math_min a b) in *; clearbody m; destruct Hm as [[? ?]|[? ?]]
  | |- context [Math_max ?a ?b] =>
      let m := fresh "m" in let Hm := fresh "Hm" in
      pose proof (Math_max_spec a b) as Hm;
      set (m := Math_max a b) in *; clearbody m; destruct Hm as [[? ?]|[? ?]]
  | _ : context [Math_min ?a ?b] |- _ =>
      let m := fresh "m" in let Hm := fresh "Hm" in
      pose proof (Math_min_spec a b) as Hm;
      set (m := Math_min a b) in *; clearbody m; destruct Hm as [[? ?]|[? ?]]
  | _ : context [Math_max ?a ?b] |- _ =>
      let m := fresh "m" in let Hm := fresh "Hm" in
      pose proof (Math_max_spec a b) as Hm;
      set (m := Math_max a b) in *; clearbody m; destruct Hm as [[? ?]|[? ?]]
  end.

#[global] Instance Math_min_comp : Proper (Qeq ==> Qeq ==> Qeq) Math_min.
Proof.
  intros a a' Ha b b' Hb. unfold Math_min.
  rewrite (Qleb_comp a a' Ha b b' Hb). destruct (Qle_bool a' b'); assumption.
Qed.

#[global] Instance Math_max_comp : Proper (Qeq ==> Qeq ==> Qeq) Math_max.
Proof.
  intros a a' Ha b b' Hb. unfold Math_max.
  rewrite (Qleb_comp a a' Ha b b' Hb). destruct (Qle_bool a' b'); assumption.
Qed.

Lemma Math_round_comp : forall x y, x == y -> Math_round x = Math_round y.
Proof. intros x y Hxy. unfold Math_round. apply Qfloor_comp. rewrite Hxy. reflexivity. Qed.

Lemma Math_round_mono : forall x y, x <= y -> (Math_round x <= Math_round y)%Z.
Proof. intros x y Hxy. unfold Math_round. apply Qfloor_resp_le. lra. Qed.

Lemma Math_round_percent : forall x, 0 <= x <= 100 -> (0 <= Math_round x <= 100)%Z.
Proof.
  intros x [Hlo Hhi]. split.
  - change 0%Z with (Math_round 0). apply Math_round_mono. exact Hlo.
  - change 100%Z with (Math_round 100). apply Math_round_mono. exact Hhi.
Qed.

(** ** [parseFloat(x.toFixed(f))] *)

Lemma pow10_pos : forall f, (0 < pow10 f)%Z.
Proof. intro f. unfold pow10. apply Z.pow_pos_nonneg; lia. Qed.

Lemma inject_pow10_pos : forall f, 0 < inject_Z (pow10 f).
Proof.
  intro f. change 0 with (inject_Z 0). rewrite <- Zlt_Qlt. apply pow10_pos.
Qed.

#[global] Instance toFixed_digits_comp : Proper (Qeq ==> Logic.eq ==> Logic.eq) toFixed_digits.
Proof.
  intros x y Hxy f f' <-. unfold toFixed_digits. apply Qfloor_comp.
  rewrite Hxy. reflexivity.
Qed.

#[global] Instance parseFloat_toFixed_comp :
  Proper (Qeq ==> Logic.eq ==> Qeq) parseFloat_toFixed.
Proof.
  intros x y Hxy f f' <-. unfold parseFloat_toFixed, num_lt.
  rewrite (toFixed_digits_comp x y Hxy f f Logic.eq_refl).
  rewrite (Qleb_comp 0 0 (Qeq_refl 0) x y Hxy). reflexivity.
Qed.

(** On a non-negative number the rounding is [floor (x * 10^f + 1/2) / 10^f]. *)
Lemma parseFloat_toFixed_nonneg : forall x f,
  0 <= x ->
  parseFloat_toFixed x f
    == inject_Z (Qfloor (x * inject_Z (pow10 f) + (1#2))) / inject_Z (pow10 f).
Proof.
  intros x f Hx. unfold parseFloat_toFixed, toFixed_digits.
  assert (Hlt : num_lt x 0 = false) by (apply num_lt_false; exact Hx).
  rewrite Hlt. rewrite (Qabs_pos x Hx). reflexivity.
Qed.

Lemma parseFloat_toFixed_mono : forall x y f,
  0 <= x -> x <= y -> parseFloat_toFixed x f <= parseFloat_toFixed y f.
Proof.
  intros x y f Hx Hxy.
  rewrite (parseFloat_toFixed_nonneg x f Hx).
  rewrite (parseFloat_toFixed_nonneg y f) by lra.
  pose proof (inject_pow10_pos f) as Hp.
  apply Qmult_le_compat_r.
  - rewrite <- Zle_Qle. apply Qfloor_resp_le.
    assert (x * inject_Z (pow10 f) <= y * inject_Z (pow10 f))
      by (apply Qmult_le_compat_r; lra).
    lra.
  - apply Qlt_le_weak. apply Qinv_lt_0_compat. exact Hp.
Qed.

Lemma Qfloor_plus_half : forall z : Z, Qfloor (inject_Z z + (1#2)) = z.
Proof.
  intro z.
  pose proof (Qfloor_le (inject_Z z + (1#2))) as Hle.
  pose proof (Qlt_floor (inject_Z z + (1#2))) as Hlt.
  rewrite inject_Z_plus in Hlt. change (inject_Z 1) with 1 in Hlt.
  apply Z.le_antisymm.
  - apply Z.lt_succ_r. rewrite Zlt_Qlt. unfold Z.succ. rewrite inject_Z_plus.
    change (inject_Z 1) with 1. lra.
  - apply Z.lt_succ_r. rewrite Zlt_Qlt. unfold Z.succ. rewrite inject_Z_plus.
    change (inject_Z 1) with 1. lra.
Qed.

(** A number that already is a whole multiple of [10^-f] is left alone. *)
Lemma parseFloat_toFixed_exact : forall (z : Z) f x,
  x == inject_Z z / inject_Z (pow10 f) -> parseFloat_toFixed x f == x.
Proof.
  intros z f x Hx. pose proof (inject_pow10_pos f) as Hp.
  assert (Hz : x * inject_Z (pow10 f) == inject_Z z) by (rewrite Hx; field; lra).
  unfold parseFloat_toFixed, toFixed_digits.
  destruct (num_lt x 0) eqn:Hs; num_facts.
  - rewrite (Qabs_neg x) by lra.
    assert (He : - x * inject_Z (pow10 f) + (1#2) == inject_Z (- z) + (1#2))
      by (rewrite inject_Z_opp; lra).
    rewrite (Qfloor_comp _ _ He), Qfloor_plus_half, Z.opp_involutive.
    rewrite Hx. reflexivity.
  - rewrite (Qabs_pos x) by lra.
    assert (He : x * inject_Z (pow10 f) + (1#2) == inject_Z z + (1#2)) by lra.
    rewrite (Qfloor_comp _ _ He), Qfloor_plus_half.
    rewrite Hx. reflexivity.
Qed.

Lemma parseFloat_toFixed_0 : forall f, parseFloat_toFixed 0 f == 0.
Proof.
  intro f. apply (parseFloat_toFixed_exact 0 f). pose proof (inject_pow10_pos f).
  field. lra.
Qed.

Lemma parseFloat_toFixed_1 : forall f, parseFloat_toFixed 1 f == 1.
Proof.
  intro f. apply (parseFloat_toFixed_exact (pow10 f) f). pose proof (inject_pow10_pos f).
  field. lra.
Qed.

Lemma parseFloat_toFixed_unit : forall x f,
  0 <= x <= 1 -> 0 <= parseFloat_toFixed x f <= 1.
Proof.
  intros x f [Hlo Hhi]. split.
  - rewrite <- (parseFloat_toFixed_0 f). apply parseFloat_toFixed_mono; lra.
  - apply Qle_trans with (parseFloat_toFixed 1 f).
    + apply parseFloat_toFixed_mono; lra.
    + rewrite parseFloat_toFixed_1. apply Qle_refl.
Qed.

(** ** Sums over arrays and [sort] *)

Section Sums.
Context {A : Type}.
Variable f : A -> Q.

Lemma fold_sum_acc : forall (l : list A) (a : Q),
  fold_left (fun sum p => sum + f p) l a == a + reduce_sum f l.
Proof.
  unfold reduce_sum. induction l as [|x l IH]; intro a; simpl.
  - lra.
  - rewrite (IH (a + f x)), (IH (0 + f x)). lra.
Qed.

Lemma reduce_sum_cons : forall x l, reduce_sum f (x :: l) == f x + reduce_sum f l.
Proof.
  intros x l. unfold reduce_sum at 1. simpl. rewrite fold_sum_acc. lra.
Qed.

Lemma reduce_sum_app : forall l1 l2,
  reduce_sum f (l1 ++ l2) == reduce_sum f l1 + reduce_sum f l2.
Proof.
  induction l1 as [|x l1 IH]; intro l2; simpl.
  - unfold reduce_sum at 2. simpl. lra.
  - rewrite !reduce_sum_cons, IH. lra.
Qed.

Lemma reduce_sum_nonneg : forall l,
  (forall x, In x l -> 0 <= f x) -> 0 <= reduce_sum f l.
Proof.
  induction l as [|x l IH]; intro Hpos.
  - unfold reduce_sum. simpl. lra.
  - rewrite reduce_sum_cons.
    assert (0 <= f x) by (apply Hpos; left; reflexivity).
    assert (0 <= reduce_sum f l) by (apply IH; intros y Hy; apply Hpos; right; exact Hy).
    lra.
Qed.

Lemma reduce_sum_prefix : forall n l,
  (forall x, In x l -> 0 <= f x) ->
  reduce_sum f (slice_to n l) <= reduce_sum f l.
Proof.
  intros n l Hpos. unfold slice_to.
  rewrite <- (firstn_skipn n l) at 2. rewrite reduce_sum_app.
  assert (0 <= reduce_sum f (skipn n l)).
  { apply reduce_sum_nonneg. intros x Hx. apply Hpos.
    rewrite <- (firstn_skipn n l). apply in_or_app. right. exact Hx. }
  lra.
Qed.

Lemma reduce_sum_perm : forall l l',
  Permutation l l' -> reduce_sum f l == reduce_sum f l'.
Proof.
  induction 1 as [|x l l' _ IH|x y l|l l' l'' _ IH1 _ IH2].
  - reflexivity.
  - rewrite !reduce_sum_cons, IH. reflexivity.
  - rewrite !reduce_sum_cons. lra.
  - rewrite IH1. exact IH2.
Qed.
End Sums.

Lemma In_slice_to : forall {A : Type} (n : nat) (l : list A) (x : A),
  In x (slice_to n l) -> In x l.
Proof.
  intros A n l x Hx. rewrite <- (firstn_skipn n l). apply in_or_app. left. exact Hx.
Qed.

Lemma reduce_sum_ext : forall {A : Type} (f g : A -> Q) (l : list A),
  (forall x, In x l -> f x == g x) -> reduce_sum f l == reduce_sum g l.
Proof.
  intros A f g. induction l as [|x l IH]; intro Hfg.
  - reflexivity.
  - rewrite !reduce_sum_cons. rewrite (Hfg x) by (left; reflexivity).
    rewrite IH by (intros y Hy; apply Hfg; right; exact Hy). reflexivity.
Qed.

Lemma reduce_sum_map : forall {A B : Type} (f : B -> Q) (g : A -> B) (l : list A),
  reduce_sum f (map g l) == reduce_sum (fun a => f (g a)) l.
Proof.
  intros A B f g. induction l as [|x l IH].
  - reflexivity.
  - simpl. rewrite !reduce_sum_cons, IH. reflexivity.
Qed.

Section Sorting.
Context {A : Type}.
Variable cmp : A -> A -> Q.

Lemma sort_insert_perm : forall x l, Permutation (x :: l) (sort_insert cmp x l).
Proof.
  intro x. induction l as [|y l IH]; simpl.
  - apply Permutation_refl.
  - destruct (Qle_bool (cmp x y) 0).
    + apply Permutation_refl.
    + apply perm_trans with (y :: x :: l); [apply perm_swap|].
      apply perm_skip. exact IH.
Qed.

Lemma sort_perm : forall l, Permutation l (sort cmp l).
Proof.
  induction l as [|x l IH]; simpl.
  - apply perm_nil.
  - apply perm_trans with (x :: sort cmp l).
    + apply perm_skip. exact IH.
    + apply sort_insert_perm.
Qed.

End Sorting.

Lemma reduce_sum_sort : forall {A : Type} (f : A -> Q) (cmp : A -> A -> Q) (l : list A),
  reduce_sum f (sort cmp l) == reduce_sum f l.
Proof.
  intros A f cmp l. apply reduce_sum_perm. apply Permutation_sym, sort_perm.
Qed.

(** ** Revenue concentration *)

Lemma orZero_id : forall x, orZero x == x.
Proof.
  intro x. unfold orZero. destruct (Qeq_bool x 0) eqn:E; num_facts.
  - symmetry. exact E.
  - reflexivity.
Qed.

Lemma Qdiv_le_compat : forall a b c, 0 < c -> a <= b -> a / c <= b / c.
Proof.
  intros a b c Hc Hab. unfold Qdiv. apply Qmult_le_compat_r; [exact Hab|].
  apply Qlt_le_weak, Qinv_lt_0_compat, Hc.
Qed.

Lemma concentration_zero : forall products,
  reduce_sum ProductPerformance.totalRevenue products == 0 ->
  calculateRevenueConcentration products = Concentration.mk 0 0 1.
Proof.
  intros products Hz. unfold calculateRevenueConcentration, num_eq.
  apply Qeq_bool_iff in Hz. rewrite Hz. reflexivity.
Qed.

Lemma concentration_nonzero : forall products,
  ~ reduce_sum ProductPerformance.totalRevenue products == 0 ->
  calculateRevenueConcentration products
  = Concentration.mk (parseFloat_toFixed (orZero (rawTopShare products)) 4)
                     (parseFloat_toFixed (rawTop3Share products) 4)
                     (parseFloat_toFixed (1 - rawTop3Share products) 4).
Proof.
  intros products Hnz. unfold calculateRevenueConcentration, num_eq.
  destruct (Qeq_bool (reduce_sum ProductPerformance.totalRevenue products) 0) eqn:E.
  - apply Qeq_bool_iff in E. contradiction.
  - destruct products; reflexivity.
Qed.

Lemma raw_shares_ordered : forall products,
  nonneg_revenue products ->
  ~ reduce_sum ProductPerformance.totalRevenue products == 0 ->
  0 <= rawTopShare products
  /\ rawTopShare products <= rawTop3Share products
  /\ rawTop3Share products <= 1.
Proof.
  intros products Hpos Hnz.
  pose proof (reduce_sum_nonneg ProductPerformance.totalRevenue products Hpos) as Htot.
  assert (Hlt : 0 < reduce_sum ProductPerformance.totalRevenue products).
  { apply Qle_lteq in Htot. destruct Htot as [Hlt|Heq]; [exact Hlt|].
    exfalso. apply Hnz. symmetry. exact Heq. }
  pose proof (reduce_sum_prefix ProductPerformance.totalRevenue 3 products Hpos) as Hpre.
  unfold rawTopShare, rawTop3Share.
  destruct products as [|p rest].
  - exfalso. apply Hnz. reflexivity.
  - assert (Hp : 0 <= ProductPerformance.totalRevenue p) by (apply Hpos; left; reflexivity).
    assert (Hhead : ProductPerformance.totalRevenue p
                    <= reduce_sum ProductPerformance.totalRevenue (slice_to 3 (p :: rest))).
    { unfold slice_to. change (firstn 3 (p :: rest)) with (p :: firstn 2 rest).
      rewrite reduce_sum_cons.
      assert (0 <= reduce_sum ProductPerformance.totalRevenue (firstn 2 rest)).
      { apply reduce_sum_nonneg. intros q Hq. apply Hpos. right.
        apply (In_slice_to 2 rest q Hq). }
      lra. }
    split; [|split].
    + apply Qle_shift_div_l; [exact Hlt|lra].
    + apply Qdiv_le_compat; assumption.
    + apply Qle_shift_div_r; [exact Hlt|lra].
Qed.

(** Rounding [s] and [1 - s] to [f] decimals: the two results add up to 1,
    or to [1 + 10^-f] when [s] lies halfway between two [f]-decimal
    numbers (both halves are rounded up). *)
Lemma parseFloat_toFixed_complement : forall s f,
  0 <= s <= 1 ->
  parseFloat_toFixed (1 - s) f == 1 - parseFloat_toFixed s f
  \/ parseFloat_toFixed (1 - s) f == 1 - parseFloat_toFixed s f + 1 / inject_Z (pow10 f).
Proof.
  intros s f [Hlo Hhi]. pose proof (inject_pow10_pos f) as Hp.
  rewrite (parseFloat_toFixed_nonneg s f Hlo).
  rewrite (parseFloat_toFixed_nonneg (1 - s) f) by lra.
  set (P := inject_Z (pow10 f)) in *.
  set (n1 := Qfloor (s * P + (1#2))).
  set (n2 := Qfloor ((1 - s) * P + (1#2))).
  pose proof (Qfloor_le (s * P + (1#2))) as L1.
  pose proof (Qlt_floor (s * P + (1#2))) as U1.
  pose proof (Qfloor_le ((1 - s) * P + (1#2))) as L2.
  pose proof (Qlt_floor ((1 - s) * P + (1#2))) as U2.
  fold n1 in L1, U1. fold n2 in L2, U2.
  rewrite inject_Z_plus in U1, U2. change (inject_Z 1) with 1 in U1, U2.
  assert (Hle : (n1 + n2 <= pow10 f + 1)%Z).
  { rewrite Zle_Qle, !inject_Z_plus. change (inject_Z 1) with 1. fold P. lra. }
  assert (Hge : (pow10 f - 1 < n1 + n2)%Z).
  { rewrite Zlt_Qlt. unfold Z.sub. rewrite !inject_Z_plus.
    change (inject_Z (- (1))) with (- (1)). fold P. lra. }
  assert (Hcases : (n2 = pow10 f - n1 \/ n2 = pow10 f - n1 + 1)%Z) by lia.
  destruct Hcases as [E|E]; [left|right]; rewrite E.
  - unfold Z.sub. rewrite inject_Z_plus, inject_Z_opp. fold P. field. lra.
  - unfold Z.sub. rewrite !inject_Z_plus, inject_Z_opp. fold P.
    change (inject_Z 1) with 1. field. lra.
Qed.

(** The diversification score of a list with non-negative revenues is a
    fraction. *)
Lemma diversification_unit : forall products,
  nonneg_revenue products ->
  0 <= Concentration.diversificationScore (calculateRevenueConcentration products) <= 1.
Proof.
  intros products Hpos.
  destruct (Qeq_dec (reduce_sum ProductPerformance.totalRevenue products) 0) as [Hz|Hnz].
  - rewrite (concentration_zero products Hz). simpl. lra.
  - rewrite (concentration_nonzero products Hnz). simpl.
    destruct (raw_shares_ordered products Hpos Hnz) as (H0 & H1 & H2).
    apply parseFloat_toFixed_unit. lra.
Qed.

(** ** Business health *)

Lemma clamp_percent : forall x, 0 <= Math_min (Math_max x 0) 100 <= 100.
Proof. intro x. minmax_cases; lra. Qed.

(** C7 (as the code has it).  For non-negative inputs (profit margin at
    least 0, products with non-negative revenue, a non-negative anomaly
    count; any monthly series) with product revenues of at most 1e100, the
    five fields returned by [calculateBusinessHealth] are integers between
    0 and 100.  Each field is the result of [Math.round], hence an integer
    ([Z]); the bounds are what is proved.  The cap on the revenues keeps
    their sum finite in the code's doubles; the proof is over exact
    rationals, where a sum cannot overflow. *)
Theorem health_fields_percent : forall totals products monthlyRevenue anomalyCount,
  0 <= Totals.profitMargin totals ->
  nonneg_revenue products ->
  revenue_in_range products ->
  (0 <= anomalyCount)%Z ->
  let h := calculateBusinessHealth totals products monthlyRevenue anomalyCount in
  (0 <= BusinessHealthMetrics.score h <= 100)%Z
  /\ (0 <= BusinessHealthMetrics.profitabilityScore h <= 100)%Z
  /\ (0 <= BusinessHealthMetrics.growthScore h <= 100)%Z
  /\ (0 <= BusinessHealthMetrics.stabilityScore h <= 100)%Z
  /\ (0 <= BusinessHealthMetrics.diversificationScore h <= 100)%Z.
Proof.
  intros totals products monthlyRevenue anomalyCount Hpm Hpos _ Hcount h.
  subst h. unfold calculateBusinessHealth.
  cbn [BusinessHealthMetrics.score BusinessHealthMetrics.profitabilityScore
       BusinessHealthMetrics.growthScore BusinessHealthMetrics.stabilityScore
       BusinessHealthMetrics.diversificationScore].
  pose proof (diversification_unit products Hpos) as Hdiv.
  assert (Hc : 0 <= inject_Z anomalyCount)
    by (change 0 with (inject_Z 0); rewrite <- Zle_Qle; exact Hcount).
  split; [|split; [|split; [|split]]]; apply Math_round_percent.
  - apply clamp_percent.
  - minmax_cases; lra.
  - apply clamp_percent.
  - minmax_cases; lra.
  - lra.
Qed.

Lemma espresso_menu_nonneg : nonneg_revenue espresso_menu.
Proof.
  intros p [<-|[<-|[<-|[]]]]; simpl; lra.
Defined.

Lemma espresso_menu_in_range : revenue_in_range espresso_menu.
Proof.
  intros p [<-|[<-|[<-|[]]]]; vm_compute; discriminate.
Defined.

Lemma health_fields_percent_witness :
  let h := calculateBusinessHealth (Totals.mk 138 (347#10) (1033#10) (7486#10000))
             espresso_menu [] 2 in
  (0 <= BusinessHealthMetrics.score h <= 100)%Z
  /\ (0 <= BusinessHealthMetrics.profitabilityScore h <= 100)%Z
  /\ (0 <= BusinessHealthMetrics.growthScore h <= 100)%Z
  /\ (0 <= BusinessHealthMetrics.stabilityScore h <= 100)%Z
  /\ (0 <= BusinessHealthMetrics.diversificationScore h <= 100)%Z.
Proof.
  apply (health_fields_percent (Totals.mk 138 (347#10) (1033#10) (7486#10000))
           espresso_menu [] 2).
  - simpl. lra.
  - exact espresso_menu_nonneg.
  - exact espresso_menu_in_range.
  - lia.
Defined.

(** C7, as stated, fails on finite inputs whose sum is not: two products
    with a revenue of 1e308 each add up to [Infinity] in doubles, the
    top-3 share is [Infinity / Infinity], and both the diversification
    score and the overall score come out as [NaN]. *)
Lemma health_overflow_counterexample :
  let huge := product64 (inject_Z (10 ^ 308)) in
  let h :=
    Binary64.calculateBusinessHealth
      (Binary64.Totals.mk (Binary64.ofZ 100) (Binary64.ofZ 50) (Binary64.ofZ 50)
         (Binary64.ofQ (1#2)))
      [huge; huge] [] Binary64.zero in
  isFinite (Binary64.ProductPerformance.totalRevenue huge) = true
  /\ Binary64.reduce_sum Binary64.ProductPerformance.totalRevenue [huge; huge]
     = S754_infinity false
  /\ Binary64.BusinessHealthMetrics.diversificationScore h = Binary64.NaN
  /\ Binary64.BusinessHealthMetrics.score h = Binary64.NaN.
Proof.
  cbv zeta. repeat split; vm_compute; reflexivity.
Qed.

(** C1 (as the code has it).  With a profit margin of at least 1/3, no
    anomalies and full diversification, zero growth gives an overall score
    of 88: the growth component maps growth 0 to 50, not to 100, so the
    weighted sum is 87.5.  The score saturates at 100 when the growth rate
    is at least 0.5. *)
Theorem health_score_saturation : forall totals products monthlyRevenue,
  (1#3) <= Totals.profitMargin totals ->
  Concentration.diversificationScore (calculateRevenueConcentration products) == 1 ->
  (calculateGrowthRate monthlyRevenue == 0 ->
   BusinessHealthMetrics.score
     (calculateBusinessHealth totals products monthlyRevenue 0) = 88%Z)
  /\ ((1#2) <= calculateGrowthRate monthlyRevenue ->
      BusinessHealthMetrics.score
        (calculateBusinessHealth totals products monthlyRevenue 0) = 100%Z).
Proof.
  intros totals products monthlyRevenue Hpm Hdiv.
  unfold calculateBusinessHealth. cbn [BusinessHealthMetrics.score].
  set (g := calculateGrowthRate monthlyRevenue).
  set (d := Concentration.diversificationScore (calculateRevenueConcentration products)) in *.
  set (pm := Totals.profitMargin totals) in *.
  change (inject_Z 0) with 0.
  split; intro Hg.
  - rewrite (Math_round_comp _ (175#2)); [reflexivity|].
    minmax_cases; lra.
  - rewrite (Math_round_comp _ 100); [reflexivity|].
    minmax_cases; lra.
Qed.

Lemma health_score_saturation_witness :
  BusinessHealthMetrics.score
    (calculateBusinessHealth (Totals.mk 100 50 50 (1#2)) [] [] 0) = 88%Z.
Proof.
  apply (health_score_saturation (Totals.mk 100 50 50 (1#2)) [] []).
  - simpl. lra.
  - vm_compute. reflexivity.
  - vm_compute. reflexivity.
Defined.

(** C1, as stated, fails: margin 0.5, no products (diversification 1), no
    months (growth 0) and no anomalies give 88, not 100. *)
Lemma health_score_zero_growth_counterexample :
  let totals := Totals.mk 100 50 50 (1#2) in
  (1#3) <= Totals.profitMargin totals
  /\ calculateGrowthRate [] == 0
  /\ Concentration.diversificationScore (calculateRevenueConcentration []) == 1
  /\ BusinessHealthMetrics.score (calculateBusinessHealth totals [] [] 0) = 88%Z
  /\ BusinessHealthMetrics.score (calculateBusinessHealth totals [] [] 0) <> 100%Z.
Proof.
  cbv zeta. repeat split; try (vm_compute; reflexivity); vm_compute; discriminate.
Qed.



(** The same function on doubles.  With revenues 25, 24, 24, 24, 24, 24,
    15 the top-3 share 73/160 is the double just below 0.45625, reported
    as 0.4562, and the score is 0.5437, which is 0.0001 below
    [1 - top3ProductShare].  With two revenues of 1e308 the total is
    [Infinity] and the top-3 share is [NaN]. *)
Example concentration_in_doubles :
  (let c := Binary64.calculateRevenueConcentration
              (map product64 [25; 24; 24; 24; 24; 24; 15]) in
   Binary64.Concentration.top3ProductShare c = Binary64.ofQ (4562#10000)
   /\ Binary64.Concentration.diversificationScore c = Binary64.ofQ (5437#10000))
  /\ Binary64.Concentration.top3ProductShare
       (Binary64.calculateRevenueConcentration
          [product64 (inject_Z (10 ^ 308)); product64 (inject_Z (10 ^ 308))])
     = Binary64.NaN.
Proof. cbv zeta. repeat split; vm_compute; reflexivity. Qed.


(** ** Forecast trend *)

Lemma determineTrend_low_r2 : forall slope r2,
  r2 < (3#10) -> determineTrend slope r2 = "stable".
Proof.
  intros slope r2 Hr. unfold determineTrend.
  apply num_lt_true in Hr. rewrite Hr. reflexivity.
Qed.

Lemma determineTrend_values : forall slope r2,
  determineTrend slope r2 = "stable"
  \/ determineTrend slope r2 = "increasing"
  \/ determineTrend slope r2 = "decreasing".
Proof.
  intros slope r2. unfold determineTrend.
  destruct (num_lt r2 (3#10)); [left; reflexivity|].
  destruct (num_gt slope (1#2)); [right; left; reflexivity|].
  destruct (num_lt slope (- (1#2))); [right; right; reflexivity|left; reflexivity].
Qed.

Section ForecastTrend.
Context {Date : Type} {dateAPI : DateAPI Date} {sqrtAPI : SqrtAPI}.

Lemma forecast_trend_determined : forall dailyRevenue daysToForecast,
  ForecastResult.trend (forecastRevenue dailyRevenue daysToForecast)
  = determineTrend (ForecastResult.slope (forecastRevenue dailyRevenue daysToForecast))
                   (ForecastResult.r2 (forecastRevenue dailyRevenue daysToForecast)).
Proof.
  intros [|day rest] daysToForecast; reflexivity.
Qed.

Lemma forecast_trend_values : forall dailyRevenue daysToForecast,
  let trend := ForecastResult.trend (forecastRevenue dailyRevenue daysToForecast) in
  trend = "stable" \/ trend = "increasing" \/ trend = "decreasing".
Proof.
  intros dailyRevenue daysToForecast trend. subst trend.
  rewrite forecast_trend_determined. apply determineTrend_values.
Qed.
End ForecastTrend.

Lemma num_length_pos : forall {A : Type} (x : A) (l : list A), 0 < num_length (x :: l).
Proof.
  intros A x l. unfold num_length. change 0 with (inject_Z 0).
  rewrite <- Zlt_Qlt. simpl. lia.
Qed.

Lemma fold_pair_sums : forall {A : Type} (f g : A -> Q) (l : list A) (a b : Q),
  fold_left (fun '(s, t) p => (s + f p, t + g p)) l (a, b)
  = (fold_left (fun s p => s + f p) l a, fold_left (fun t p => t + g p) l b).
Proof.
  intros A f g. induction l as [|x l IH]; intros a b; simpl; [reflexivity|].
  apply IH.
Qed.

Lemma regression_unfold : forall data,
  data <> [] ->
  calculateLinearRegression data
  = Regression.mk (parseFloat_toFixed (rawSlope data) 4)
                  (parseFloat_toFixed (rawIntercept data) 4)
                  (parseFloat_toFixed (Math_max 0 (rawR2 data)) 4).
Proof.
  intros data Hne. unfold calculateLinearRegression.
  assert (Hn : num_eq (num_length data) 0 = false).
  { destruct data as [|p data]; [contradiction|].
    pose proof (num_length_pos p data) as Hpos. unfold num_eq.
    destruct (Qeq_bool (num_length (p :: data)) 0) eqn:E; [|reflexivity].
    num_facts. lra. }
  rewrite Hn. rewrite !fold_pair_sums. reflexivity.
Qed.

Lemma sort_nonempty : forall {A : Type} (cmp : A -> A -> Q) (l : list A),
  l <> [] -> sort cmp l <> [].
Proof.
  intros A cmp l Hne Hs. apply Hne.
  apply Permutation_nil. rewrite <- Hs. apply Permutation_sym, sort_perm.
Qed.

(** [forecastRevenue] returns the slope, the intercept and the R-squared of
    the regression on [regressionData]. *)
Lemma forecast_regression :
  forall {Date : Type} {dateAPI : DateAPI Date} {sqrtAPI : SqrtAPI}
         (dailyRevenue : list DailyRevenue.t) (daysToForecast : Q),
  dailyRevenue <> [] ->
  let reg := calculateLinearRegression (regressionData dailyRevenue) in
  ForecastResult.slope (forecastRevenue dailyRevenue daysToForecast) = Regression.slope reg
  /\ ForecastResult.intercept (forecastRevenue dailyRevenue daysToForecast)
     = Regression.intercept reg
  /\ ForecastResult.r2 (forecastRevenue dailyRevenue daysToForecast) = Regression.r2 reg.
Proof.
  intros Date dateAPI sqrtAPI [|d rest] daysToForecast Hne; [contradiction|].
  repeat split.
Qed.

Lemma regressionData_nonempty :
  forall {Date : Type} {dateAPI : DateAPI Date} (dailyRevenue : list DailyRevenue.t),
  dailyRevenue <> [] -> regressionData dailyRevenue <> [].
Proof.
  intros Date dateAPI dailyRevenue Hne. unfold regressionData.
  pose proof (sort_nonempty
                (fun a b => Date_getTime (Date_parse (DailyRevenue.date a))
                            - Date_getTime (Date_parse (DailyRevenue.date b)))
                dailyRevenue Hne) as Hs.
  destruct (sort _ dailyRevenue); [contradiction|discriminate].
Qed.

(** The [r2] that [forecastRevenue] returns is the fitted one, floored at 0
    and rounded to 4 decimals. *)
Lemma forecast_r2_rounded :
  forall {Date : Type} {dateAPI : DateAPI Date} {sqrtAPI : SqrtAPI}
         (dailyRevenue : list DailyRevenue.t) (daysToForecast : Q),
  dailyRevenue <> [] ->
  ForecastResult.r2 (forecastRevenue dailyRevenue daysToForecast)
  = parseFloat_toFixed (Math_max 0 (fittedR2 dailyRevenue)) 4.
Proof.
  intros Date dateAPI sqrtAPI dailyRevenue daysToForecast Hne.
  destruct (forecast_regression dailyRevenue daysToForecast Hne) as (_ & _ & ->).
  rewrite (regression_unfold _ (regressionData_nonempty dailyRevenue Hne)). reflexivity.
Qed.

Lemma rounds_below_threshold : forall x,
  0 <= x -> x < (29995#100000) -> parseFloat_toFixed x 4 < (3#10).
Proof.
  intros x Hpos Hx. unfold parseFloat_toFixed, toFixed_digits.
  assert (Hlt : num_lt x 0 = false) by (apply num_lt_false; exact Hpos).
  rewrite Hlt, (Qabs_pos x Hpos).
  change (inject_Z (pow10 4)) with 10000.
  pose proof (Qfloor_le (x * 10000 + (1#2))) as Hfl.
  assert (Hz : (Qfloor (x * 10000 + (1#2)) < 3000)%Z).
  { rewrite Zlt_Qlt. change (inject_Z 3000) with 3000. lra. }
  assert (Hq : inject_Z (Qfloor (x * 10000 + (1#2))) <= 2999).
  { change 2999 with (inject_Z 2999). rewrite <- Zle_Qle. lia. }
  apply Qlt_shift_div_r; lra.
Qed.


Example noisy_week_fit :
  ForecastResult.slope (forecastUTC noisy_week 30) == 8
  /\ ForecastResult.r2 (forecastUTC noisy_week 30) == (74#10000).
Proof. split; vm_compute; reflexivity. Qed.



(** ** Fallback insights *)

Lemma concentrationRule_title : forall metrics i,
  In i (concentrationRule metrics) ->
  BusinessInsight.title i = "High Revenue Concentration Risk".
Proof.
  intros metrics i. unfold concentrationRule.
  destruct (num_gt _ _); [intros [<-|[]]; reflexivity|intros []].
Qed.

Lemma marginRule_title : forall metrics i,
  In i (marginRule metrics) ->
  BusinessInsight.title i = "Low Profit Margin Alert"
  \/ BusinessInsight.title i = "Strong Profit Margins".
Proof.
  intros metrics i. unfold marginRule.
  destruct (num_lt _ _); [intros [<-|[]]; left; reflexivity|].
  destruct (num_gt _ _); [intros [<-|[]]; right; reflexivity|intros []].
Qed.

Lemma trendRule_title : forall metrics i,
  In i (trendRule metrics) ->
  BusinessInsight.title i = "Positive Growth Trajectory"
  \/ BusinessInsight.title i = "Declining Revenue Trend".
Proof.
  intros metrics i. unfold trendRule.
  destruct (String.eqb _ "up"); [intros [<-|[]]; left; reflexivity|].
  destruct (String.eqb _ "down"); [intros [<-|[]]; right; reflexivity|intros []].
Qed.

Lemma anomalyRule_title : forall metrics i,
  In i (anomalyRule metrics) ->
  BusinessInsight.title i = "Revenue Volatility Detected"
  \/ BusinessInsight.title i = "Stable Revenue Patterns".
Proof.
  intros metrics i. unfold anomalyRule.
  destruct (_ >? 5)%Z; [intros [<-|[]]; left; reflexivity|].
  destruct (_ =? 0)%Z; [intros [<-|[]]; right; reflexivity|intros []].
Qed.

Lemma healthRule_title : forall metrics i,
  In i (healthRule metrics) ->
  BusinessInsight.title i = "Excellent Business Health"
  \/ BusinessInsight.title i = "Business Health Concerns".
Proof.
  intros metrics i. unfold healthRule.
  destruct (_ >=? 80)%Z; [intros [<-|[]]; left; reflexivity|].
  destruct (_ <? 50)%Z; [intros [<-|[]]; right; reflexivity|intros []].
Qed.

Lemma filter_none : forall {A : Type} (P : A -> bool) (l : list A),
  (forall x, In x l -> P x = false) -> filter P l = [].
Proof.
  intros A P. induction l as [|x l IH]; intro Hnone; simpl.
  - reflexivity.
  - rewrite (Hnone x) by (left; reflexivity).
    apply IH. intros y Hy. apply Hnone. right. exact Hy.
Qed.

Lemma filter_all : forall {A : Type} (P : A -> bool) (l : list A),
  (forall x, In x l -> P x = true) -> filter P l = l.
Proof.
  intros A P. induction l as [|x l IH]; intro Hall; simpl.
  - reflexivity.
  - rewrite (Hall x) by (left; reflexivity).
    f_equal. apply IH. intros y Hy. apply Hall. right. exact Hy.
Qed.

(** Every rule pushes at most one insight, so the cap of six never cuts. *)
Lemma rule_lengths : forall metrics,
  (List.length (concentrationRule metrics) <= 1)%nat
  /\ (List.length (marginRule metrics) <= 1)%nat
  /\ (List.length (trendRule metrics) <= 1)%nat
  /\ (List.length (anomalyRule metrics) <= 1)%nat
  /\ (List.length (healthRule metrics) <= 1)%nat.
Proof.
  intro metrics.
  unfold concentrationRule, marginRule, trendRule, anomalyRule, healthRule.
  repeat split.
  - destruct (num_gt _ _); simpl; lia.
  - destruct (num_lt _ _); [simpl; lia|]. destruct (num_gt _ _); simpl; lia.
  - destruct (String.eqb _ "up"); [simpl; lia|].
    destruct (String.eqb _ "down"); simpl; lia.
  - destruct (_ >? 5)%Z; [simpl; lia|]. destruct (_ =? 0)%Z; simpl; lia.
  - destruct (_ >=? 80)%Z; [simpl; lia|]. destruct (_ <? 50)%Z; simpl; lia.
Qed.

Lemma fallback_insights_rules : forall {Date : Type} (now : Date) metrics,
  InsightEngineResult.insights (generateFallbackInsights now metrics)
  = concentrationRule metrics ++ marginRule metrics ++ trendRule metrics
      ++ anomalyRule metrics ++ healthRule metrics.
Proof.
  intros Date now metrics. unfold generateFallbackInsights.
  cbn [InsightEngineResult.insights]. unfold slice_to.
  apply firstn_all2. rewrite !length_app.
  destruct (rule_lengths metrics) as (H1 & H2 & H3 & H4 & H5). lia.
Qed.

Lemma margin_filter : forall {Date : Type} (now : Date) metrics,
  filter isMarginInsight (InsightEngineResult.insights (generateFallbackInsights now metrics))
  = marginRule metrics.
Proof.
  intros Date now metrics. rewrite fallback_insights_rules. rewrite !filter_app.
  rewrite (filter_none isMarginInsight (concentrationRule metrics)).
  2:{ intros i Hi. unfold isMarginInsight, hasTitle.
      rewrite (concentrationRule_title _ _ Hi). reflexivity. }
  rewrite (filter_none isMarginInsight (trendRule metrics)).
  2:{ intros i Hi. unfold isMarginInsight, hasTitle.
      destruct (trendRule_title _ _ Hi) as [-> | ->]; reflexivity. }
  rewrite (filter_none isMarginInsight (anomalyRule metrics)).
  2:{ intros i Hi. unfold isMarginInsight, hasTitle.
      destruct (anomalyRule_title _ _ Hi) as [-> | ->]; reflexivity. }
  rewrite (filter_none isMarginInsight (healthRule metrics)).
  2:{ intros i Hi. unfold isMarginInsight, hasTitle.
      destruct (healthRule_title _ _ Hi) as [-> | ->]; reflexivity. }
  rewrite (filter_all isMarginInsight (marginRule metrics)).
  2:{ intros i Hi. unfold isMarginInsight, hasTitle.
      destruct (marginRule_title _ _ Hi) as [-> | ->]; reflexivity. }
  simpl. rewrite app_nil_r. reflexivity.
Qed.

Lemma trend_filter : forall {Date : Type} (now : Date) metrics,
  filter isTrendInsight (InsightEngineResult.insights (generateFallbackInsights now metrics))
  = trendRule metrics.
Proof.
  intros Date now metrics. rewrite fallback_insights_rules. rewrite !filter_app.
  rewrite (filter_none isTrendInsight (concentrationRule metrics)).
  2:{ intros i Hi. unfold isTrendInsight, hasTitle.
      rewrite (concentrationRule_title _ _ Hi). reflexivity. }
  rewrite (filter_none isTrendInsight (marginRule metrics)).
  2:{ intros i Hi. unfold isTrendInsight, hasTitle.
      destruct (marginRule_title _ _ Hi) as [-> | ->]; reflexivity. }
  rewrite (filter_none isTrendInsight (anomalyRule metrics)).
  2:{ intros i Hi. unfold isTrendInsight, hasTitle.
      destruct (anomalyRule_title _ _ Hi) as [-> | ->]; reflexivity. }
  rewrite (filter_none isTrendInsight (healthRule metrics)).
  2:{ intros i Hi. unfold isTrendInsight, hasTitle.
      destruct (healthRule_title _ _ Hi) as [-> | ->]; reflexivity. }
  rewrite (filter_all isTrendInsight (trendRule metrics)).
  2:{ intros i Hi. unfold isTrendInsight, hasTitle.
      destruct (trendRule_title _ _ Hi) as [-> | ->]; reflexivity. }
  simpl. rewrite app_nil_r. reflexivity.
Qed.

(** C8.  The insight list and the executive summary of the fallback depend
    on the metrics only: two runs on the same metrics agree on both,
    whatever the clock reads ([generatedAt] is the only field taken from
    outside). *)
Theorem fallback_deterministic :
  forall {Date : Type} (now1 now2 : Date) (metrics : MetricsForInsight.t),
  InsightEngineResult.insights (generateFallbackInsights now1 metrics)
  = InsightEngineResult.insights (generateFallbackInsights now2 metrics)
  /\ InsightEngineResult.executiveSummary (generateFallbackInsights now1 metrics)
     = InsightEngineResult.executiveSummary (generateFallbackInsights now2 metrics).
Proof.
  intros Date now1 now2 metrics. split; reflexivity.
Qed.

(** C9.  Among the insights of the fallback, the profit-margin rule
    contributes exactly one high-priority "warning" when the margin is
    below 0.15, exactly one medium-priority "profitability" insight when it
    is above 0.30, and nothing for margins from 0.15 to 0.30. *)
Theorem margin_insight_exclusive :
  forall {Date : Type} (now : Date) (metrics : MetricsForInsight.t),
  let margin :=
    filter isMarginInsight
      (InsightEngineResult.insights (generateFallbackInsights now metrics)) in
  (MetricsForInsight.profitMargin metrics < (15#100) ->
   exists i, margin = [i]
     /\ BusinessInsight.category i = warning
     /\ BusinessInsight.priority i = high
     /\ BusinessInsight.title i = "Low Profit Margin Alert")
  /\ ((3#10) < MetricsForInsight.profitMargin metrics ->
      exists i, margin = [i]
        /\ BusinessInsight.category i = profitability
        /\ BusinessInsight.priority i = medium
        /\ BusinessInsight.title i = "Strong Profit Margins")
  /\ ((15#100) <= MetricsForInsight.profitMargin metrics <= (3#10) -> margin = []).
Proof.
  intros Date now metrics margin. subst margin. rewrite margin_filter.
  unfold marginRule. split; [|split].
  - intro Hlow. apply num_lt_true in Hlow. rewrite Hlow.
    eexists. split; [reflexivity|]. repeat split.
  - intro Hhigh.
    assert (Hnot : num_lt (MetricsForInsight.profitMargin metrics) (15#100) = false)
      by (apply num_lt_false; lra).
    rewrite Hnot. unfold num_gt. apply num_lt_true in Hhigh. rewrite Hhigh.
    eexists. split; [reflexivity|]. repeat split.
  - intros [Hlo Hhi].
    assert (Hnot : num_lt (MetricsForInsight.profitMargin metrics) (15#100) = false)
      by (apply num_lt_false; exact Hlo).
    assert (Hnot' : num_gt (MetricsForInsight.profitMargin metrics) (3#10) = false)
      by (apply num_lt_false; exact Hhi).
    rewrite Hnot, Hnot'. reflexivity.
Qed.

Lemma margin_insight_exclusive_witness :
  exists i,
    filter isMarginInsight
      (InsightEngineResult.insights (generateFallbackInsights tt thin_margin_metrics)) = [i]
    /\ BusinessInsight.category i = warning
    /\ BusinessInsight.priority i = high
    /\ BusinessInsight.title i = "Low Profit Margin Alert".
Proof.
  apply (margin_insight_exclusive tt thin_margin_metrics). simpl. lra.
Defined.

(** C10.  On metrics prepared from a forecaster result the trend rule of
    the fallback never fires: [recentTrend] is the forecaster's trend
    ("increasing", "decreasing" or "stable"), which is neither "up" nor
    "down"; no trend insight is among the insights. *)
Theorem trend_insights_unreachable :
  forall {Date : Type} {dateAPI : DateAPI Date} {sqrtAPI : SqrtAPI}
         (now : Date) (analytics : AnalyticsSummary.t)
         (dailyRevenue : list DailyRevenue.t) (daysToForecast : Q)
         (anomalies : AnomalyDetectionResult.t),
  let metrics :=
    prepareMetricsForInsight analytics
      (forecastRevenue dailyRevenue daysToForecast) anomalies in
  trendRule metrics = []
  /\ filter isTrendInsight
       (InsightEngineResult.insights (generateFallbackInsights now metrics)) = [].
Proof.
  intros Date dateAPI sqrtAPI now analytics dailyRevenue daysToForecast anomalies metrics.
  assert (Hrule : trendRule metrics = []).
  { subst metrics. unfold trendRule, prepareMetricsForInsight.
    cbn [MetricsForInsight.trendAnalysis TrendAnalysis.recentTrend].
    destruct (forecast_trend_values dailyRevenue daysToForecast) as [-> | [-> | ->]];
      reflexivity. }
  split; [exact Hrule|]. rewrite trend_filter. exact Hrule.
Qed.

(** ** Degenerate regressions *)

Lemma num_length_le : forall {A : Type} (l : list A) (k : nat),
  (List.length l <= k)%nat -> num_length l <= inject_Z (Z.of_nat k).
Proof.
  intros A l k Hk. unfold num_length. rewrite <- Zle_Qle. lia.
Qed.

Lemma regression_single_point : forall p,
  Regression.slope (calculateLinearRegression [p]) == 0
  /\ Regression.intercept (calculateLinearRegression [p])
     == parseFloat_toFixed (Point.y p) 4
  /\ Regression.r2 (calculateLinearRegression [p]) == 0.
Proof.
  intros [x y]. unfold calculateLinearRegression.
  change (num_length [Point.mk x y]) with 1.
  change (num_eq 1 0) with false. cbv iota.
  unfold reduce_sum. cbn [fold_left Point.x Point.y].
  assert (Hden : num_eq (0 + (x - (0 + x) / 1) * (x - (0 + x) / 1)) 0 = true)
    by (apply Qeq_bool_iff; field).
  rewrite Hden. cbn [negb].
  assert (Htot : num_eq (0 + Math_pow2 (y - (0 + y) / 1)) 0 = true)
    by (apply Qeq_bool_iff; unfold Math_pow2; simpl; field).
  rewrite Htot. cbn [negb Regression.slope Regression.intercept Regression.r2].
  split; [|split].
  - apply parseFloat_toFixed_0.
  - apply parseFloat_toFixed_comp; [field|reflexivity].
  - change (Math_max 0 0) with 0. apply parseFloat_toFixed_0.
Qed.

(** C2 (as the code has it).  On no points the regression returns slope,
    intercept and R-squared 0.  On a single point [(x, y)] it returns slope
    0 and R-squared 0, but the intercept is [y] rounded to 4 decimals (the
    flat line through the point); so a one-day series is forecast with the
    day's revenue as intercept.  On fewer than 3 points the residual
    standard error is 0. *)
Theorem regression_degenerate :
  forall {Date : Type} {dateAPI : DateAPI Date} {sqrtAPI : SqrtAPI} (data : list Point.t),
  ((List.length data < 2)%nat ->
   Regression.slope (calculateLinearRegression data) == 0
   /\ Regression.r2 (calculateLinearRegression data) == 0
   /\ Regression.intercept (calculateLinearRegression data)
      == match data with
         | [] => 0
         | p :: _ => parseFloat_toFixed (Point.y p) 4
         end)
  /\ ((List.length data < 3)%nat ->
      forall slope intercept, calculateStandardError data slope intercept = 0)
  /\ (forall (d : DailyRevenue.t) (daysToForecast : Q),
      ForecastResult.slope (forecastRevenue [d] daysToForecast) == 0
      /\ ForecastResult.r2 (forecastRevenue [d] daysToForecast) == 0
      /\ ForecastResult.intercept (forecastRevenue [d] daysToForecast)
         == parseFloat_toFixed (DailyRevenue.revenue d) 4).
Proof.
  intros Date dateAPI sqrtAPI data. split; [|split].
  - intro Hlen. destruct data as [|p [|q rest]].
    + simpl. repeat split; reflexivity.
    + destruct (regression_single_point p) as (Hs & Hi & Hr).
      split; [exact Hs|split; [exact Hr|exact Hi]].
    + simpl in Hlen. lia.
  - intros Hlen slope intercept. unfold calculateStandardError.
    assert (Hle : num_le (num_length data) 2 = true).
    { apply Qle_bool_iff. apply (num_length_le data 2). lia. }
    rewrite Hle. reflexivity.
  - intros d daysToForecast. unfold forecastRevenue.
    cbn [sort sort_insert indexed ForecastResult.slope ForecastResult.r2
         ForecastResult.intercept].
    destruct (regression_single_point (Point.mk (inject_Z (Z.of_nat 0)) (DailyRevenue.revenue d)))
      as (Hs & Hi & Hr).
    split; [exact Hs|split; [exact Hr|exact Hi]].
Qed.

Lemma regression_degenerate_witness :
  let data := [Point.mk 0 100] in
  (Regression.slope (calculateLinearRegression data) == 0
   /\ Regression.r2 (calculateLinearRegression data) == 0
   /\ Regression.intercept (calculateLinearRegression data) == 100)
  /\ calculateStandardError (sqrtAPI := Runtime.Sqrt8) data 0 100 = 0.
Proof.
  cbv zeta.
  destruct (regression_degenerate (dateAPI := Runtime.UTCDate) (sqrtAPI := Runtime.Sqrt8)
              [Point.mk 0 100])
    as (Hreg & Hse & _).
  split.
  - destruct (Hreg ltac:(simpl; lia)) as (Hs & Hr & Hi).
    split; [exact Hs|split; [exact Hr|]]. rewrite Hi. vm_compute. reflexivity.
  - apply Hse. simpl. lia.
Defined.

(** C2, as stated, fails on a one-day series: the single regression point
    is [(0, 100)] and the intercept is 100, not 0. *)
Lemma regression_single_day_counterexample :
  let dailyRevenue := [day "2024-03-01" 100] in
  let data := indexed 0 dailyRevenue in
  (List.length dailyRevenue < 2)%nat
  /\ Regression.intercept (calculateLinearRegression data) == 100
  /\ ~ Regression.intercept (calculateLinearRegression data) == 0
  /\ ForecastResult.intercept (forecastUTC dailyRevenue 30) == 100.
Proof.
  cbv zeta. split; [simpl; lia|].
  split; [vm_compute; reflexivity|].
  split; [vm_compute; discriminate|vm_compute; reflexivity].
Qed.

(** ** Anomaly detection on a flat series

    Whether the guard [stdDev === 0] fires on a flat series depends on the
    sum of the revenues being exact, so this part is about the doubles of
    [Binary64]. *)

Lemma reduce_sum_const : forall {A : Type} (f : A -> Q) (v : Q) (l : list A),
  (forall x, In x l -> f x == v) -> reduce_sum f l == num_length l * v.
Proof.
  intros A f v. induction l as [|x l IH]; intro Hv.
  - unfold reduce_sum, num_length. simpl. change (inject_Z 0) with 0. lra.
  - rewrite reduce_sum_cons. rewrite (Hv x) by (left; reflexivity).
    rewrite IH by (intros y Hy; apply Hv; right; exact Hy).
    unfold num_length. cbn [List.length]. rewrite Nat2Z.inj_succ.
    unfold Z.succ. rewrite inject_Z_plus. change (inject_Z 1) with 1. lra.
Qed.


Lemma flat_map_nil : forall {A B : Type} (g : A -> list B) (l : list A),
  (forall x, In x l -> g x = []) -> flat_map g l = [].
Proof.
  intros A B g. induction l as [|x l IH]; intro Hg; simpl.
  - reflexivity.
  - rewrite (Hg x) by (left; reflexivity).
    apply IH. intros y Hy. apply Hg. right. exact Hy.
Qed.

Section FlatSeries.
Context {Date : Type} {dateAPI : DateAPI Date}.

Lemma sub_self : forall v, isFinite v = true -> Binary64.sub v v = Binary64.zero.
Proof.
  intros [s|s| |s m e] Hv; try discriminate Hv.
  - destruct s; reflexivity.
  - unfold Binary64.sub, SFsub. rewrite Z.min_id, Z.sub_diag. reflexivity.
Qed.

Lemma sum_zeros : forall (l : list Binary64.number),
  (forall x, In x l -> x = Binary64.zero) ->
  Binary64.reduce_sum (fun val => val) l = Binary64.zero.
Proof.
  intros l Hl. unfold Binary64.reduce_sum.
  assert (H : forall acc, acc = Binary64.zero ->
                fold_left (fun sum p => Binary64.add sum p) l acc = Binary64.zero).
  { induction l as [|x l IH]; intros acc Hacc; simpl; [exact Hacc|].
    apply IH.
    - intros y Hy. apply Hl. right. exact Hy.
    - rewrite Hacc, (Hl x) by (left; reflexivity). reflexivity. }
  apply H. reflexivity.
Qed.

Lemma zero_div : forall n,
  n <> S754_nan -> (forall s, n <> S754_zero s) ->
  exists s, Binary64.div Binary64.zero n = S754_zero s.
Proof.
  intros [s|s| |s m e] Hnan Hz.
  - exfalso. apply (Hz s). reflexivity.
  - exists s. reflexivity.
  - exfalso. apply Hnan. reflexivity.
  - exists s. reflexivity.
Qed.

Lemma ge_zero_positive : forall threshold,
  Binary64.num_gt threshold Binary64.zero = true ->
  forall s, Binary64.num_ge (S754_zero s) threshold = false.
Proof.
  intros [s|s| |s m e] Hthr s'; try discriminate Hthr; destruct s; try discriminate Hthr;
    reflexivity.
Qed.

(** A finite mean was not obtained by dividing by [NaN] or by zero. *)
Lemma calculateMean_divisor : forall values v,
  values <> [] -> isFinite v = true -> Binary64.calculateMean values = v ->
  Binary64.num_length values <> S754_nan
  /\ forall s, Binary64.num_length values <> S754_zero s.
Proof.
  intros [|x values] v Hne Hv Hmean; [contradiction|].
  unfold Binary64.calculateMean in Hmean. rewrite <- Hmean in Hv.
  destruct (Binary64.num_length (x :: values)) as [s|s| |s m e];
    (split; [|intros s']); try discriminate;
    destruct (Binary64.reduce_sum (fun val => val) (x :: values)); simpl in Hv;
    discriminate.
Qed.

Lemma calculateStandardDeviation_flat : forall values v,
  (forall x, In x values -> x = v) -> isFinite v = true ->
  Binary64.num_length values <> S754_nan ->
  (forall s, Binary64.num_length values <> S754_zero s) ->
  exists s, Binary64.calculateStandardDeviation values v = S754_zero s.
Proof.
  intros [|x values] v Hflat Hv Hnan Hz; [exists false; reflexivity|].
  unfold Binary64.calculateStandardDeviation. rewrite sum_zeros.
  - destruct (zero_div _ Hnan Hz) as [s Hs]. rewrite Hs. exists s. reflexivity.
  - intros y Hy. apply in_map_iff in Hy. destruct Hy as (val & <- & Hval).
    rewrite (Hflat val Hval), (sub_self v Hv). reflexivity.
Qed.

Lemma detectDay_flat : forall v s threshold d,
  Binary64.num_gt threshold Binary64.zero = true ->
  Binary64.detectDay v (S754_zero s) threshold d = [].
Proof.
  intros v s threshold d Hthr. unfold Binary64.detectDay, Binary64.calculateZScore.
  change (Binary64.num_eq (S754_zero s) Binary64.zero) with true. cbv iota.
  change (Binary64.Math_abs Binary64.zero) with (S754_zero false).
  rewrite (ge_zero_positive threshold Hthr). reflexivity.
Qed.

End FlatSeries.




(** ** Keys of a grouping map *)

(** A grouping loop that files each transaction under [key tx]. *)
Definition keyedStep {V Tx : Type} (key : Tx -> string)
  (step : list (string * V) -> Tx -> list (string * V)) : Prop :=
  forall m tx, exists v, step m tx = Map_set m (key tx) v.

Section MapKeys.
Context {V : Type}.

Lemma Map_set_key_in : forall (m : list (string * V)) k v k',
  In k' (map fst (Map_set m k v)) <-> k' = k \/ In k' (map fst m).
Proof.
  induction m as [|[k0 v0] m IH]; intros k v k'; simpl.
  - split; [intros [<-|[]]; left; reflexivity|intros [->|[]]; left; reflexivity].
  - destruct (String.eqb k0 k) eqn:E; simpl.
    + apply String.eqb_eq in E. subst k0. intuition congruence.
    + rewrite IH. intuition congruence.
Qed.

Lemma Map_set_NoDup : forall (m : list (string * V)) k v,
  NoDup (map fst m) -> NoDup (map fst (Map_set m k v)).
Proof.
  induction m as [|[k0 v0] m IH]; intros k v Hnd; simpl.
  - constructor; [intros []|constructor].
  - inversion Hnd as [|? ? Hnotin Hnd']; subst.
    destruct (String.eqb k0 k) eqn:E; simpl.
    + constructor; assumption.
    + constructor; [|apply IH; exact Hnd'].
      rewrite Map_set_key_in. intros [->|Hin].
      * rewrite String.eqb_refl in E. discriminate.
      * apply Hnotin. exact Hin.
Qed.

Context {Tx : Type}.
Variable key : Tx -> string.
Variable step : list (string * V) -> Tx -> list (string * V).
Hypothesis Hkeyed : keyedStep key step.

Lemma loop_keys : forall (txs : list Tx) (m : list (string * V)),
  NoDup (map fst m) ->
  NoDup (map fst (fold_left step txs m))
  /\ forall k, In k (map fst (fold_left step txs m))
               <-> In k (map fst m) \/ exists tx, In tx txs /\ key tx = k.
Proof.
  induction txs as [|tx txs IH]; intros m Hnd; simpl.
  - split; [exact Hnd|]. intro k. split; [intro Hin; left; exact Hin|].
    intros [Hin|(tx & [] & _)]. exact Hin.
  - destruct (Hkeyed m tx) as [v Hv]. rewrite Hv.
    destruct (IH (Map_set m (key tx) v) (Map_set_NoDup m (key tx) v Hnd)) as [Hnd' Hin'].
    split; [exact Hnd'|]. intro k. rewrite Hin', Map_set_key_in. split.
    + intros [[->|Hin]|(tx' & Htx' & Hk)].
      * right. exists tx. split; [left; reflexivity|reflexivity].
      * left. exact Hin.
      * right. exists tx'. split; [right; exact Htx'|exact Hk].
    + intros [Hin|(tx' & [<-|Htx'] & Hk)].
      * left. right. exact Hin.
      * left. left. symmetry. exact Hk.
      * right. exists tx'. split; assumption.
Qed.
End MapKeys.

Lemma Map_get_In : forall {V : Type} (m : list (string * V)) k v,
  Map_get m k = Some v -> In (k, v) m.
Proof.
  intros V. induction m as [|[k0 v0] m IH]; intros k v Hget; simpl in Hget; [discriminate|].
  destruct (String.eqb k0 k) eqn:E.
  - apply String.eqb_eq in E. injection Hget as <-. subst k0. left. reflexivity.
  - right. apply IH. exact Hget.
Qed.

Lemma Map_set_In : forall {V : Type} (m : list (string * V)) k v e,
  In e (Map_set m k v) -> e = (k, v) \/ In e m.
Proof.
  intros V. induction m as [|[k0 v0] m IH]; intros k v e He; simpl in He.
  - destruct He as [<-|[]]. left. reflexivity.
  - destruct (String.eqb k0 k) eqn:E.
    + apply String.eqb_eq in E. subst k0.
      destruct He as [<-|He]; [left; reflexivity|right; right; exact He].
    + destruct He as [<-|He]; [right; left; reflexivity|].
      destruct (IH k v e He) as [->|Hin]; [left; reflexivity|right; right; exact Hin].
Qed.

Lemma Map_get_set : forall {V : Type} (m : list (string * V)) k v k',
  Map_get (Map_set m k v) k' = if String.eqb k k' then Some v else Map_get m k'.
Proof.
  intros V. induction m as [|[k0 v0] m IH]; intros k v k'; simpl.
  - reflexivity.
  - destruct (String.eqb k0 k) eqn:E; simpl.
    + apply String.eqb_eq in E. subst k0. destruct (String.eqb k k'); reflexivity.
    + rewrite IH. destruct (String.eqb k0 k') eqn:E'; [|reflexivity].
      apply String.eqb_eq in E'. subst k0. rewrite String.eqb_sym, E. reflexivity.
Qed.

Lemma Map_in_get : forall {V : Type} (m : list (string * V)) k v,
  NoDup (map fst m) -> In (k, v) m -> Map_get m k = Some v.
Proof.
  intros V. induction m as [|[k0 v0] m IH]; intros k v Hnd Hin; [destruct Hin|].
  inversion Hnd as [|? ? Hnotin Hnd']; subst. simpl.
  destruct Hin as [Heq|Hin].
  - injection Heq as -> ->. rewrite String.eqb_refl. reflexivity.
  - destruct (String.eqb k0 k) eqn:E.
    + apply String.eqb_eq in E. subst k0. exfalso. apply Hnotin.
      apply (in_map fst) in Hin. exact Hin.
    + apply IH; assumption.
Qed.

Section KeyedRollups.
Context {Date : Type} {dateAPI : DateAPI Date}.

Lemma dailyStep_keyed : keyedStep dateKey (dailyStep (Date := Date)).
Proof. intros m tx. eexists. reflexivity. Qed.

Lemma monthlyStep_keyed : keyedStep monthKey (monthlyStep (Date := Date)).
Proof. intros m tx. eexists. reflexivity. Qed.

Lemma productStep_keyed :
  keyedStep Transaction.productName (productStep (Date := Date)).
Proof. intros m tx. eexists. reflexivity. Qed.
End KeyedRollups.

(** ** Partition of the totals by the roll-ups *)

Lemma whole_cents_0 : whole_cents 0.
Proof. exists 0%Z. reflexivity. Qed.

Lemma whole_cents_plus : forall x y, whole_cents x -> whole_cents y -> whole_cents (x + y).
Proof.
  intros x y [a Ha] [b Hb]. exists (a + b)%Z.
  rewrite Ha, Hb, inject_Z_plus. field. discriminate.
Qed.

Lemma whole_cents_comp : forall x y, x == y -> whole_cents x -> whole_cents y.
Proof. intros x y Hxy [a Ha]. exists a. rewrite <- Hxy. exact Ha. Qed.

Lemma whole_cents_fixed : forall x, whole_cents x -> parseFloat_toFixed x 2 == x.
Proof. intros x [z Hz]. apply (parseFloat_toFixed_exact z 2 x Hz). Qed.

Section MapSums.
Context {V : Type}.
Variable proj : V -> Q.

Lemma Map_set_sum : forall m k v d,
  proj d == 0 ->
  sumMap proj (Map_set m k v) == sumMap proj m - proj (Map_get_or m k d) + proj v.
Proof.
  intros m k v d Hd. unfold sumMap, Map_get_or.
  induction m as [|[k' v'] m IH]; simpl.
  - rewrite reduce_sum_cons. unfold reduce_sum. simpl. lra.
  - destruct (String.eqb k' k); rewrite !reduce_sum_cons; simpl.
    + lra.
    + rewrite IH. lra.
Qed.

Lemma Map_get_or_cents : forall m k d,
  centsMap proj m -> whole_cents (proj d) -> whole_cents (proj (Map_get_or m k d)).
Proof.
  intros m k d Hm Hd. unfold Map_get_or.
  induction m as [|[k' v'] m IH]; simpl.
  - exact Hd.
  - destruct (String.eqb k' k).
    + apply (Hm (k', v')). left. reflexivity.
    + apply IH. intros e He. apply Hm. right. exact He.
Qed.

Lemma Map_set_cents : forall m k v,
  centsMap proj m -> whole_cents (proj v) -> centsMap proj (Map_set m k v).
Proof.
  intros m k v Hm Hv. induction m as [|[k' v'] m IH]; simpl.
  - intros e [<-|[]]. exact Hv.
  - destruct (String.eqb k' k).
    + intros e [<-|He]; [exact Hv|]. apply Hm. right. exact He.
    + intros e [<-|He].
      * apply (Hm (k', v')). left. reflexivity.
      * apply IH; [|exact He]. intros e' He'. apply Hm. right. exact He'.
Qed.

Context {Tx : Type}.
Variable g : Tx -> Q.
Variable step : list (string * V) -> Tx -> list (string * V).

Hypothesis Hstep : accumulates proj g step.

Lemma loop_sum : forall (txs : list Tx) (m : list (string * V)),
  sumMap proj (fold_left step txs m) == sumMap proj m + reduce_sum g txs.
Proof.
  induction txs as [|tx txs IH]; intro m; simpl.
  - unfold reduce_sum. simpl. lra.
  - rewrite IH, reduce_sum_cons.
    destruct (Hstep m tx) as (k & v & d & -> & Hd & Hv).
    rewrite (Map_set_sum m k v d Hd), Hv. lra.
Qed.

Lemma loop_cents : forall (txs : list Tx) (m : list (string * V)),
  (forall tx, In tx txs -> whole_cents (g tx)) ->
  centsMap proj m -> centsMap proj (fold_left step txs m).
Proof.
  induction txs as [|tx txs IH]; intros m Hg Hm; simpl.
  - exact Hm.
  - apply IH; [intros tx' Htx'; apply Hg; right; exact Htx'|].
    destruct (Hstep m tx) as (k & v & d & -> & Hd & Hv).
    apply Map_set_cents; [exact Hm|].
    apply (whole_cents_comp (proj (Map_get_or m k d) + g tx)); [symmetry; exact Hv|].
    apply whole_cents_plus.
    + apply Map_get_or_cents; [exact Hm|].
      apply (whole_cents_comp 0); [symmetry; exact Hd|apply whole_cents_0].
    + apply Hg. left. reflexivity.
Qed.

(** The reported entries: each group total rounded to cents, then the
    array sorted. *)
Context {E : Type}.
Variable entry : string * V -> E.
Variable out : E -> Q.
Variable cmp : E -> E -> Q.
Hypothesis Hentry : forall e, out (entry e) = parseFloat_toFixed (proj (snd e)) 2.

Lemma rollup_sum : forall (txs : list Tx),
  (forall tx, In tx txs -> whole_cents (g tx)) ->
  reduce_sum out (sort cmp (map entry (fold_left step txs []))) == reduce_sum g txs.
Proof.
  intros txs Hg. rewrite reduce_sum_sort, reduce_sum_map.
  rewrite (reduce_sum_ext _ (fun e => proj (snd e))).
  - fold (sumMap proj (fold_left step txs [])). rewrite loop_sum.
    unfold sumMap, reduce_sum at 1. simpl. lra.
  - intros e He. rewrite Hentry. apply whole_cents_fixed.
    apply (loop_cents txs [] Hg); [intros e' []|exact He].
Qed.
End MapSums.

Section Rollups.
Context {Date : Type} {dateAPI : DateAPI Date}.

Ltac accumulating :=
  intros m tx; eexists _, _, _;
  split; [reflexivity|split; [|simpl; reflexivity]]; reflexivity.

Lemma dailyStep_revenue :
  accumulates RevCost.revenue Transaction.revenue (dailyStep (Date := Date)).
Proof. accumulating. Qed.

Lemma dailyStep_cost :
  accumulates RevCost.cost Transaction.cost (dailyStep (Date := Date)).
Proof. accumulating. Qed.

Lemma monthlyStep_revenue :
  accumulates RevCost.revenue Transaction.revenue (monthlyStep (Date := Date)).
Proof. accumulating. Qed.

Lemma monthlyStep_cost :
  accumulates RevCost.cost Transaction.cost (monthlyStep (Date := Date)).
Proof. accumulating. Qed.

Lemma productStep_revenue :
  accumulates ProductAcc.revenue Transaction.revenue (productStep (Date := Date)).
Proof. accumulating. Qed.

Lemma productStep_cost :
  accumulates ProductAcc.cost Transaction.cost (productStep (Date := Date)).
Proof. accumulating. Qed.

End Rollups.

Section GroupTotals.
Context {V Tx E : Type}.
Variable key : Tx -> string.
Variable proj : V -> Q.
Variable g : Tx -> Q.
Variable step : list (string * V) -> Tx -> list (string * V).
Hypothesis Hfiles : files key proj g step.

Lemma files_keyed : keyedStep key step.
Proof. intros m tx. destruct (Hfiles m tx) as (v & Hv & _). exists v. exact Hv. Qed.

Lemma groupTotal_cons : forall k tx txs,
  groupTotal key g k (tx :: txs)
  == (if String.eqb (key tx) k then g tx else 0) + groupTotal key g k txs.
Proof.
  intros k tx txs. unfold groupTotal. cbn [filter].
  destruct (String.eqb (key tx) k); [apply reduce_sum_cons|lra].
Qed.

(** After the loop, the field stored under a key is what was stored there
    before plus the total of the transactions with that key. *)
Lemma loop_group : forall (txs : list Tx) (m : list (string * V)) k,
  stored proj (fold_left step txs m) k == stored proj m k + groupTotal key g k txs.
Proof.
  induction txs as [|tx txs IH]; intros m k; cbn [fold_left].
  - unfold groupTotal, reduce_sum. simpl. lra.
  - rewrite IH, groupTotal_cons.
    destruct (Hfiles m tx) as (v & -> & Hv).
    unfold stored at 1. rewrite Map_get_set.
    destruct (String.eqb (key tx) k) eqn:Ek.
    + apply String.eqb_eq in Ek. subst k. rewrite Hv. lra.
    + fold (stored proj m k). lra.
Qed.

Variable entry : string * V -> E.
Variable out : E -> Q.
Variable keyOf : E -> string.
Variable cmp : E -> E -> Q.
Hypothesis Hentry : forall e, out (entry e) = parseFloat_toFixed (proj (snd e)) 2.
Hypothesis Hkey : forall e, keyOf (entry e) = fst e.

(** Each reported entry carries the total of the transactions of its key,
    rounded to cents. *)
Lemma rollup_entry : forall (txs : list Tx) (e : E),
  In e (sort cmp (map entry (fold_left step txs []))) ->
  out e == parseFloat_toFixed (groupTotal key g (keyOf e) txs) 2.
Proof.
  intros txs e He.
  apply (Permutation_in _ (Permutation_sym (sort_perm cmp _))) in He.
  apply in_map_iff in He. destruct He as ([k data] & <- & Hin).
  rewrite Hentry, Hkey. cbn [fst snd].
  destruct (loop_keys key step files_keyed txs [] (NoDup_nil _)) as [Hnd _].
  pose proof (loop_group txs [] k) as Hloop.
  unfold stored in Hloop. rewrite (Map_in_get _ k data Hnd Hin) in Hloop.
  cbn [Map_get] in Hloop. rewrite Hloop.
  apply parseFloat_toFixed_comp; [lra|reflexivity].
Qed.
End GroupTotals.

Section RollupEntries.
Context {Date : Type} {dateAPI : DateAPI Date}.

Ltac filing :=
  intros m tx; eexists; split; [reflexivity|];
  unfold stored, Map_get_or; destruct (Map_get m _); simpl; reflexivity.

Lemma dailyStep_files_revenue :
  files dateKey RevCost.revenue Transaction.revenue (dailyStep (Date := Date)).
Proof. filing. Qed.

Lemma dailyStep_files_cost :
  files dateKey RevCost.cost Transaction.cost (dailyStep (Date := Date)).
Proof. filing. Qed.

Lemma monthlyStep_files_revenue :
  files monthKey RevCost.revenue Transaction.revenue (monthlyStep (Date := Date)).
Proof. filing. Qed.

Lemma monthlyStep_files_cost :
  files monthKey RevCost.cost Transaction.cost (monthlyStep (Date := Date)).
Proof. filing. Qed.

Lemma productStep_files_revenue :
  files Transaction.productName ProductAcc.revenue Transaction.revenue
        (productStep (Date := Date)).
Proof. filing. Qed.

Lemma productStep_files_cost :
  files Transaction.productName ProductAcc.cost Transaction.cost
        (productStep (Date := Date)).
Proof. filing. Qed.

End RollupEntries.




(** * Further properties of the code *)

(** ** Rounding is monotone and odd *)

Lemma parseFloat_toFixed_opp : forall x f,
  x < 0 -> parseFloat_toFixed x f == - parseFloat_toFixed (- x) f.
Proof.
  intros x f Hx. pose proof (inject_pow10_pos f) as Hp.
  rewrite (parseFloat_toFixed_nonneg (- x) f) by lra.
  unfold parseFloat_toFixed, toFixed_digits.
  assert (Hlt : num_lt x 0 = true) by (apply num_lt_true; exact Hx).
  rewrite Hlt. rewrite (Qabs_neg x) by lra.
  rewrite inject_Z_opp. field. lra.
Qed.

Lemma parseFloat_toFixed_sign : forall x f, 0 <= x -> 0 <= parseFloat_toFixed x f.
Proof.
  intros x f Hx. rewrite <- (parseFloat_toFixed_0 f).
  apply parseFloat_toFixed_mono; [apply Qle_refl|exact Hx].
Qed.

Lemma parseFloat_toFixed_monotone : forall x y f,
  x <= y -> parseFloat_toFixed x f <= parseFloat_toFixed y f.
Proof.
  intros x y f Hxy.
  destruct (Qlt_le_dec x 0) as [Hx|Hx].
  - destruct (Qlt_le_dec y 0) as [Hy|Hy].
    + rewrite (parseFloat_toFixed_opp x f Hx), (parseFloat_toFixed_opp y f Hy).
      assert (parseFloat_toFixed (- y) f <= parseFloat_toFixed (- x) f)
        by (apply parseFloat_toFixed_mono; lra).
      lra.
    + rewrite (parseFloat_toFixed_opp x f Hx).
      pose proof (parseFloat_toFixed_sign (- x) f ltac:(lra)).
      pose proof (parseFloat_toFixed_sign y f Hy). lra.
  - apply parseFloat_toFixed_mono; assumption.
Qed.

(** ** [sort] sorts *)

Section SortSorted.
Context {A : Type}.
Variable cmp : A -> A -> Q.
Hypothesis cmp_total : forall a b, cmp a b <= 0 \/ cmp b a <= 0.
Hypothesis cmp_trans : forall a b c, cmp a b <= 0 -> cmp b c <= 0 -> cmp a c <= 0.

Lemma sort_insert_sorted : forall x l,
  StronglySorted (fun a b => cmp a b <= 0) l ->
  StronglySorted (fun a b => cmp a b <= 0) (sort_insert cmp x l).
Proof.
  intros x l Hs. induction Hs as [|y l Hs IH Hy]; simpl.
  - constructor; constructor.
  - destruct (Qle_bool (cmp x y) 0) eqn:E; num_facts.
    + constructor; [constructor; assumption|].
      constructor; [exact E|].
      apply Forall_forall. intros z Hz.
      apply (cmp_trans x y z E). apply (proj1 (Forall_forall _ _) Hy z Hz).
    + constructor; [exact IH|].
      apply (Permutation_Forall (sort_insert_perm cmp x l)).
      constructor; [|exact Hy].
      destruct (cmp_total y x) as [Hyx|Hxy]; [exact Hyx|lra].
Qed.

Lemma sort_sorted : forall l, StronglySorted (fun a b => cmp a b <= 0) (sort cmp l).
Proof.
  induction l as [|x l IH]; simpl.
  - constructor.
  - apply sort_insert_sorted. exact IH.
Qed.
End SortSorted.

Lemma StronglySorted_weaken : forall {A : Type} (R R' : A -> A -> Prop) (l : list A),
  (forall a b, In a l -> In b l -> R a b -> R' a b) ->
  StronglySorted R l -> StronglySorted R' l.
Proof.
  intros A R R' l Himp Hs. induction Hs as [|x l Hs IH Hx].
  - constructor.
  - constructor.
    + apply IH. intros a b Ha Hb. apply Himp; right; assumption.
    + apply Forall_forall. intros z Hz.
      apply Himp; [left; reflexivity|right; exact Hz|].
      apply (proj1 (Forall_forall _ _) Hx z Hz).
Qed.

(** A sorted list splits at any position into a prefix and a remainder
    with every element of the prefix related to every element of the
    remainder. *)
Lemma StronglySorted_firstn : forall {A : Type} (R : A -> A -> Prop) (n : nat) (l : list A),
  StronglySorted R l ->
  forall a b, In a (firstn n l) -> In b (skipn n l) -> R a b.
Proof.
  intros A R n l Hs. revert n. induction Hs as [|x l Hs IH Hx]; intros n a b Ha Hb.
  - rewrite firstn_nil in Ha. destruct Ha.
  - destruct n as [|n]; simpl in Ha, Hb; [destruct Ha|].
    destruct Ha as [<-|Ha].
    + apply (proj1 (Forall_forall _ _) Hx b).
      rewrite <- (firstn_skipn n l). apply in_or_app. right. exact Hb.
    + apply (IH n a b Ha Hb).
Qed.

Lemma localeCompare_le : forall a b,
  localeCompare a b <= 0 <-> String.compare a b <> Gt.
Proof.
  intros a b. unfold localeCompare. destruct (String.compare a b); split; intro Hc;
    try discriminate; try lra; congruence.
Qed.

Lemma localeCompare_total : forall a b, localeCompare a b <= 0 \/ localeCompare b a <= 0.
Proof.
  intros a b. rewrite !localeCompare_le. rewrite (String.compare_antisym b a).
  destruct (String.compare a b); simpl; [left|left|right]; discriminate.
Qed.

Lemma localeCompare_trans : forall a b c,
  localeCompare a b <= 0 -> localeCompare b c <= 0 -> localeCompare a c <= 0.
Proof.
  intros a b c. rewrite !localeCompare_le. intros Hab Hbc.
  destruct (String.compare a b) eqn:Eab; [| |congruence].
  - apply String.compare_eq_iff in Eab. subst b. exact Hbc.
  - destruct (String.compare b c) eqn:Ebc; [| |congruence].
    + apply String.compare_eq_iff in Ebc. subst c. rewrite Eab. discriminate.
    + apply OrderedTypeEx.String_as_OT.cmp_lt in Eab, Ebc.
      pose proof (OrderedTypeEx.String_as_OT.lt_trans _ _ _ Eab Ebc) as Hac.
      apply OrderedTypeEx.String_as_OT.cmp_lt in Hac.
      change (String.compare a c = Lt) in Hac. rewrite Hac. discriminate.
Qed.

Lemma StronglySorted_strict : forall {A : Type} (k : A -> string) (l : list A),
  StronglySorted (fun a b => localeCompare (k a) (k b) <= 0) l ->
  NoDup (map k l) ->
  StronglySorted (fun a b => String.compare (k a) (k b) = Lt) l.
Proof.
  intros A k l Hs. induction Hs as [|x l Hs IH Hx]; intro Hnd.
  - constructor.
  - simpl in Hnd. inversion Hnd as [|? ? Hnotin Hnd']; subst.
    constructor; [apply IH; exact Hnd'|].
    apply Forall_forall. intros z Hz.
    pose proof (proj1 (Forall_forall _ _) Hx z Hz) as Hle.
    apply localeCompare_le in Hle.
    destruct (String.compare (k x) (k z)) eqn:E; [|reflexivity|congruence].
    apply String.compare_eq_iff in E. exfalso. apply Hnotin.
    rewrite E. apply in_map. exact Hz.
Qed.

(** The entries of a roll-up keyed by a string: one per key of the map,
    in strictly ascending order of the key. *)
Lemma keyed_entries_sorted :
  forall {V E : Type} (entry : string * V -> E) (keyOf : E -> string)
         (m : list (string * V)),
  (forall e, keyOf (entry e) = fst e) ->
  NoDup (map fst m) ->
  let result :=
    sort (fun a b => localeCompare (keyOf a) (keyOf b)) (map entry m) in
  StronglySorted (fun a b => String.compare (keyOf a) (keyOf b) = Lt) result
  /\ Permutation (map fst m) (map keyOf result).
Proof.
  intros V E entry keyOf m Hkey Hnd result.
  assert (Hperm : Permutation (map fst m) (map keyOf result)).
  { subst result.
    apply perm_trans with (map keyOf (map entry m)).
    - rewrite map_map. rewrite (map_ext (fun e => keyOf (entry e)) fst Hkey).
      apply Permutation_refl.
    - apply Permutation_map. apply sort_perm. }
  split; [|exact Hperm].
  apply StronglySorted_strict.
  - subst result. apply sort_sorted.
    + intros a b. apply localeCompare_total.
    + intros a b c. apply localeCompare_trans.
  - apply (Permutation_NoDup Hperm Hnd).
Qed.

(** X1.  [calculateDailyRevenue] and [calculateMonthlyRevenue] return
    exactly one entry per distinct day (month) key of the transactions, in
    strictly ascending order of the key. *)
Theorem rollups_one_entry_per_key :
  forall {Date : Type} {dateAPI : DateAPI Date} (transactions : list (Transaction.t Date)),
  (StronglySorted
     (fun a b => String.compare (DailyRevenue.date a) (DailyRevenue.date b) = Lt)
     (calculateDailyRevenue transactions)
   /\ forall k, In k (map DailyRevenue.date (calculateDailyRevenue transactions))
                <-> exists tx, In tx transactions /\ dateKey tx = k)
  /\ (StronglySorted
        (fun a b => String.compare (MonthlyRevenue.month a) (MonthlyRevenue.month b) = Lt)
        (calculateMonthlyRevenue transactions)
      /\ forall k, In k (map MonthlyRevenue.month (calculateMonthlyRevenue transactions))
                   <-> exists tx, In tx transactions /\ monthKey tx = k).
Proof.
  intros Date dateAPI transactions. split.
  - destruct (loop_keys dateKey dailyStep dailyStep_keyed transactions [] (NoDup_nil _))
      as [Hnd Hin].
    destruct (keyed_entries_sorted dailyEntry DailyRevenue.date
                (fold_left dailyStep transactions [])
                ltac:(intros [k data]; reflexivity) Hnd) as [Hs Hp].
    split; [exact Hs|]. intro k. unfold calculateDailyRevenue. split.
    + intro Hk. apply (Permutation_in _ (Permutation_sym Hp)) in Hk.
      apply Hin in Hk. destruct Hk as [[]|Hk]. exact Hk.
    + intro Hk. apply (Permutation_in _ Hp). apply Hin. right. exact Hk.
  - destruct (loop_keys monthKey monthlyStep monthlyStep_keyed transactions [] (NoDup_nil _))
      as [Hnd Hin].
    destruct (keyed_entries_sorted monthlyEntry MonthlyRevenue.month
                (fold_left monthlyStep transactions [])
                ltac:(intros [k data]; reflexivity) Hnd) as [Hs Hp].
    split; [exact Hs|]. intro k. unfold calculateMonthlyRevenue. split.
    + intro Hk. apply (Permutation_in _ (Permutation_sym Hp)) in Hk.
      apply Hin in Hk. destruct Hk as [[]|Hk]. exact Hk.
    + intro Hk. apply (Permutation_in _ Hp). apply Hin. right. exact Hk.
Qed.

(** ** Product performance *)

Lemma products_sorted_by_revenue :
  forall {Date : Type} (transactions : list (Transaction.t Date)),
  StronglySorted
    (fun a b => ProductPerformance.totalRevenue b <= ProductPerformance.totalRevenue a)
    (calculateProductPerformance transactions).
Proof.
  intros Date transactions. unfold calculateProductPerformance.
  apply (StronglySorted_weaken
           (fun a b => ProductPerformance.totalRevenue b
                       - ProductPerformance.totalRevenue a <= 0)).
  - intros a b _ _ Hab. lra.
  - apply sort_sorted.
    + intros a b.
      destruct (Qlt_le_dec (ProductPerformance.totalRevenue a)
                           (ProductPerformance.totalRevenue b)); [right|left]; lra.
    + intros a b c Hab Hbc. lra.
Qed.

(** X2.  [calculateProductPerformance] returns one entry per distinct
    product name (exact, case-sensitive match) in order of non-increasing
    total revenue. *)
Theorem product_entries :
  forall {Date : Type} (transactions : list (Transaction.t Date)),
  let products := calculateProductPerformance transactions in
  NoDup (map ProductPerformance.productName products)
  /\ (forall name, In name (map ProductPerformance.productName products)
                   <-> exists tx, In tx transactions /\ Transaction.productName tx = name)
  /\ StronglySorted
       (fun a b => ProductPerformance.totalRevenue b <= ProductPerformance.totalRevenue a)
       products.
Proof.
  intros Date transactions products.
  destruct (loop_keys Transaction.productName productStep productStep_keyed
              transactions [] (NoDup_nil _)) as [Hnd Hin].
  set (m := fold_left productStep transactions []) in *.
  assert (Hperm : Permutation (map fst m) (map ProductPerformance.productName products)).
  { subst products. unfold calculateProductPerformance. fold m.
    apply perm_trans with (map ProductPerformance.productName (map productEntry m)).
    - rewrite map_map.
      rewrite (map_ext (fun e => ProductPerformance.productName (productEntry e)) fst);
        [apply Permutation_refl|intros [k data]; reflexivity].
    - apply Permutation_map. apply sort_perm. }
  split; [|split].
  - apply (Permutation_NoDup Hperm Hnd).
  - intro name. split.
    + intro Hn. apply (Permutation_in _ (Permutation_sym Hperm)) in Hn.
      apply Hin in Hn. destruct Hn as [[]|Hn]. exact Hn.
    + intro Hn. apply (Permutation_in _ Hperm). apply Hin. right. exact Hn.
  - apply products_sorted_by_revenue.
Qed.

(** The sum of an integer field over an array. *)
Definition sumZ {A : Type} (f : A -> Z) (l : list A) : Z :=
  fold_right (fun x acc => (f x + acc)%Z) 0%Z l.

Lemma reduce_sum_inject : forall {A : Type} (f : A -> Z) (l : list A),
  reduce_sum (fun x => inject_Z (f x)) l == inject_Z (sumZ f l).
Proof.
  intros A f. induction l as [|x l IH].
  - reflexivity.
  - rewrite reduce_sum_cons, IH. simpl. rewrite inject_Z_plus. reflexivity.
Qed.

Lemma productStep_count :
  forall {Date : Type},
  accumulates (fun v => inject_Z (ProductAcc.count v)) (fun _ : Transaction.t Date => 1)
    (productStep (Date := Date)).
Proof.
  intros Date m tx. eexists _, _, (ProductAcc.mk 0 0 0 0).
  split; [reflexivity|split; [reflexivity|]].
  simpl. rewrite inject_Z_plus. reflexivity.
Qed.

(** X3.  The transaction counts of the product entries add up to the
    number of transactions: every transaction is counted under exactly one
    product. *)
Theorem product_counts_partition :
  forall {Date : Type} (transactions : list (Transaction.t Date)),
  sumZ ProductPerformance.transactionCount (calculateProductPerformance transactions)
  = Z.of_nat (List.length transactions).
Proof.
  intros Date transactions.
  apply inject_Z_injective. rewrite <- reduce_sum_inject.
  unfold calculateProductPerformance.
  rewrite reduce_sum_sort, reduce_sum_map.
  rewrite (reduce_sum_ext _ (fun e => inject_Z (ProductAcc.count (snd e))))
    by (intros [k data] _; reflexivity).
  fold (sumMap (fun v => inject_Z (ProductAcc.count v))
          (fold_left productStep transactions [])).
  rewrite (loop_sum _ _ _ productStep_count).
  rewrite (reduce_sum_const (fun _ => 1) 1) by (intros; reflexivity).
  unfold sumMap, reduce_sum at 1, num_length. simpl. lra.
Qed.

(** X4.  [getTopProducts] applied to the performance list returns its
    first [count] entries, which are the highest-revenue ones: no product
    left out has more revenue than a product returned. *)
Theorem top_products_highest_revenue :
  forall {Date : Type} (transactions : list (Transaction.t Date)) (count : nat),
  let products := calculateProductPerformance transactions in
  let top := getTopProducts products count in
  exists rest,
    products = top ++ rest
    /\ List.length top = Nat.min count (List.length products)
    /\ forall p q, In p top -> In q rest ->
         ProductPerformance.totalRevenue q <= ProductPerformance.totalRevenue p.
Proof.
  intros Date transactions count products top.
  exists (skipn count products). subst top. unfold getTopProducts, slice_to.
  split; [symmetry; apply firstn_skipn|].
  split; [apply length_firstn|].
  intros p q Hp Hq.
  apply (StronglySorted_firstn _ count products
           (products_sorted_by_revenue transactions) p q Hp Hq).
Qed.

(** X5.  [getBottomProducts] returns the [count] lowest-profit products
    (all of them when there are fewer): the input is the returned list
    plus a remainder, up to order, and no product of the remainder has less
    profit than a returned one. *)
Theorem bottom_products_lowest_profit :
  forall (products : list ProductPerformance.t) (count : nat),
  let bottom := getBottomProducts products count in
  exists rest,
    Permutation products (bottom ++ rest)
    /\ List.length bottom = Nat.min count (List.length products)
    /\ forall p q, In p bottom -> In q rest ->
         ProductPerformance.totalProfit p <= ProductPerformance.totalProfit q.
Proof.
  intros products count bottom. subst bottom. unfold getBottomProducts, slice_to.
  set (cmp := fun a b : ProductPerformance.t =>
                ProductPerformance.totalProfit a - ProductPerformance.totalProfit b).
  exists (skipn count (sort cmp products)). split; [|split].
  - rewrite firstn_skipn. apply sort_perm.
  - rewrite length_firstn.
    rewrite (Permutation_length (Permutation_sym (sort_perm cmp products))). reflexivity.
  - intros p q Hp Hq.
    assert (Hs : StronglySorted (fun a b => cmp a b <= 0) (sort cmp products)).
    { apply sort_sorted.
      - intros a b. unfold cmp.
        destruct (Qlt_le_dec (ProductPerformance.totalProfit a)
                             (ProductPerformance.totalProfit b)); [left|right]; lra.
      - intros a b c. unfold cmp. intros Hab Hbc. lra. }
    pose proof (StronglySorted_firstn _ count _ Hs p q Hp Hq) as Hpq.
    unfold cmp in Hpq. lra.
Qed.

(** ** Growth rate *)

Lemma last_in : forall {A : Type} (l : list A) (d : A), l <> [] -> In (last l d) l.
Proof.
  intros A l d. induction l as [|x l IH]; intro Hne; [contradiction|].
  destruct l as [|y l]; [left; reflexivity|].
  right. apply IH. discriminate.
Qed.

(** X6.  [calculateGrowthRate] is 0 on fewer than two months, and 0 when
    every month has the same revenue. *)
Theorem growth_rate_flat :
  forall (monthlyRevenue : list MonthlyRevenue.t),
  ((List.length monthlyRevenue < 2)%nat -> calculateGrowthRate monthlyRevenue = 0)
  /\ ((forall m m', In m monthlyRevenue -> In m' monthlyRevenue ->
         MonthlyRevenue.revenue m == MonthlyRevenue.revenue m') ->
      calculateGrowthRate monthlyRevenue == 0).
Proof.
  intro monthlyRevenue. unfold calculateGrowthRate. split.
  - intro Hlen. apply Nat.ltb_lt in Hlen. rewrite Hlen. reflexivity.
  - intro Hflat. destruct (List.length monthlyRevenue <? 2)%nat; [reflexivity|].
    set (cmp := fun a b : MonthlyRevenue.t =>
                  localeCompare (MonthlyRevenue.month a) (MonthlyRevenue.month b)).
    pose proof (sort_perm cmp monthlyRevenue) as Hperm.
    destruct (sort cmp monthlyRevenue) as [|firstMonth rest] eqn:Hsorted; [reflexivity|].
    destruct (num_eq (MonthlyRevenue.revenue firstMonth) 0) eqn:Hzero; [reflexivity|].
    unfold num_eq in Hzero. num_facts.
    assert (Hfirst : In firstMonth monthlyRevenue).
    { apply (Permutation_in _ (Permutation_sym Hperm)). left. reflexivity. }
    assert (Hlast : In (last (firstMonth :: rest) firstMonth) monthlyRevenue).
    { apply (Permutation_in _ (Permutation_sym Hperm)). apply last_in. discriminate. }
    rewrite <- (parseFloat_toFixed_0 4). apply parseFloat_toFixed_comp; [|reflexivity].
    rewrite (Hflat _ _ Hlast Hfirst). field. exact Hzero.
Qed.

Lemma growth_rate_flat_witness :
  calculateGrowthRate
    [MonthlyRevenue.mk "2024-02" 100 40 60 (6#10); MonthlyRevenue.mk "2024-01" 100 50 50 (5#10)]
  == 0.
Proof.
  apply (growth_rate_flat
           [MonthlyRevenue.mk "2024-02" 100 40 60 (6#10);
            MonthlyRevenue.mk "2024-01" 100 50 50 (5#10)]).
  intros m m' [<-|[<-|[]]] [<-|[<-|[]]]; reflexivity.
Defined.



(** ** More on the health score *)

Lemma Math_max_mono : forall a b c, a <= b -> Math_max a c <= Math_max b c.
Proof. intros a b c Hab. minmax_cases; lra. Qed.

Lemma Math_min_mono : forall a b c, a <= b -> Math_min a c <= Math_min b c.
Proof. intros a b c Hab. minmax_cases; lra. Qed.

Lemma clamp_mono : forall x y,
  x <= y -> Math_min (Math_max x 0) 100 <= Math_min (Math_max y 0) 100.
Proof. intros x y Hxy. apply Math_min_mono, Math_max_mono, Hxy. Qed.

(** X8.  More anomalies never raise the health score: the overall score
    and the stability score are non-increasing in the anomaly count, and
    from 10 anomalies on the stability score is 0. *)
Theorem health_score_antitone_in_anomalies :
  forall totals products monthlyRevenue (fewer more : Z),
  (fewer <= more)%Z ->
  let h := calculateBusinessHealth totals products monthlyRevenue fewer in
  let h' := calculateBusinessHealth totals products monthlyRevenue more in
  (BusinessHealthMetrics.score h' <= BusinessHealthMetrics.score h)%Z
  /\ (BusinessHealthMetrics.stabilityScore h' <= BusinessHealthMetrics.stabilityScore h)%Z
  /\ ((10 <= more)%Z -> BusinessHealthMetrics.stabilityScore h' = 0%Z).
Proof.
  intros totals products monthlyRevenue fewer more Hle h h'. subst h h'.
  unfold calculateBusinessHealth.
  cbn [BusinessHealthMetrics.score BusinessHealthMetrics.stabilityScore].
  assert (Hq : inject_Z fewer <= inject_Z more) by (rewrite <- Zle_Qle; exact Hle).
  assert (Hstab : Math_max (100 - inject_Z more * 10) 0
                  <= Math_max (100 - inject_Z fewer * 10) 0)
    by (apply Math_max_mono; lra).
  split; [|split].
  - apply Math_round_mono. apply clamp_mono.
    set (p := Math_min _ 100). set (g := Math_min (Math_max _ 0) 100).
    set (d := Concentration.diversificationScore _). lra.
  - apply Math_round_mono. exact Hstab.
  - intro Hten.
    assert (Hq10 : 10 <= inject_Z more)
      by (change 10 with (inject_Z 10); rewrite <- Zle_Qle; exact Hten).
    rewrite (Math_round_comp _ 0); [reflexivity|]. minmax_cases; lra.
Qed.

Lemma health_score_antitone_in_anomalies_witness :
  (BusinessHealthMetrics.score
     (calculateBusinessHealth (Totals.mk 138 (347#10) (1033#10) (7486#10000))
        espresso_menu [] 4)
   <= BusinessHealthMetrics.score
        (calculateBusinessHealth (Totals.mk 138 (347#10) (1033#10) (7486#10000))
           espresso_menu [] 1))%Z.
Proof.
  apply (health_score_antitone_in_anomalies
           (Totals.mk 138 (347#10) (1033#10) (7486#10000)) espresso_menu [] 1 4).
  lia.
Defined.

(** X9.  The profitability score is capped at 100 but has no floor: a
    margin of -1% or worse (a loss) gives a score of -3 or less. *)
Theorem profitability_score_not_floored :
  forall totals products monthlyRevenue anomalyCount,
  Totals.profitMargin totals <= - (1#100) ->
  let h := calculateBusinessHealth totals products monthlyRevenue anomalyCount in
  (BusinessHealthMetrics.profitabilityScore h <= -3)%Z.
Proof.
  intros totals products monthlyRevenue anomalyCount Hloss h. subst h.
  unfold calculateBusinessHealth. cbn [BusinessHealthMetrics.profitabilityScore].
  set (pm := Totals.profitMargin totals) in *.
  assert (Hmin : Math_min (pm * 100 * 3) 100 == pm * 100 * 3)
    by (minmax_cases; lra).
  rewrite (Math_round_comp _ _ Hmin). unfold Math_round.
  assert (Hlt : (Qfloor (pm * 100 * 3 + (1#2)) < -2)%Z).
  { rewrite Zlt_Qlt. pose proof (Qfloor_le (pm * 100 * 3 + (1#2))) as Hfl.
    change (inject_Z (-2)) with (-2 # 1). lra. }
  lia.
Qed.

Lemma profitability_score_not_floored_witness :
  (BusinessHealthMetrics.profitabilityScore
     (calculateBusinessHealth (Totals.mk 100 150 (-50) (- (1#2))) espresso_menu [] 0)
   <= -3)%Z.
Proof.
  apply (profitability_score_not_floored (Totals.mk 100 150 (-50) (- (1#2)))
           espresso_menu [] 0).
  vm_compute. discriminate.
Defined.

(** ** Totals *)

Lemma totals_fold : forall {Date : Type} (transactions : list (Transaction.t Date)) acc,
  let totals :=
    fold_left (fun acc tx =>
                 RevCost.mk (RevCost.revenue acc + Transaction.revenue tx)
                            (RevCost.cost acc + Transaction.cost tx))
              transactions acc in
  RevCost.revenue totals == RevCost.revenue acc + reduce_sum Transaction.revenue transactions
  /\ RevCost.cost totals == RevCost.cost acc + reduce_sum Transaction.cost transactions.
Proof.
  intros Date. induction transactions as [|tx txs IH]; intro acc; simpl.
  - unfold reduce_sum. simpl. split; lra.
  - destruct (IH (RevCost.mk (RevCost.revenue acc + Transaction.revenue tx)
                             (RevCost.cost acc + Transaction.cost tx))) as [Hr Hc].
    rewrite !reduce_sum_cons. simpl in Hr, Hc. split; [rewrite Hr|rewrite Hc]; lra.
Qed.

Lemma whole_cents_sum : forall {A : Type} (f : A -> Q) (l : list A),
  (forall x, In x l -> whole_cents (f x)) -> whole_cents (reduce_sum f l).
Proof.
  intros A f. induction l as [|x l IH]; intro Hc.
  - apply whole_cents_0.
  - apply (whole_cents_comp (f x + reduce_sum f l)); [symmetry; apply reduce_sum_cons|].
    apply whole_cents_plus; [apply Hc; left; reflexivity|].
    apply IH. intros y Hy. apply Hc. right. exact Hy.
Qed.

Lemma whole_cents_minus : forall x y, whole_cents x -> whole_cents y -> whole_cents (x - y).
Proof.
  intros x y [a Ha] [b Hb]. exists (a - b)%Z.
  rewrite Ha, Hb. unfold Z.sub. rewrite inject_Z_plus, inject_Z_opp. field. discriminate.
Qed.

(** X11.  When revenues and costs are whole numbers of cents,
    [calculateTotals] returns the exact sums: total revenue and total cost
    are the sums over the transactions, total profit is their difference,
    and the total revenue equals the revenue summed over the daily
    roll-up.  Whatever the amounts, the margin is 0 when the total revenue
    is not positive. *)
Theorem totals_exact :
  forall {Date : Type} {dateAPI : DateAPI Date} (transactions : list (Transaction.t Date)),
  let totals := calculateTotals transactions in
  ((forall tx, In tx transactions ->
      whole_cents (Transaction.revenue tx) /\ whole_cents (Transaction.cost tx)) ->
   Totals.totalRevenue totals == reduce_sum Transaction.revenue transactions
   /\ Totals.totalCost totals == reduce_sum Transaction.cost transactions
   /\ Totals.totalProfit totals == Totals.totalRevenue totals - Totals.totalCost totals
   /\ Totals.totalRevenue totals
      == reduce_sum DailyRevenue.revenue (calculateDailyRevenue transactions))
  /\ (reduce_sum Transaction.revenue transactions <= 0 -> Totals.profitMargin totals == 0).
Proof.
  intros Date dateAPI transactions totals. subst totals. unfold calculateTotals.
  destruct (totals_fold transactions (RevCost.mk 0 0)) as [Hr Hc].
  cbv zeta in Hr, Hc.
  change (RevCost.revenue (RevCost.mk 0 0)) with 0 in Hr.
  change (RevCost.cost (RevCost.mk 0 0)) with 0 in Hc.
  set (acc := fold_left _ transactions (RevCost.mk 0 0)) in *.
  cbn [Totals.totalRevenue Totals.totalCost Totals.totalProfit Totals.profitMargin].
  assert (Hr' : RevCost.revenue acc == reduce_sum Transaction.revenue transactions) by lra.
  assert (Hc' : RevCost.cost acc == reduce_sum Transaction.cost transactions) by lra.
  split.
  - intro Hcents.
    assert (Hwr : whole_cents (RevCost.revenue acc)).
    { apply (whole_cents_comp _ _ (Qeq_sym _ _ Hr')).
      apply whole_cents_sum. intros tx Htx. apply (Hcents tx Htx). }
    assert (Hwc : whole_cents (RevCost.cost acc)).
    { apply (whole_cents_comp _ _ (Qeq_sym _ _ Hc')).
      apply whole_cents_sum. intros tx Htx. apply (Hcents tx Htx). }
    rewrite (whole_cents_fixed _ Hwr), (whole_cents_fixed _ Hwc).
    rewrite (whole_cents_fixed _ (whole_cents_minus _ _ Hwr Hwc)).
    split; [exact Hr'|split; [exact Hc'|split; [reflexivity|]]].
    rewrite Hr'. symmetry.
    apply (rollup_sum RevCost.revenue Transaction.revenue dailyStep dailyStep_revenue);
      [intros [k data]; reflexivity|intros tx Htx; apply (Hcents tx Htx)].
  - intro Hnonpos.
    assert (Hgt : num_gt (RevCost.revenue acc) 0 = false)
      by (apply num_lt_false; lra).
    rewrite Hgt. apply parseFloat_toFixed_0.
Qed.

Lemma totals_exact_witness :
  Totals.totalRevenue (calculateTotals coffee_shop)
  == reduce_sum DailyRevenue.revenue
       (calculateDailyRevenue (dateAPI := Runtime.UTCDate) coffee_shop).
Proof.
  destruct (totals_exact (dateAPI := Runtime.UTCDate) coffee_shop) as [Hexact _].
  apply Hexact.
  intros tx [<-|[<-|[<-|[<-|[]]]]]; split;
    [exists 3500%Z|exists 800%Z|exists 2500%Z|exists 750%Z
    |exists 4200%Z|exists 960%Z|exists 3600%Z|exists 960%Z]; reflexivity.
Defined.

(** ** Anomaly helpers *)

(** X12.  [groupAnomaliesByType] splits the anomalies into spikes and
    drops without losing or duplicating any: the two groups together are
    the input up to order, the first holds exactly the spikes and the
    second exactly the drops. *)
Theorem anomaly_groups_partition :
  forall (anomalies : list Anomaly.t),
  let groups := groupAnomaliesByType anomalies in
  Permutation anomalies (AnomalyGroups.spikes groups ++ AnomalyGroups.drops groups)
  /\ (List.length (AnomalyGroups.spikes groups) + List.length (AnomalyGroups.drops groups)
      = List.length anomalies)%nat
  /\ (forall a, In a (AnomalyGroups.spikes groups) <-> In a anomalies /\ Anomaly.type a = spike)
  /\ (forall a, In a (AnomalyGroups.drops groups) <-> In a anomalies /\ Anomaly.type a = drop).
Proof.
  intros anomalies groups. subst groups. unfold groupAnomaliesByType.
  cbn [AnomalyGroups.spikes AnomalyGroups.drops].
  assert (Hperm : Permutation anomalies
            (filter (fun a => AnomalyType_eqb (Anomaly.type a) spike) anomalies
             ++ filter (fun a => AnomalyType_eqb (Anomaly.type a) drop) anomalies)).
  { induction anomalies as [|a l IH]; simpl; [apply perm_nil|].
    destruct (Anomaly.type a); simpl.
    - apply perm_skip. exact IH.
    - apply Permutation_cons_app. exact IH. }
  split; [exact Hperm|]. split.
  - rewrite <- length_app. symmetry. apply Permutation_length. exact Hperm.
  - split; intro a; rewrite filter_In; split; intros [Hin Ht]; (split; [exact Hin|]);
      destruct (Anomaly.type a); try reflexivity; discriminate.
Qed.

(** X13.  [filterAnomaliesBySeverity] keeps the anomalies of at least the
    given severity, in their order: 'low' keeps everything, 'medium' drops
    exactly the low ones, 'high' keeps exactly the high ones. *)
Theorem severity_filter_levels :
  forall (anomalies : list Anomaly.t),
  filterAnomaliesBySeverity anomalies low = anomalies
  /\ filterAnomaliesBySeverity anomalies medium
     = filter (fun a => negb (Level_eqb (Anomaly.severity a) low)) anomalies
  /\ filterAnomaliesBySeverity anomalies high
     = filter (fun a => Level_eqb (Anomaly.severity a) high) anomalies
  /\ (forall a, In a (filterAnomaliesBySeverity anomalies high) ->
                In a (filterAnomaliesBySeverity anomalies medium)).
Proof.
  intro anomalies. unfold filterAnomaliesBySeverity.
  assert (Hmed : filter (fun a => num_ge (severityOrder (Anomaly.severity a))
                                         (severityOrder medium)) anomalies
                 = filter (fun a => negb (Level_eqb (Anomaly.severity a) low)) anomalies).
  { apply filter_ext. intro a. destruct (Anomaly.severity a); reflexivity. }
  assert (Hhigh : filter (fun a => num_ge (severityOrder (Anomaly.severity a))
                                          (severityOrder high)) anomalies
                  = filter (fun a => Level_eqb (Anomaly.severity a) high) anomalies).
  { apply filter_ext. intro a. destruct (Anomaly.severity a); reflexivity. }
  split; [|split; [exact Hmed|split; [exact Hhigh|]]].
  - apply filter_all. intros a _. destruct (Anomaly.severity a); reflexivity.
  - cbv zeta. rewrite Hmed, Hhigh. intros a Ha. apply filter_In in Ha.
    destruct Ha as [Hin Hs]. apply filter_In. split; [exact Hin|].
    destruct (Anomaly.severity a); try discriminate; reflexivity.
Qed.

(** X14.  [calculateAnomalyFrequency] answers 0 and 0 for a period of 0
    days; when there are at most as many anomalies as days, the frequency
    lies between 0 and 1 and the percentage between 0 and 100. *)
Theorem anomaly_frequency_bounds :
  forall (anomalies : list Anomaly.t) (totalDays : Q),
  (totalDays == 0 ->
   calculateAnomalyFrequency anomalies totalDays = AnomalyFrequency.mk 0 0)
  /\ (0 < totalDays -> num_length anomalies <= totalDays ->
      0 <= AnomalyFrequency.frequency (calculateAnomalyFrequency anomalies totalDays) <= 1
      /\ 0 <= AnomalyFrequency.percentage (calculateAnomalyFrequency anomalies totalDays)
           <= 100).
Proof.
  intros anomalies totalDays. unfold calculateAnomalyFrequency, num_eq. split.
  - intro Hz. apply Qeq_bool_iff in Hz. rewrite Hz. reflexivity.
  - intros Hpos Hle.
    assert (Hnz : Qeq_bool totalDays 0 = false).
    { destruct (Qeq_bool totalDays 0) eqn:E; [|reflexivity]. num_facts. lra. }
    rewrite Hnz. cbn [AnomalyFrequency.frequency AnomalyFrequency.percentage].
    assert (Hn : 0 <= num_length anomalies).
    { unfold num_length. change 0 with (inject_Z 0). rewrite <- Zle_Qle. lia. }
    assert (Hf : 0 <= num_length anomalies / totalDays <= 1).
    { split; [apply Qle_shift_div_l|apply Qle_shift_div_r]; lra. }
    split.
    + apply parseFloat_toFixed_unit. exact Hf.
    + split.
      * apply parseFloat_toFixed_sign. lra.
      * apply Qle_trans with (parseFloat_toFixed 100 2).
        -- apply parseFloat_toFixed_monotone. lra.
        -- rewrite (parseFloat_toFixed_exact 10000 2 100) by reflexivity. apply Qle_refl.
Qed.

Lemma anomaly_frequency_bounds_witness :
  0 <= AnomalyFrequency.frequency
         (calculateAnomalyFrequency (AnomalyDetectionResult.anomalies (detectUTC flat_days 0)) 3)
    <= 1.
Proof.
  apply (anomaly_frequency_bounds (AnomalyDetectionResult.anomalies (detectUTC flat_days 0)) 3).
  - reflexivity.
  - vm_compute. discriminate.
Defined.

(** X15.  A higher z-score magnitude never gets a lower severity. *)
Theorem severity_monotone :
  forall z z',
  Math_abs z <= Math_abs z' ->
  severityOrder (determineSeverity z) <= severityOrder (determineSeverity z').
Proof.
  intros z z' Hle. unfold determineSeverity, num_ge, num_le.
  set (a := Math_abs z) in *. set (a' := Math_abs z') in *.
  destruct (Qle_bool 3 a) eqn:E1; destruct (Qle_bool 3 a') eqn:E1';
    destruct (Qle_bool (5#2) a) eqn:E2; destruct (Qle_bool (5#2) a') eqn:E2';
    num_facts; simpl; lra.
Qed.

Lemma severity_monotone_witness :
  severityOrder (determineSeverity (- (26#10))) <= severityOrder (determineSeverity (31#10)).
Proof.
  apply (severity_monotone (- (26#10)) (31#10)). vm_compute. discriminate.
Defined.

(** ** Detection results *)

Section Detection.
Context {Date : Type} {dateAPI : DateAPI Date} {sqrtAPI : SqrtAPI}.

Lemma detectDay_threshold : forall mean stdDev lower higher d a,
  lower <= higher ->
  In a (detectDay mean stdDev higher d) -> In a (detectDay mean stdDev lower d).
Proof.
  intros mean stdDev lower higher d a Hle. unfold detectDay, num_ge, num_le.
  set (z := calculateZScore (DailyRevenue.revenue d) mean stdDev).
  destruct (Qle_bool higher (Math_abs z)) eqn:Eh; [|intros []].
  assert (El : Qle_bool lower (Math_abs z) = true)
    by (num_facts; apply Qle_bool_iff; lra).
  rewrite El. intro Ha. exact Ha.
Qed.

Lemma detectDay_origin : forall mean stdDev threshold d a,
  In a (detectDay mean stdDev threshold d) ->
  Anomaly.date a = DailyRevenue.date d /\ Anomaly.revenue a = DailyRevenue.revenue d.
Proof.
  intros mean stdDev threshold d a. unfold detectDay.
  destruct (num_ge _ threshold); [|intros []].
  intros [<-|[]]. split; reflexivity.
Qed.

Lemma detectDay_length : forall mean stdDev threshold d,
  (List.length (detectDay mean stdDev threshold d) <= 1)%nat.
Proof.
  intros mean stdDev threshold d. unfold detectDay.
  destruct (num_ge _ threshold); simpl; lia.
Qed.

Lemma flat_map_length_le : forall {A B : Type} (g : A -> list B) (l : list A),
  (forall x, List.length (g x) <= 1)%nat ->
  (List.length (flat_map g l) <= List.length l)%nat.
Proof.
  intros A B g l Hg. induction l as [|x l IH]; simpl; [lia|].
  rewrite length_app. pose proof (Hg x). lia.
Qed.

(** The anomalies of a non-empty series, before sorting. *)
Lemma detectAnomalies_members : forall d0 rest threshold a,
  let dailyRevenue := d0 :: rest in
  let mean := calculateMean (map DailyRevenue.revenue dailyRevenue) in
  let stdDev := calculateStandardDeviation (map DailyRevenue.revenue dailyRevenue) mean in
  In a (AnomalyDetectionResult.anomalies (detectAnomalies dailyRevenue threshold))
  <-> exists d, In d dailyRevenue /\ In a (detectDay mean stdDev threshold d).
Proof.
  intros d0 rest threshold a dailyRevenue mean stdDev.
  unfold detectAnomalies. cbn [AnomalyDetectionResult.anomalies].
  fold dailyRevenue. fold mean. fold stdDev.
  rewrite <- in_flat_map. split; intro Ha.
  - apply (Permutation_in _ (Permutation_sym (sort_perm _ _)) Ha).
  - apply (Permutation_in _ (sort_perm _ _) Ha).
Qed.
End Detection.

(** X16.  Every anomaly [detectAnomalies] reports is one of the input days
    (same date and revenue), there are at most as many anomalies as days,
    and raising the threshold never adds an anomaly: what is reported at a
    higher threshold is reported, unchanged, at every lower one. *)
Theorem anomalies_come_from_days :
  forall {Date : Type} {dateAPI : DateAPI Date} {sqrtAPI : SqrtAPI}
         (dailyRevenue : list DailyRevenue.t) (threshold : Q),
  let anomalies :=
    AnomalyDetectionResult.anomalies (detectAnomalies dailyRevenue threshold) in
  (forall a, In a anomalies ->
     exists d, In d dailyRevenue
               /\ Anomaly.date a = DailyRevenue.date d
               /\ Anomaly.revenue a = DailyRevenue.revenue d)
  /\ (List.length anomalies <= List.length dailyRevenue)%nat
  /\ (forall lower a, lower <= threshold -> In a anomalies ->
        In a (AnomalyDetectionResult.anomalies (detectAnomalies dailyRevenue lower))).
Proof.
  intros Date dateAPI sqrtAPI [|d0 rest] threshold anomalies; subst anomalies.
  - simpl. split; [intros a []|split; [lia|intros lower a _ []]].
  - split; [|split].
    + intros a Ha. apply detectAnomalies_members in Ha. destruct Ha as (d & Hd & Ha).
      exists d. split; [exact Hd|]. apply (detectDay_origin _ _ _ _ _ Ha).
    + unfold detectAnomalies. cbn [AnomalyDetectionResult.anomalies].
      rewrite <- (Permutation_length (sort_perm _ _)).
      apply flat_map_length_le. intro d. apply detectDay_length.
    + intros lower a Hle Ha. apply detectAnomalies_members in Ha.
      destruct Ha as (d & Hd & Ha). apply detectAnomalies_members.
      exists d. split; [exact Hd|]. apply (detectDay_threshold _ _ lower threshold); assumption.
Qed.

Lemma compareAnomalies_le : forall a b,
  compareAnomalies a b <= 0
  <-> severityOrder (Anomaly.severity b) < severityOrder (Anomaly.severity a)
      \/ (severityOrder (Anomaly.severity b) == severityOrder (Anomaly.severity a)
          /\ Math_abs (Anomaly.zScore b) <= Math_abs (Anomaly.zScore a)).
Proof.
  intros a b. unfold compareAnomalies, num_eq.
  set (sa := severityOrder (Anomaly.severity a)).
  set (sb := severityOrder (Anomaly.severity b)).
  set (za := Math_abs (Anomaly.zScore a)). set (zb := Math_abs (Anomaly.zScore b)).
  destruct (Qeq_bool (sb - sa) 0) eqn:E; num_facts; simpl; split.
  - intro Hc. right. split; lra.
  - intros [Hlt|[_ Hz]]; lra.
  - intro Hc. left. destruct (Qlt_le_dec sb sa) as [Hlt|Hge]; [exact Hlt|].
    exfalso. apply E. lra.
  - intros [Hlt|[Heq _]]; [lra|]. exfalso. apply E. lra.
Qed.

(** X17.  The anomalies are returned most severe first, and within one
    severity by non-increasing magnitude of the (rounded) z-score. *)
Theorem anomalies_sorted_by_severity :
  forall {Date : Type} {dateAPI : DateAPI Date} {sqrtAPI : SqrtAPI}
         (dailyRevenue : list DailyRevenue.t) (threshold : Q),
  StronglySorted
    (fun a b =>
       severityOrder (Anomaly.severity b) < severityOrder (Anomaly.severity a)
       \/ (Anomaly.severity b = Anomaly.severity a
           /\ Math_abs (Anomaly.zScore b) <= Math_abs (Anomaly.zScore a)))
    (AnomalyDetectionResult.anomalies (detectAnomalies dailyRevenue threshold)).
Proof.
  intros Date dateAPI sqrtAPI [|d0 rest] threshold; [constructor|].
  unfold detectAnomalies. cbn [AnomalyDetectionResult.anomalies].
  apply (StronglySorted_weaken (fun a b => compareAnomalies a b <= 0)).
  - intros a b _ _ Hab. apply compareAnomalies_le in Hab.
    destruct Hab as [Hlt|[Heq Hz]]; [left; exact Hlt|right].
    split; [|exact Hz].
    destruct (Anomaly.severity a), (Anomaly.severity b);
      try reflexivity; vm_compute in Heq; discriminate.
  - apply sort_sorted.
    + intros a b. rewrite !compareAnomalies_le.
      set (sa := severityOrder (Anomaly.severity a)).
      set (sb := severityOrder (Anomaly.severity b)).
      set (za := Math_abs (Anomaly.zScore a)). set (zb := Math_abs (Anomaly.zScore b)).
      destruct (Qlt_le_dec sb sa) as [H1|H1]; [left; left; exact H1|].
      destruct (Qlt_le_dec sa sb) as [H2|H2]; [right; left; exact H2|].
      destruct (Qlt_le_dec za zb) as [H3|H3].
      * right. right. split; lra.
      * left. right. split; lra.
    + intros a b c. rewrite !compareAnomalies_le.
      set (sa := severityOrder (Anomaly.severity a)).
      set (sb := severityOrder (Anomaly.severity b)).
      set (sc := severityOrder (Anomaly.severity c)).
      intros [H1|[H1 H1']] [H2|[H2 H2']].
      * left. lra.
      * left. lra.
      * left. lra.
      * right. split; lra.
Qed.

(** X18.  With a non-negative [Math.sqrt] and a positive threshold, the
    sign of an anomaly's deviation agrees with its type: a spike has a
    deviation of at least 0 and a z-score of at least 0, a drop at most
    0. *)
Theorem anomaly_type_matches_deviation :
  forall {Date : Type} {dateAPI : DateAPI Date} {sqrtAPI : SqrtAPI}
         (dailyRevenue : list DailyRevenue.t) (threshold : Q),
  (forall x, 0 <= Math_sqrt x) ->
  0 < threshold ->
  forall a,
  In a (AnomalyDetectionResult.anomalies (detectAnomalies dailyRevenue threshold)) ->
  match Anomaly.type a with
  | spike => 0 <= Anomaly.deviation a /\ 0 <= Anomaly.zScore a
  | drop => Anomaly.deviation a <= 0 /\ Anomaly.zScore a <= 0
  end.
Proof.
  intros Date dateAPI sqrtAPI [|d0 rest] threshold Hsqrt Hthr a Ha; [destruct Ha|].
  apply detectAnomalies_members in Ha. destruct Ha as (d & _ & Ha).
  revert Ha. unfold detectDay.
  set (mean := calculateMean _).
  set (stdDev := calculateStandardDeviation _ mean).
  assert (Hsd : 0 <= stdDev).
  { subst stdDev. unfold calculateStandardDeviation. simpl map. cbv iota. apply Hsqrt. }
  unfold calculateZScore, num_eq.
  destruct (Qeq_bool stdDev 0) eqn:Ez.
  - change (Math_abs 0) with 0.
    assert (Hge : num_ge 0 threshold = false).
    { unfold num_ge, num_le. destruct (Qle_bool threshold 0) eqn:E; [|reflexivity].
      num_facts. lra. }
    rewrite Hge. intros [].
  - num_facts.
    assert (Hpos : 0 < stdDev).
    { apply Qle_lteq in Hsd. destruct Hsd as [Hlt|Heq]; [exact Hlt|].
      exfalso. apply Ez. symmetry. exact Heq. }
    set (dev := DailyRevenue.revenue d - mean).
    destruct (num_ge _ threshold); [|intros []].
    intros [<-|[]]. cbn [Anomaly.type Anomaly.deviation Anomaly.zScore].
    unfold num_gt. destruct (num_lt 0 (dev / stdDev)) eqn:Es; num_facts.
    + assert (Hdev : 0 <= dev).
      { apply Qlt_le_weak.
        apply (Qmult_lt_r 0 dev (/ stdDev)); [apply Qinv_lt_0_compat; exact Hpos|].
        unfold Qdiv in Es. lra. }
      split; apply parseFloat_toFixed_sign; [exact Hdev|lra].
    + assert (Hdev : dev <= 0).
      { apply (Qmult_le_r dev 0 (/ stdDev)); [apply Qinv_lt_0_compat; exact Hpos|].
        unfold Qdiv in Es. lra. }
      split.
      * rewrite <- (parseFloat_toFixed_0 2). apply parseFloat_toFixed_monotone. exact Hdev.
      * rewrite <- (parseFloat_toFixed_0 2). apply parseFloat_toFixed_monotone. exact Es.
Qed.

Lemma sqrt8_nonneg : forall x, 0 <= Runtime.sqrt8 x.
Proof.
  intro x. unfold Runtime.sqrt8. destruct (Qle_bool x 0); [apply Qle_refl|].
  apply Qle_shift_div_l; [reflexivity|].
  change (0 * inject_Z (10 ^ 8)) with (inject_Z 0). rewrite <- Zle_Qle.
  apply Z.sqrt_nonneg.
Qed.

(** Seven days at 100 and one at 1000. *)
Definition spike_week : list DailyRevenue.t :=
  [day "2024-01-01" 100; day "2024-01-02" 100; day "2024-01-03" 100;
   day "2024-01-04" 100; day "2024-01-05" 100; day "2024-01-06" 100;
   day "2024-01-07" 100; day "2024-01-08" 1000].

Lemma anomaly_type_matches_deviation_witness :
  Forall (fun a => match Anomaly.type a with
                   | spike => 0 <= Anomaly.deviation a /\ 0 <= Anomaly.zScore a
                   | drop => Anomaly.deviation a <= 0 /\ Anomaly.zScore a <= 0
                   end)
         (AnomalyDetectionResult.anomalies (detectUTC spike_week 2)).
Proof.
  apply Forall_forall. intros a Ha.
  apply (anomaly_type_matches_deviation (dateAPI := Runtime.UTCDate)
           (sqrtAPI := Runtime.Sqrt8) spike_week 2 sqrt8_nonneg ltac:(reflexivity) a Ha).
Defined.

(** ** Streaks of anomalies *)

(** The anomalies accounted for by the saved streaks and the current one. *)
Definition covered (streaks : list Streak.t) (currentStreak : list Anomaly.t) : Z :=
  (sumZ Streak.length streaks + Z.of_nat (List.length currentStreak))%Z.

Lemma sumZ_app : forall {A : Type} (f : A -> Z) (l1 l2 : list A),
  sumZ f (l1 ++ l2) = (sumZ f l1 + sumZ f l2)%Z.
Proof.
  intros A f l1 l2. induction l1 as [|x l1 IH]; simpl; [reflexivity|].
  rewrite IH. lia.
Qed.

Lemma pushStreak_spec : forall streaks currentStreak,
  Forall (fun s => (2 <= Streak.length s)%Z) streaks ->
  Forall (fun s => (2 <= Streak.length s)%Z) (pushStreak streaks currentStreak)
  /\ (sumZ Streak.length (pushStreak streaks currentStreak)
      <= covered streaks currentStreak)%Z.
Proof.
  intros streaks currentStreak Hall. unfold pushStreak, covered.
  destruct (2 <=? List.length currentStreak)%nat eqn:E.
  - apply Nat.leb_le in E. destruct currentStreak as [|first rest]; [simpl in E; lia|].
    split.
    + apply Forall_app. split; [exact Hall|]. constructor; [|constructor].
      cbn [Streak.length]. lia.
    + rewrite sumZ_app. cbn [sumZ fold_right Streak.length]. unfold sumZ. lia.
  - split; [exact Hall|]. lia.
Qed.

Section StreakLoop.
Context {Date : Type} {dateAPI : DateAPI Date}.

Lemma patternStep_spec : forall streaks currentStreak prev curr,
  Forall (fun s => (2 <= Streak.length s)%Z) streaks ->
  let '(streaks', currentStreak', _) :=
    patternStep (streaks, currentStreak, prev) curr in
  Forall (fun s => (2 <= Streak.length s)%Z) streaks'
  /\ (covered streaks' currentStreak' <= covered streaks currentStreak + 1)%Z.
Proof.
  intros streaks currentStreak prev curr Hall. unfold patternStep.
  destruct (num_le _ 2 && AnomalyType_eqb _ _).
  - split; [exact Hall|]. unfold covered. rewrite length_app. simpl. lia.
  - destruct (pushStreak_spec streaks currentStreak Hall) as [Hall' Hsum].
    split; [exact Hall'|]. unfold covered in *. simpl. lia.
Qed.

Lemma pattern_loop_spec : forall rest streaks currentStreak prev,
  Forall (fun s => (2 <= Streak.length s)%Z) streaks ->
  let '(streaks', currentStreak', _) :=
    fold_left patternStep rest (streaks, currentStreak, prev) in
  Forall (fun s => (2 <= Streak.length s)%Z) streaks'
  /\ (covered streaks' currentStreak'
      <= covered streaks currentStreak + Z.of_nat (List.length rest))%Z.
Proof.
  induction rest as [|curr rest IH]; intros streaks currentStreak prev Hall.
  - simpl. split; [exact Hall|lia].
  - cbn [fold_left].
    pose proof (patternStep_spec streaks currentStreak prev curr Hall) as Hstep.
    destruct (patternStep (streaks, currentStreak, prev) curr)
      as [[streaks1 current1] prev1].
    destruct Hstep as [Hall1 Hcov1].
    pose proof (IH streaks1 current1 prev1 Hall1) as Hloop.
    destruct (fold_left patternStep rest (streaks1, current1, prev1))
      as [[streaks2 current2] prev2].
    destruct Hloop as [Hall2 Hcov2].
    split; [exact Hall2|]. cbn [List.length]. lia.
Qed.
End StreakLoop.

(** X19.  Every streak [detectAnomalyPatterns] reports has length at least
    2, the lengths add up to at most the number of anomalies (no anomaly
    is in two streaks), and fewer than two anomalies give no streak. *)
Theorem streaks_are_runs :
  forall {Date : Type} {dateAPI : DateAPI Date} (anomalies : list Anomaly.t),
  let streaks := detectAnomalyPatterns anomalies in
  Forall (fun s => (2 <= Streak.length s)%Z) streaks
  /\ (sumZ Streak.length streaks <= Z.of_nat (List.length anomalies))%Z
  /\ ((List.length anomalies < 2)%nat -> streaks = []).
Proof.
  intros Date dateAPI anomalies streaks.
  assert (Hmain : Forall (fun s => (2 <= Streak.length s)%Z) streaks
                  /\ (sumZ Streak.length streaks <= Z.of_nat (List.length anomalies))%Z).
  { subst streaks. unfold detectAnomalyPatterns.
    destruct anomalies as [|a0 anomalies']; [split; [constructor|simpl; lia]|].
    set (anomalies := a0 :: anomalies').
    set (cmp := fun a b : Anomaly.t => _ - _).
    pose proof (Permutation_length (sort_perm cmp anomalies)) as Hlen.
    destruct (sort cmp anomalies) as [|first rest]; [split; [constructor|simpl; lia]|].
    pose proof (pattern_loop_spec rest [] [first] first (Forall_nil _)) as Hloop.
    destruct (fold_left patternStep rest ([], [first], first))
      as [[streaks1 current1] prev1].
    destruct Hloop as [Hall Hcov].
    destruct (pushStreak_spec streaks1 current1 Hall) as [Hall' Hsum].
    split; [exact Hall'|].
    unfold covered in Hcov at 2. cbn [sumZ fold_right List.length] in Hcov.
    rewrite Hlen. cbn [List.length]. lia. }
  destruct Hmain as [Hall Hsum]. split; [exact Hall|split; [exact Hsum|]].
  intro Hshort. destruct streaks as [|s streaks']; [reflexivity|].
  exfalso. inversion Hall as [|? ? Hs Hall']; subst.
  cbn [sumZ fold_right] in Hsum.
  assert (0 <= sumZ Streak.length streaks')%Z.
  { clear - Hall'. induction Hall' as [|x l Hx _ IH]; simpl; lia. }
  unfold sumZ in *. lia.
Qed.

(** ** The regression, unfolded *)




Lemma Math_pow2_nonneg : forall x, 0 <= Math_pow2 x.
Proof.
  intro x. unfold Math_pow2. change (x ^ 2) with (x * x).
  destruct (Qlt_le_dec x 0) as [Hneg|Hpos].
  - setoid_replace (x * x) with ((- x) * (- x)) by ring.
    apply Qmult_le_0_compat; lra.
  - apply Qmult_le_0_compat; assumption.
Qed.

Lemma ssRes_nonneg : forall data, 0 <= ssRes data.
Proof. intro data. apply reduce_sum_nonneg. intros p _. apply Math_pow2_nonneg. Qed.

Lemma ssTot_nonneg : forall data, 0 <= ssTot data.
Proof. intro data. apply reduce_sum_nonneg. intros p _. apply Math_pow2_nonneg. Qed.

Lemma regression_r2_unit : forall (data : list Point.t),
  0 <= Regression.r2 (calculateLinearRegression data) <= 1.
Proof.
  intro data. destruct data as [|p data'] eqn:Hd.
  - vm_compute. split; discriminate.
  - rewrite <- Hd. rewrite regression_unfold by (subst data; discriminate).
    cbn [Regression.r2]. apply parseFloat_toFixed_unit.
    unfold rawR2, num_eq.
    pose proof (ssRes_nonneg data) as Hres. pose proof (ssTot_nonneg data) as Htot.
    destruct (Qeq_bool (ssTot data) 0) eqn:E; cbn [negb]; num_facts.
    + change (Math_max 0 0) with 0. lra.
    + assert (Hpos : 0 < ssTot data).
      { apply Qle_lteq in Htot. destruct Htot as [Hlt|Heq]; [exact Hlt|].
        exfalso. apply E. symmetry. exact Heq. }
      assert (Hq : 0 <= ssRes data / ssTot data)
        by (apply Qle_shift_div_l; [exact Hpos|lra]).
      minmax_cases; lra.
Qed.


Lemma noisy_week_in_range : forall d, In d noisy_week -> in_range (DailyRevenue.revenue d).
Proof.
  intros d [<-|[<-|[<-|[<-|[<-|[]]]]]]; vm_compute; discriminate.
Defined.


Lemma reduce_sum_scale : forall {A : Type} (f : A -> Q) (c : Q) (l : list A),
  reduce_sum (fun x => c * f x) l == c * reduce_sum f l.
Proof.
  intros A f c. induction l as [|x l IH].
  - unfold reduce_sum. simpl. ring.
  - rewrite !reduce_sum_cons, IH. ring.
Qed.

Lemma reduce_sum_plus : forall {A : Type} (f g : A -> Q) (l : list A),
  reduce_sum (fun x => f x + g x) l == reduce_sum f l + reduce_sum g l.
Proof.
  intros A f g. induction l as [|x l IH].
  - unfold reduce_sum. simpl. ring.
  - rewrite !reduce_sum_cons, IH. ring.
Qed.

Lemma reduce_sum_term_le : forall {A : Type} (f : A -> Q) (l : list A) (x : A),
  (forall y, In y l -> 0 <= f y) -> In x l -> f x <= reduce_sum f l.
Proof.
  intros A f. induction l as [|y l IH]; intros x Hpos Hx; [destruct Hx|].
  rewrite reduce_sum_cons.
  assert (Hy : 0 <= f y) by (apply Hpos; left; reflexivity).
  assert (Hl : 0 <= reduce_sum f l)
    by (apply reduce_sum_nonneg; intros z Hz; apply Hpos; right; exact Hz).
  destruct Hx as [->|Hx]; [lra|].
  assert (f x <= reduce_sum f l)
    by (apply IH; [intros z Hz; apply Hpos; right; exact Hz|exact Hx]).
  lra.
Qed.

Section ExactLine.
Variable data : list Point.t.
Variables m c : Q.
Hypothesis Hline : forall p, In p data -> Point.y p == m * Point.x p + c.
Hypothesis Hspread : exists p q, In p data /\ In q data /\ ~ Point.x p == Point.x q.

Lemma line_nonempty : data <> [].
Proof. destruct Hspread as (p & _ & Hp & _). intros ->. destruct Hp. Qed.

Lemma line_length_pos : 0 < num_length data.
Proof.
  pose proof line_nonempty as Hne. destruct data as [|p l]; [contradiction|].
  apply num_length_pos.
Qed.

Lemma line_meanY : meanY data == m * meanX data + c.
Proof.
  unfold meanY, meanX. pose proof line_length_pos as Hn.
  rewrite (reduce_sum_ext Point.y (fun p => m * Point.x p + c) data Hline).
  rewrite (reduce_sum_plus (fun p => m * Point.x p) (fun _ => c)).
  rewrite reduce_sum_scale, (reduce_sum_const (fun _ => c) c) by (intros; reflexivity).
  field. lra.
Qed.

Lemma line_covXY : covXY data == m * varX data.
Proof.
  unfold covXY, varX. rewrite <- reduce_sum_scale.
  apply reduce_sum_ext. intros p Hp. rewrite (Hline p Hp), line_meanY. ring.
Qed.

Lemma line_varX_pos : 0 < varX data.
Proof.
  destruct Hspread as (p & q & Hp & Hq & Hpq).
  assert (Hsq : forall r, In r data ->
            0 <= (Point.x r - meanX data) * (Point.x r - meanX data)).
  { intros r _. apply (Math_pow2_nonneg (Point.x r - meanX data)). }
  assert (Hfar : exists r, In r data /\ ~ Point.x r == meanX data).
  { destruct (Qeq_dec (Point.x p) (meanX data)) as [Ep|Ep]; [|exists p; split; assumption].
    exists q. split; [exact Hq|]. intro Eq. apply Hpq. rewrite Ep, Eq. reflexivity. }
  destruct Hfar as (r & Hr & Hne).
  apply Qlt_le_trans with ((Point.x r - meanX data) * (Point.x r - meanX data)).
  - pose proof (Hsq r Hr) as H0. apply Qle_lteq in H0. destruct H0 as [Hlt|Heq]; [exact Hlt|].
    exfalso. apply Hne. symmetry in Heq. apply Qmult_integral in Heq.
    destruct Heq; lra.
  - apply (reduce_sum_term_le
             (fun r => (Point.x r - meanX data) * (Point.x r - meanX data)) data r Hsq Hr).
Qed.

Lemma line_rawSlope : rawSlope data == m.
Proof.
  unfold rawSlope, num_eq. pose proof line_varX_pos as Hv.
  destruct (Qeq_bool (varX data) 0) eqn:E; num_facts; [lra|].
  cbn [negb]. rewrite line_covXY. field. lra.
Qed.

Lemma line_rawIntercept : rawIntercept data == c.
Proof. unfold rawIntercept. rewrite line_rawSlope, line_meanY. ring. Qed.

Lemma line_ssRes : ssRes data == 0.
Proof.
  unfold ssRes.
  rewrite (reduce_sum_const _ 0); [ring|].
  intros p Hp. unfold Math_pow2.
  change ((Point.y p - (rawSlope data * Point.x p + rawIntercept data)) ^ 2)
    with ((Point.y p - (rawSlope data * Point.x p + rawIntercept data))
          * (Point.y p - (rawSlope data * Point.x p + rawIntercept data))).
  rewrite line_rawSlope, line_rawIntercept, (Hline p Hp). ring.
Qed.

Lemma line_ssTot : ssTot data == m * m * varX data.
Proof.
  unfold ssTot, varX. rewrite <- reduce_sum_scale.
  apply reduce_sum_ext. intros p Hp. unfold Math_pow2.
  change ((Point.y p - meanY data) ^ 2)
    with ((Point.y p - meanY data) * (Point.y p - meanY data)).
  rewrite (Hline p Hp), line_meanY. ring.
Qed.

Lemma line_rawR2 : rawR2 data == if Qeq_bool m 0 then 0 else 1.
Proof.
  unfold rawR2, num_eq. pose proof line_varX_pos as Hv.
  destruct (Qeq_bool m 0) eqn:Em; num_facts.
  - assert (Hz : Qeq_bool (ssTot data) 0 = true).
    { apply Qeq_bool_iff. rewrite line_ssTot, Em. ring. }
    rewrite Hz. reflexivity.
  - assert (Hnz : ~ ssTot data == 0).
    { rewrite line_ssTot. intro Hz. apply Qmult_integral in Hz.
      destruct Hz as [Hz|Hz]; [|lra]. apply Qmult_integral in Hz. destruct Hz; contradiction. }
    destruct (Qeq_bool (ssTot data) 0) eqn:E; num_facts; [contradiction|].
    cbn [negb]. rewrite line_ssRes. field. exact Hnz.
Qed.
End ExactLine.

Lemma regression_exact_line :
  forall (data : list Point.t) (m c : Q),
  (forall p, In p data -> Point.y p == m * Point.x p + c) ->
  (exists p q, In p data /\ In q data /\ ~ Point.x p == Point.x q) ->
  Regression.slope (calculateLinearRegression data) == parseFloat_toFixed m 4
  /\ Regression.intercept (calculateLinearRegression data) == parseFloat_toFixed c 4
  /\ Regression.r2 (calculateLinearRegression data) == (if Qeq_bool m 0 then 0 else 1).
Proof.
  intros data m c Hline Hspread.
  assert (Hne : data <> []) by (destruct Hspread as (p & _ & Hp & _); intros ->; destruct Hp).
  rewrite (regression_unfold data Hne).
  cbn [Regression.slope Regression.intercept Regression.r2].
  split; [|split].
  - rewrite (line_rawSlope data m c Hline Hspread). reflexivity.
  - rewrite (line_rawIntercept data m c Hline Hspread). reflexivity.
  - rewrite (line_rawR2 data m c Hline Hspread).
    destruct (Qeq_bool m 0).
    + change (Math_max 0 0) with 0. apply parseFloat_toFixed_0.
    + change (Math_max 0 1) with 1. apply parseFloat_toFixed_1.
Qed.

Lemma indexed_spread : forall (a b : DailyRevenue.t) (l : list DailyRevenue.t),
  exists p q, In p (indexed 0 (a :: b :: l)) /\ In q (indexed 0 (a :: b :: l))
              /\ ~ Point.x p == Point.x q.
Proof.
  intros a b l. eexists. eexists. simpl.
  split; [left; reflexivity|split; [right; left; reflexivity|]].
  simpl. discriminate.
Qed.



(** ** Forecast points *)



(** ** Moving averages *)

Lemma map_index_map : forall {A B C : Type} (f : A -> nat -> B) (g : B -> C) (h : A -> C)
                             (l : list A) (i : nat),
  (forall x k, g (f x k) = h x) -> map g (map_index f i l) = map h l.
Proof.
  intros A B C f g h l. induction l as [|x l IH]; intros i Hgh; simpl; [reflexivity|].
  rewrite Hgh, (IH (S i) Hgh). reflexivity.
Qed.

Lemma StronglySorted_by_key : forall {A K : Type} (key : A -> K) (R : K -> K -> Prop)
                                    (l l' : list A),
  map key l = map key l' ->
  StronglySorted (fun a b => R (key a) (key b)) l ->
  StronglySorted (fun a b => R (key a) (key b)) l'.
Proof.
  intros A K key R l. induction l as [|x l IH]; intros [|x' l'] Hmap Hs;
    try discriminate Hmap; [constructor|].
  injection Hmap as Hx Hl. inversion Hs as [|? ? Hs' Hall]; subst.
  constructor; [apply (IH l' Hl Hs')|].
  apply Forall_forall. intros z Hz.
  apply (in_map key) in Hz. rewrite <- Hl in Hz. apply in_map_iff in Hz.
  destruct Hz as (y & Hy & Hin). rewrite <- Hx, <- Hy.
  apply (proj1 (Forall_forall _ _) Hall y Hin).
Qed.

(** With a window of 1 the window at [index] is the element at [index]. *)
Lemma window_of_one : forall {A : Type} (l : list A) (i : nat) (x : A),
  nth_error l i = Some x -> trailingWindow l 1 i = [x].
Proof.
  intros A l i x Hx. unfold trailingWindow, slice.
  replace (Z.to_nat (Z.max 0 (Z.of_nat i - 1 + 1))) with i by lia.
  replace (i + 1 - i)%nat with 1%nat by lia.
  revert i Hx. induction l as [|y l IH]; intros [|i] Hx; try discriminate Hx.
  - injection Hx as ->. reflexivity.
  - apply (IH i Hx).
Qed.

Lemma single_mean : forall {A : Type} (f : A -> Q) (x : A),
  reduce_sum f [x] / num_length [x] == f x.
Proof.
  intros A f x. unfold reduce_sum, num_length. simpl.
  change (inject_Z 1) with 1. field.
Qed.

Lemma map_index_Forall2 : forall {A B : Type} (f : A -> nat -> B) (R : B -> A -> Prop)
                                 (whole : list A) (l : list A) (i : nat),
  (forall k x, nth_error whole k = Some x -> R (f x k) x) ->
  (forall k, nth_error l k = nth_error whole (i + k)) ->
  Forall2 R (map_index f i l) l.
Proof.
  intros A B f R whole. induction l as [|x l IH]; intros i Hf Hnth; simpl; constructor.
  - apply Hf. rewrite <- (Nat.add_0_r i). rewrite <- Hnth. reflexivity.
  - apply (IH (S i) Hf). intro k. rewrite Nat.add_succ_comm. apply (Hnth (S k)).
Qed.

(** X23.  [calculateMovingAverage] of the forecaster returns one entry per
    day of the series, with the dates of the input put in time order;
    with a window of 1 each entry carries the revenue and the cost of its
    day, rounded to 2 decimals. *)
Theorem moving_average_in_time_order :
  forall {Date : Type} {dateAPI : DateAPI Date}
         (dailyRevenue : list DailyRevenue.t) (windowSize : Z),
  let smoothed := Forecasting.calculateMovingAverage dailyRevenue windowSize in
  let time := fun d => Date_getTime (Date_parse (DailyRevenue.date d)) in
  List.length smoothed = List.length dailyRevenue
  /\ Permutation (map DailyRevenue.date dailyRevenue) (map DailyRevenue.date smoothed)
  /\ StronglySorted (fun a b => time a <= time b) smoothed
  /\ (windowSize = 1%Z ->
      Forall2 (fun s d => DailyRevenue.date s = DailyRevenue.date d
                          /\ DailyRevenue.revenue s
                             == parseFloat_toFixed (DailyRevenue.revenue d) 2
                          /\ DailyRevenue.cost s
                             == parseFloat_toFixed (DailyRevenue.cost d) 2)
              smoothed
              (sort (fun a b => time a - time b) dailyRevenue)).
Proof.
  intros Date dateAPI dailyRevenue windowSize smoothed time. subst smoothed.
  unfold Forecasting.calculateMovingAverage.
  change (fun a b : DailyRevenue.t =>
            Date_getTime (Date_parse (DailyRevenue.date a))
            - Date_getTime (Date_parse (DailyRevenue.date b)))
    with (fun a b : DailyRevenue.t => time a - time b).
  set (cmp := fun a b : DailyRevenue.t => time a - time b).
  set (sorted := sort cmp dailyRevenue).
  set (f := fun (day : DailyRevenue.t) (index : nat) => _).
  assert (Hdates : map DailyRevenue.date (map_index f 0 sorted)
                   = map DailyRevenue.date sorted).
  { apply map_index_map. intros x k. reflexivity. }
  split; [|split; [|split]].
  - rewrite <- (length_map DailyRevenue.date), Hdates, length_map.
    symmetry. apply Permutation_length. apply sort_perm.
  - rewrite Hdates. apply Permutation_map. apply sort_perm.
  - apply (StronglySorted_by_key DailyRevenue.date
             (fun a b => Date_getTime (Date_parse a) <= Date_getTime (Date_parse b))
             sorted _ (eq_sym Hdates)).
    apply (StronglySorted_weaken (fun a b => cmp a b <= 0)).
    + intros a b _ _ Hab. unfold cmp, time in Hab. lra.
    + apply sort_sorted; unfold cmp; intros; lra.
  - intros ->. apply (map_index_Forall2 f _ sorted sorted 0).
    + intros k x Hx. subst f. cbn beta.
      cbn [DailyRevenue.date DailyRevenue.revenue DailyRevenue.cost].
      rewrite (window_of_one sorted k x Hx).
      split; [reflexivity|].
      split; apply parseFloat_toFixed_comp; try reflexivity; apply single_mean.
    + intro k. reflexivity.
Qed.

(** X24.  [calculateMovingAverage] of [lib/utils] returns one average per
    input value, and with a window of 1 it returns the values themselves. *)
Theorem utils_moving_average_window_one :
  forall (data : list Q) (windowSize : Z),
  List.length (Utils.calculateMovingAverage data windowSize) = List.length data
  /\ (windowSize = 1%Z -> Forall2 Qeq (Utils.calculateMovingAverage data windowSize) data).
Proof.
  intros data windowSize. unfold Utils.calculateMovingAverage. split.
  - rewrite length_map, length_seq. reflexivity.
  - intros ->.
    assert (H : forall (l : list Q) (i : nat),
              (forall k, nth_error l k = nth_error data (i + k)) ->
              Forall2 Qeq
                (map (fun i => let start := Z.max 0 (Z.of_nat i - 1 + 1) in
                               let window := slice (Z.to_nat start) (i + 1) data in
                               reduce_sum (fun val => val) window / num_length window)
                     (seq i (List.length l)))
                l).
    { induction l as [|x l IH]; intros i Hnth; simpl; constructor.
      - pose proof (Hnth 0%nat) as H0. rewrite Nat.add_0_r in H0. simpl in H0.
        pose proof (window_of_one data i x (eq_sym H0)) as Hw.
        unfold trailingWindow in Hw. rewrite Hw. apply single_mean.
      - apply (IH (S i)). intro k. rewrite Nat.add_succ_comm. apply (Hnth (S k)). }
    apply (H data 0%nat). intro k. reflexivity.
Qed.

(** ** Forecast accuracy *)

Lemma actualMapOf_In : forall actual k v,
  In (k, v) (actualMapOf actual) ->
  exists d, In d actual /\ DailyRevenue.date d = k /\ DailyRevenue.revenue d = v.
Proof.
  intros actual k v. unfold actualMapOf.
  assert (Hgen : forall m,
            In (k, v) (fold_left (fun m d => Map_set m (DailyRevenue.date d)
                                               (DailyRevenue.revenue d)) actual m) ->
            In (k, v) m
            \/ exists d, In d actual /\ DailyRevenue.date d = k /\ DailyRevenue.revenue d = v).
  { induction actual as [|d actual IH]; intros m Hin; simpl in Hin; [left; exact Hin|].
    destruct (IH _ Hin) as [Hm|(d' & Hd' & Hk & Hv)].
    - apply Map_set_In in Hm. destruct Hm as [Heq|Hm]; [|left; exact Hm].
      injection Heq as Hk Hv. right. exists d.
      split; [left; reflexivity|split; symmetry; assumption].
    - right. exists d'. split; [right; exact Hd'|split; assumption]. }
  intro Hin. destruct (Hgen [] Hin) as [[]|Hex]. exact Hex.
Qed.

Lemma Math_abs_nonneg : forall x, 0 <= Math_abs x.
Proof. intro x. apply Qabs_nonneg. Qed.

(** The loop of [calculateForecastAccuracy] keeps its totals and its count
    non-negative, and the totals at 0 when every matched prediction is
    exact. *)
Lemma accuracy_loop : forall actualMap predictions tpe tse count,
  0 <= tpe -> 0 <= tse -> 0 <= count ->
  let '(tpe', tse', count') :=
    fold_left (accuracyStep actualMap) predictions (tpe, tse, count) in
  0 <= tpe' /\ 0 <= tse' /\ 0 <= count'
  /\ ((forall pred v, In pred predictions ->
         Map_get actualMap (ForecastPoint.date pred) = Some v ->
         ForecastPoint.predicted pred == v) ->
      tpe' == tpe /\ tse' == tse).
Proof.
  intros actualMap. induction predictions as [|pred predictions IH];
    intros tpe tse count Hp Hs Hc.
  - simpl. repeat split; try assumption; reflexivity.
  - cbn [fold_left]. unfold accuracyStep at 2.
    destruct (Map_get actualMap (ForecastPoint.date pred)) as [actualValue|] eqn:Hget.
    + destruct (num_eq actualValue 0) eqn:Hz; cbn [negb].
      * specialize (IH tpe tse count Hp Hs Hc).
        destruct (fold_left (accuracyStep actualMap) predictions (tpe, tse, count))
          as [[tpe' tse'] count'].
        destruct IH as (H1 & H2 & H3 & H4). repeat split; try assumption;
          apply H4; intros p v Hin; apply H; right; exact Hin.
      * set (pe := Math_abs ((actualValue - ForecastPoint.predicted pred) / actualValue)).
        set (sq := Math_pow2 (actualValue - ForecastPoint.predicted pred)).
        pose proof (Math_abs_nonneg ((actualValue - ForecastPoint.predicted pred)
                                     / actualValue)) as Hpe.
        pose proof (Math_pow2_nonneg (actualValue - ForecastPoint.predicted pred)) as Hsq.
        fold pe in Hpe. fold sq in Hsq.
        specialize (IH (tpe + pe) (tse + sq) (count + 1)
                       ltac:(lra) ltac:(lra) ltac:(lra)).
        destruct (fold_left (accuracyStep actualMap) predictions
                    (tpe + pe, tse + sq, count + 1)) as [[tpe' tse'] count'].
        destruct IH as (H1 & H2 & H3 & H4). repeat split; try assumption.
        -- destruct H4 as [H4 _]; [intros p v Hin; apply H; right; exact Hin|].
           rewrite H4. subst pe.
           rewrite (H pred actualValue (or_introl Logic.eq_refl) Hget).
           setoid_replace ((actualValue - actualValue) / actualValue) with 0
             by (unfold Qdiv; ring).
           change (Math_abs 0) with 0. ring.
        -- destruct H4 as [_ H4]; [intros p v Hin; apply H; right; exact Hin|].
           rewrite H4. subst sq. unfold Math_pow2.
           change ((actualValue - ForecastPoint.predicted pred) ^ 2)
             with ((actualValue - ForecastPoint.predicted pred)
                   * (actualValue - ForecastPoint.predicted pred)).
           rewrite (H pred actualValue (or_introl Logic.eq_refl) Hget). ring.
    + specialize (IH tpe tse count Hp Hs Hc).
      destruct (fold_left (accuracyStep actualMap) predictions (tpe, tse, count))
        as [[tpe' tse'] count'].
      destruct IH as (H1 & H2 & H3 & H4). repeat split; try assumption;
        apply H4; intros p v Hin; apply H; right; exact Hin.
Qed.

(** X25.  [calculateForecastAccuracy] answers 0 and 0 when there are no
    actual days or no predictions; its MAPE is never negative; and when
    every prediction equals the actual revenue of its date, MAPE and RMSE
    are both 0. *)
Theorem forecast_accuracy_perfect :
  forall {sqrtAPI : SqrtAPI} (actual : list DailyRevenue.t)
         (predictions : list ForecastPoint.t),
  (actual = [] \/ predictions = [] ->
   calculateForecastAccuracy actual predictions = Accuracy.mk 0 0)
  /\ 0 <= Accuracy.mape (calculateForecastAccuracy actual predictions)
  /\ ((forall pred d, In pred predictions -> In d actual ->
         ForecastPoint.date pred = DailyRevenue.date d ->
         ForecastPoint.predicted pred == DailyRevenue.revenue d) ->
      Accuracy.mape (calculateForecastAccuracy actual predictions) == 0
      /\ Accuracy.rmse (calculateForecastAccuracy actual predictions) == 0).
Proof.
  intros sqrtAPI actual predictions. unfold calculateForecastAccuracy.
  split; [intros [-> | ->]; [reflexivity|]|].
  { destruct (num_eq (num_length actual) 0); reflexivity. }
  destruct (num_eq (num_length actual) 0 || num_eq (num_length predictions) 0).
  { cbn [Accuracy.mape Accuracy.rmse]. split; [apply Qle_refl|].
    intros _. split; reflexivity. }
  pose proof (accuracy_loop (actualMapOf actual) predictions 0 0 0
                (Qle_refl 0) (Qle_refl 0) (Qle_refl 0)) as Hloop.
  destruct (fold_left (accuracyStep (actualMapOf actual)) predictions (0, 0, 0))
    as [[tpe tse] count].
  destruct Hloop as (Hp & Hs & Hc & Hexact).
  cbn [Accuracy.mape Accuracy.rmse]. split.
  - apply parseFloat_toFixed_sign. unfold num_gt.
    destruct (num_lt 0 count) eqn:E; num_facts; [|apply Qle_refl].
    apply Qle_shift_div_l; [exact E|lra].
  - intro Hperfect.
    destruct Hexact as [Hp0 Hs0].
    { intros pred v Hin Hget. apply Map_get_In in Hget. apply actualMapOf_In in Hget.
      destruct Hget as (d & Hd & Hdate & <-).
      apply (Hperfect pred d Hin Hd). symmetry. exact Hdate. }
    unfold num_gt. destruct (num_lt 0 count) eqn:E; num_facts.
    + split.
      * rewrite <- (parseFloat_toFixed_0 4). apply parseFloat_toFixed_comp; [|reflexivity].
        rewrite Hp0. field. lra.
      * rewrite <- (parseFloat_toFixed_0 2). apply parseFloat_toFixed_comp; [|reflexivity].
        apply Math_sqrt_zero. rewrite Hs0. field. lra.
    + split; apply parseFloat_toFixed_0.
Qed.

Lemma forecast_accuracy_perfect_witness :
  let actual := [day "2024-03-06" 120; day "2024-03-07" 0] in
  let predictions :=
    [ForecastPoint.mk "2024-03-06" 120 (Confidence.mk 100 140);
     ForecastPoint.mk "2024-03-07" 0 (Confidence.mk 0 20);
     ForecastPoint.mk "2024-03-08" 130 (Confidence.mk 110 150)] in
  Accuracy.mape (calculateForecastAccuracy (sqrtAPI := Runtime.Sqrt8) actual predictions) == 0
  /\ Accuracy.rmse (calculateForecastAccuracy (sqrtAPI := Runtime.Sqrt8) actual predictions)
     == 0.
Proof.
  cbv zeta.
  apply (forecast_accuracy_perfect (sqrtAPI := Runtime.Sqrt8)
           [day "2024-03-06" 120; day "2024-03-07" 0]).
  intros pred d [<-|[<-|[<-|[]]]] [<-|[<-|[]]] Hdate;
    try reflexivity; vm_compute in Hdate; discriminate.
Defined.

(** ** [lib/utils]: health score and grouping *)



Section GroupingFacts.
Context {Date : Type} {dateAPI : DateAPI Date} {T : Type}.
Variable date : T -> string + Date.

Lemma Map_set_append_perm : forall (m : list (string * list T)) k item,
  Permutation (List.concat (map snd (Map_set m k (Map_get_or m k [] ++ [item])%list)))
              (item :: List.concat (map snd m)).
Proof.
  intros m k item. unfold Map_get_or. induction m as [|[k0 g0] m IH]; simpl.
  - apply Permutation_refl.
  - destruct (String.eqb k0 k); simpl.
    + rewrite <- app_assoc. simpl. apply Permutation_sym.
      apply Permutation_cons_app. apply Permutation_refl.
    + apply (perm_trans (Permutation_app_head g0 IH)).
      apply Permutation_sym. apply Permutation_cons_app. apply Permutation_refl.
Qed.

Lemma Map_get_or_group : forall (m : list (string * list T)) k,
  (forall k' g x, In (k', g) m -> In x g -> Utils.groupKey date x = k') ->
  forall x, In x (Map_get_or m k []) -> Utils.groupKey date x = k.
Proof.
  intros m k Hm x Hx. unfold Map_get_or in Hx.
  destruct (Map_get m k) as [g|] eqn:Hget; [|destruct Hx].
  apply (Hm k g x (Map_get_In m k g Hget) Hx).
Qed.

Lemma groupByDate_loop : forall (items : list T) (m : list (string * list T)),
  NoDup (map fst m) ->
  (forall k g x, In (k, g) m -> In x g -> Utils.groupKey date x = k) ->
  let grouped :=
    fold_left (fun grouped item =>
                 Map_set grouped (Utils.groupKey date item)
                   (Map_get_or grouped (Utils.groupKey date item) [] ++ [item])%list)
              items m in
  NoDup (map fst grouped)
  /\ (forall k g x, In (k, g) grouped -> In x g -> Utils.groupKey date x = k)
  /\ Permutation (List.concat (map snd grouped)) (items ++ List.concat (map snd m))%list.
Proof.
  induction items as [|item items IH]; intros m Hnd Hkeys; cbn [fold_left].
  - split; [exact Hnd|split; [exact Hkeys|apply Permutation_refl]].
  - set (k := Utils.groupKey date item).
    set (m' := Map_set m k (Map_get_or m k [] ++ [item])%list).
    assert (Hnd' : NoDup (map fst m')) by (apply Map_set_NoDup; exact Hnd).
    assert (Hkeys' : forall k' g x, In (k', g) m' -> In x g -> Utils.groupKey date x = k').
    { intros k' g x Hin Hx. apply Map_set_In in Hin. destruct Hin as [Heq|Hin].
      - injection Heq as -> ->. apply in_app_or in Hx. destruct Hx as [Hx|[<-|[]]].
        + apply (Map_get_or_group m k Hkeys x Hx).
        + reflexivity.
      - apply (Hkeys k' g x Hin Hx). }
    destruct (IH m' Hnd' Hkeys') as (H1 & H2 & H3).
    split; [exact H1|split; [exact H2|]].
    apply (perm_trans H3). simpl.
    apply (perm_trans (Permutation_app_head items (Map_set_append_perm m k item))).
    apply Permutation_sym. apply Permutation_cons_app. apply Permutation_refl.
Qed.
End GroupingFacts.

Section GroupingOrder.
Context {Date : Type} {dateAPI : DateAPI Date} {T : Type}.
Variable date : T -> string + Date.

(** The items filed under key [k], in input order. *)
Definition itemsOn (k : string) (items : list T) : list T :=
  filter (fun item => String.eqb (Utils.groupKey date item) k) items.

Lemma groupByDate_order : forall (items done : list T) (m : list (string * list T)),
  (forall k, Map_get_or m k [] = itemsOn k done) ->
  forall k,
    Map_get_or
      (fold_left (fun grouped item =>
                    Map_set grouped (Utils.groupKey date item)
                      (Map_get_or grouped (Utils.groupKey date item) [] ++ [item])%list)
                 items m) k []
    = itemsOn k (done ++ items)%list.
Proof.
  induction items as [|item items IH]; intros done m Hm k; cbn [fold_left].
  - rewrite app_nil_r. apply Hm.
  - replace (done ++ item :: items)%list with ((done ++ [item]) ++ items)%list
      by (rewrite <- app_assoc; reflexivity).
    apply IH. intro k'. unfold Map_get_or at 1. rewrite Map_get_set.
    unfold itemsOn. rewrite filter_app. simpl.
    destruct (String.eqb (Utils.groupKey date item) k') eqn:E.
    + apply String.eqb_eq in E. subst k'. rewrite Hm. reflexivity.
    + rewrite app_nil_r. apply (Hm k').
Qed.
Lemma groupByDate_no_empty_group : forall (items : list T) (m : list (string * list T)) k,
  ~ In (k, []) m ->
  ~ In (k, [])
      (fold_left (fun grouped item =>
                    Map_set grouped (Utils.groupKey date item)
                      (Map_get_or grouped (Utils.groupKey date item) [] ++ [item])%list)
                 items m).
Proof.
  induction items as [|x items IH]; intros m k Hm; cbn [fold_left]; [exact Hm|].
  apply IH. intro Hin. apply Map_set_In in Hin. destruct Hin as [Heq|Hin].
  - injection Heq as _ Heq.
    destruct (Map_get_or m (Utils.groupKey date x) []); discriminate Heq.
  - exact (Hm Hin).
Qed.
End GroupingOrder.

(** X27.  [groupByDate] files every item under its own date key exactly
    once: the keys of the result are pairwise distinct, the group stored
    under a key is exactly the items with that key in their input order
    (so no group is empty), and the groups together are a rearrangement of
    the input. *)
Theorem groupByDate_partition :
  forall (Date : Type) (dateAPI : DateAPI Date) (T : Type)
         (date : T -> string + Date) (items : list T),
  let grouped := Utils.groupByDate date items in
  NoDup (map fst grouped)
  /\ (forall k group, In (k, group) grouped ->
        group = itemsOn date k items /\ group <> [])
  /\ Permutation (List.concat (map snd grouped)) items.
Proof.
  intros Date dateAPI T date items grouped.
  destruct (groupByDate_loop date items [] (NoDup_nil _)
              (fun k g x (H : In (k, g) []) _ => match H with end))
    as (Hnd & Hkeys & Hperm).
  fold (Utils.groupByDate date items) in Hnd, Hkeys, Hperm. fold grouped in Hnd, Hkeys, Hperm.
  split; [exact Hnd|split].
  - intros k group Hin.
    assert (Hgroup : group = itemsOn date k items).
    { pose proof (groupByDate_order date items [] [] (fun _ => eq_refl) k) as Hord.
      fold (Utils.groupByDate date items) in Hord. fold grouped in Hord.
      unfold Map_get_or in Hord. rewrite (Map_in_get grouped k group Hnd Hin) in Hord.
      exact Hord. }
    split; [exact Hgroup|].
    intro Hnil. subst group. rewrite Hnil in Hin.
    apply (groupByDate_no_empty_group date items [] k (fun H => H) Hin).
  - rewrite app_nil_r in Hperm. exact Hperm.
Qed.

(** ** [core/insight-engine]: the cap on the fallback insights *)

(** X28.  The cap [slice(0, 6)] of [generateFallbackInsights] never drops
    an insight: each of the five rules contributes at most one, so at most
    five are produced and all of them are returned, in rule order. *)
Theorem fallback_cap_never_cuts :
  forall (Date : Type) (now : Date) (metrics : MetricsForInsight.t),
  let insights := InsightEngineResult.insights (generateFallbackInsights now metrics) in
  (List.length insights <= 5)%nat
  /\ insights = (concentrationRule metrics ++ marginRule metrics ++ trendRule metrics
                   ++ anomalyRule metrics ++ healthRule metrics)%list.
Proof.
  intros Date now metrics insights. subst insights.
  rewrite fallback_insights_rules. split; [|reflexivity].
  rewrite !length_app.
  destruct (rule_lengths metrics) as (H1 & H2 & H3 & H4 & H5). lia.
Qed.
